(** * Template generation demos: filters, request handlers and pages

    A shallow embedding of the Python code that the repository itself
    writes: the template filters ([truncate_text], [currency_filter] and
    [format_currency], [date_format_filter]), the Flask handlers of app.py
    over the [PRODUCTS] list ([index], [get_products], [product_detail]),
    [product_detail] of simple_app.py, the page generator
    [generate_home_page] and [product_detail] of run_app.py, and the report
    methods of word-document-generator.py.  The template engine that the
    scripts call is a library and is not part of this development.

    Conventions.
    - A Python [str] is a Rocq [string]; [len] is its number of characters.
      Literals of the pages that lie outside the 8-bit alphabet are carried
      as their UTF-8 bytes; the code concatenates them, and repeats one
      ([str_mul], which counts characters and not bytes).
    - A Python [int] is a [Z]; a Python [float] is a binary64 number, written
      with primitive floats and read through [Prim2SF] as sign, mantissa and
      exponent.
    - An exception is the [Raise] case of [outcome].
    - The global list object [PRODUCTS] lives in a store of list objects, so
      that aliasing ([filtered_products = PRODUCTS]) and allocation (a list
      comprehension) are told apart.
    - Functions of the standard library and of Flask whose text is not in
      the repository ([str.lower], [datetime.fromisoformat], [strftime],
      [str] and [sum] on floats, [render_template]) are section variables:
      every theorem holds for whatever they compute.  So are the answers
      of the environment: whether the interpreter obtains the memory of a
      string ([allocates]), and the exception, if any, that a call of the
      python-docx library raises ([docx]). *)

From Stdlib Require Import ZArith Lia Floats Ascii String List.
From Stdlib Require Import DecimalString DecimalPos DecimalN.
From stdpp Require Import base gmap strings list.

Set Warnings "-inexact-float".
#[local] Open Scope string_scope.
#[local] Open Scope Z_scope.

(** ** Python strings *)

Module PyStr.

(** [len(s)] *)
Definition len (s : string) : Z := Z.of_nat (String.length s).

(** [s[:stop]]: a negative [stop] counts from the end, and the bounds are
    clipped to the string. *)
Definition slice_to (s : string) (stop : Z) : string :=
  let n := len s in
  let k := if stop <? 0 then Z.max (n + stop) 0 else Z.min stop n in
  String.substring 0 (Z.to_nat k) s.

(** [s.replace(old, new)] for a one-character [old]: every occurrence is
    replaced, left to right. *)
Fixpoint replace (old : ascii) (new : string) (s : string) : string :=
  match s with
  | EmptyString => EmptyString
  | String c rest =>
      if Ascii.eqb c old then new +:+ replace old new rest
      else String c (replace old new rest)
  end.

(** The text of [s * n] when the interpreter builds it: [n] copies of
    [s], none for a count below one.  The exceptions of [*] are in
    [str_mul] below. *)
Fixpoint repeat_nat (s : string) (n : nat) : string :=
  match n with
  | O => EmptyString
  | S k => s +:+ repeat_nat s k
  end.

Definition repeat (s : string) (n : Z) : string := repeat_nat s (Z.to_nat n).

(** The number of characters (code points) of a text written in UTF-8, as
    the page literals are: every byte but the continuation bytes
    [0x80-0xBF] starts one. *)
Definition starts_char (c : ascii) : bool :=
  let n := N_of_ascii c in negb ((128 <=? n)%N && (n <? 192)%N).

Definition chars (s : string) : Z :=
  Z.of_nat (length (List.filter starts_char (list_ascii_of_string s))).

(** [str.lower] on one character of the 8-bit alphabet: the letters A-Z and
    the capital letters of the Latin-1 block (all of 0xC0-0xDE but the
    multiplication sign 0xD7) move by 32; every other character stays. *)
Definition lower_char (c : ascii) : ascii :=
  let n := N_of_ascii c in
  if ((65 <=? n) && (n <=? 90))%N then ascii_of_N (n + 32)
  else if ((192 <=? n) && (n <=? 222) && negb (n =? 215))%N then ascii_of_N (n + 32)
  else c.

Fixpoint lower (s : string) : string :=
  match s with
  | EmptyString => EmptyString
  | String c rest => String (lower_char c) (lower rest)
  end.

(** Truth value of a [str]: only the empty string is false. *)
Definition truthy (s : string) : bool :=
  match s with EmptyString => false | _ => true end.

(** [sep.join(parts)] *)
Fixpoint join (sep : string) (parts : list string) : string :=
  match parts with
  | [] => EmptyString
  | [p] => p
  | p :: rest => p +:+ sep +:+ join sep rest
  end.

End PyStr.

(** The double quote and the line feed, which page literals splice in. *)
Definition dq : string := String (ascii_of_nat 34) EmptyString.
Definition nl : string := String (ascii_of_nat 10) EmptyString.

(** ** Exceptions *)

Inductive exn : Type :=
  | ValueError
  | OverflowError
  | TypeError
  | AttributeError
  | MemoryError.

Inductive outcome (A : Type) : Type :=
  | Return (a : A)
  | Raise (e : exn).
Arguments Return {A} a.
Arguments Raise {A} e.

Definition obind {A B} (m : outcome A) (k : A -> outcome B) : outcome B :=
  match m with
  | Return a => k a
  | Raise e => Raise e
  end.

(** [try: body / except: handler]: a bare [except] catches every exception. *)
Definition try_except {A} (body : outcome A) (handler : outcome A) : outcome A :=
  match body with
  | Return a => Return a
  | Raise _ => handler
  end.

(** [sys.maxsize], the largest index, on a 64-bit build. *)
Definition maxsize : Z := 2 ^ 63 - 1.

(** [s * n] for a string and an int.  The count is first converted to an
    index: [OverflowError] when it does not fit one.  A count below one
    gives the empty string and the count one gives [s] itself.  Otherwise
    [OverflowError] when the length of the result would not fit an index,
    and [MemoryError] when the interpreter cannot obtain the memory of the
    result: [allocates k] tells whether it obtains a string of [k]
    characters. *)
Definition str_mul (allocates : Z -> bool) (s : string) (n : Z) : outcome string :=
  if (n <? - 2 ^ 63) || (maxsize <? n) then Raise OverflowError
  else if n <? 1 then Return EmptyString
  else if n =? 1 then Return s
  else if maxsize / n <? PyStr.chars s then Raise OverflowError
  else if (PyStr.chars s =? 0) || allocates (n * PyStr.chars s)
       then Return (PyStr.repeat s n)
  else Raise MemoryError.

(** ** chapter2/examples/jinja2-example.py: [truncate_text] *)

(** [[
def truncate_text(text, length=100):
    if len(text) <= length:
        return text
    return text[:length] + '...'
]] *)
Definition truncate_text (text : string) (length : Z) : string :=
  if PyStr.len text <=? length then text
  else PyStr.slice_to text length +:+ "...".

(** The call with the default [length=100]. *)
Definition truncate_text_default (text : string) : string :=
  truncate_text text 100.

(** ** Python numbers *)

Module PyNum.

(** [str(n)] for an [int]. *)
Definition str_nat (n : N) : string := NilZero.string_of_uint (N.to_uint n).

Definition str_int (z : Z) : string :=
  match z with
  | Zneg p => "-" +:+ str_nat (Npos p)
  | _ => str_nat (Z.to_N z)
  end.

(** Quotient of [num] by [den > 0] rounded to the nearest integer, a tie
    going to the even neighbour: the rounding of the float-to-decimal
    conversion behind the [f] presentation type. *)
Definition round_half_even (num den : Z) : Z :=
  let q := num / den in
  let r := num mod den in
  if 2 * r <? den then q
  else if den <? 2 * r then q + 1
  else if Z.even q then q else q + 1.

(** The number [m * 2^e * 10^d] rounded to an integer: the digits that the
    format [.{d}f] prints for the finite float [m * 2^e]. *)
Definition scaled (d : nat) (m : positive) (e : Z) : Z :=
  let n := Zpos m * 10 ^ Z.of_nat d in
  if 0 <=? e then n * 2 ^ e else round_half_even n (2 ^ (- e)).

(** Thousands separators, put in from the right: on the reversed digits, a
    comma after every third digit that has a digit after it. *)
Fixpoint group_rev (ds : list ascii) : list ascii :=
  match ds with
  | a :: b :: c :: ((_ :: _) as rest) =>
      a :: b :: c :: ","%char :: group_rev rest
  | _ => ds
  end.

Definition group_thousands (digits : string) : string :=
  string_of_list_ascii (List.rev (group_rev (List.rev (list_ascii_of_string digits)))).

(** [n] written with at least [width] digits, zeros on the left. *)
Definition zero_pad (width : nat) (s : string) : string :=
  PyStr.repeat_nat "0" (width - String.length s) +:+ s.

(** The unsigned part of [.{d}f] and [,.{d}f] for the scaled integer [n]:
    integer digits, then a point and [d] digits unless [d] is zero. *)
Definition fixed_digits (d : nat) (grouping : bool) (n : Z) : string :=
  let ip := Z.to_N (n / 10 ^ Z.of_nat d) in
  let fp := Z.to_N (n mod 10 ^ Z.of_nat d) in
  (if grouping then group_thousands (str_nat ip) else str_nat ip)
  +:+ match d with
      | O => EmptyString
      | _ => "." +:+ zero_pad d (str_nat fp)
      end.

Definition sign_text (s : bool) : string := if s then "-" else EmptyString.

(** [format(x, '.{d}f')] and [format(x, ',.{d}f')] for a [float]: the sign
    is printed whenever the sign bit is set (so [-0.0] gives [-0.00]), an
    infinity prints [inf] and a NaN prints [nan], without digits. *)
Definition format_fixed (d : nat) (grouping : bool) (x : spec_float) : string :=
  match x with
  | S754_nan => "nan"
  | S754_infinity s => sign_text s +:+ "inf"
  | S754_zero s => sign_text s +:+ fixed_digits d grouping 0
  | S754_finite s m e => sign_text s +:+ fixed_digits d grouping (scaled d m e)
  end.

(** [float(z)] for an [int]: the nearest binary64 number, ties to even;
    [OverflowError] when that is no finite number. *)
Definition float_of_int (z : Z) : outcome spec_float :=
  match binary_normalize 53 1024 z 0 false with
  | S754_infinity _ => Raise OverflowError
  | f => Return f
  end.

(** [int(x)] for a [float]: truncation towards zero. *)
Definition int_of_float (x : spec_float) : outcome Z :=
  match x with
  | S754_nan => Raise ValueError
  | S754_infinity _ => Raise OverflowError
  | S754_zero _ => Return 0
  | S754_finite s m e =>
      let a := if 0 <=? e then Zpos m * 2 ^ e else Zpos m / 2 ^ (- e) in
      Return (if s then - a else a)
  end.

(** A numeric argument of a filter: an [int] or a [float]. *)
Inductive number : Type :=
  | PyInt (z : Z)
  | PyFloat (x : float).

(** The [float] that the presentation type [f] formats: an [int] is first
    turned into a [float]. *)
Definition to_float (v : number) : outcome spec_float :=
  match v with
  | PyInt z => float_of_int z
  | PyFloat x => Return (Prim2SF x)
  end.

(** [format(v, '.{d}f')] and [format(v, ',.{d}f')]. *)
Definition format_number (d : nat) (grouping : bool) (v : number) : outcome string :=
  obind (to_float v) (fun f => Return (format_fixed d grouping f)).

End PyNum.

(** ** app.py and chapter2/examples/jinja2-example.py: the currency filter *)

(** [[
@app.template_filter('currency')
def currency_filter(value):
    return f"${value:,.2f}"
]] *)
Definition currency_filter (value : PyNum.number) : outcome string :=
  obind (PyNum.format_number 2 true value) (fun s => Return ("$" +:+ s)).

(** [[
def format_currency(value):
    return f"${value:,.2f}"
]] *)
Definition format_currency (value : PyNum.number) : outcome string :=
  obind (PyNum.format_number 2 true value) (fun s => Return ("$" +:+ s)).

(** ** The store of list objects *)

(** A reference to a list object; the store maps each live reference to the
    elements of its list. *)
Definition ref := positive.

Section Store.
Context {A : Type}.

(** A computation of the handlers: it reads and extends the store. *)
Definition st (B : Type) : Type := gmap ref (list A) -> B * gmap ref (list A).

Definition sret {B} (b : B) : st B := fun s => (b, s).

Definition sbind {B C} (m : st B) (k : B -> st C) : st C :=
  fun s => let (b, s') := m s in k b s'.

(** Reading the elements of a list object (iteration, [len], serialising). *)
Definition deref (r : ref) : st (list A) :=
  fun s => (default [] (s !! r), s).

(** A new list object, as a list comprehension or a list display makes
    one: the reference is one the store does not hold yet. *)
Definition new_list (l : list A) : st ref :=
  fun s => let r := fresh (dom s) in (r, <[r := l]> s).

(** [[p for p in src if cond(p)]]: the result list starts empty and takes
    each accepted element at its end, in iteration order. *)
Definition list_comp (cond : A -> bool) (src : list A) : list A :=
  fold_left (fun acc p => if cond p then (acc ++ [p])%list else acc) src [].

(** [next((p for p in src if cond(p)), None)]: the first accepted element,
    [None] when the generator is exhausted. *)
Fixpoint next_or_none (cond : A -> bool) (src : list A) : option A :=
  match src with
  | [] => None
  | p :: rest => if cond p then Some p else next_or_none cond rest
  end.

End Store.

(** The global name [PRODUCTS] of a module is bound to one list object for
    the life of the process. *)
Definition PRODUCTS_ref : ref := 1%positive.

(** What a view function returns: a body (status 200 by default), a pair
    of a body and a status, or the response that [jsonify] builds from a
    dictionary. *)
Inductive response (J : Type) : Type :=
  | Body (text : string)
  | BodyStatus (text : string) (status : Z)
  | Json (payload : J).
Arguments Body {J} text.
Arguments BodyStatus {J} text status.
Arguments Json {J} payload.

(** ** app.py *)

Module App.

(** A product dictionary, one field per key. *)
Record product : Type := {
  category : string;
  description : string;
  id : Z;
  in_stock : bool;
  name : string;
  price : float;
  rating : float
}.

Definition PRODUCTS : list product := [
  {| category := "Electronics";
     description := "Premium wireless headphones with noise cancellation";
     id := 1; in_stock := true; name := "Wireless Headphones";
     price := 199.99; rating := 4.5 |};
  {| category := "Furniture";
     description := "Comfortable ergonomic office chair";
     id := 2; in_stock := true; name := "Ergonomic Chair";
     price := 399.99; rating := 4.8 |};
  {| category := "Appliances";
     description := "Programmable coffee maker with thermal carafe";
     id := 3; in_stock := false; name := "Coffee Maker";
     price := 89.99; rating := 4.2 |}
].

(** The store after the module is loaded. *)
Definition initial_store : gmap ref (list product) := {[ PRODUCTS_ref := PRODUCTS ]}.

(** The dictionary handed to [jsonify] by [get_products]. *)
Record products_json : Type := {
  status : string;
  count : Z;
  data : list product
}.

(** A keyword argument of [render_template]. *)
Inductive template_arg : Type :=
  | ArgProducts (products : list product)
  | ArgProduct (product : product).

Section Handlers.

(** [str.lower]. *)
Variable lower : string -> string.

(** Flask's [render_template] over the files [index.html], [product.html]
    and [404.html], which the repository does not hold under its sources:
    the text it returns for a template name and its keyword arguments. *)
Variable render_template : string -> list (string * template_arg) -> string.

(** [[
@app.route('/')
def index():
    return render_template('index.html', products=PRODUCTS)
]] *)
Definition index : st (response products_json) :=
  sbind (deref PRODUCTS_ref) (fun products =>
  sret (Body (render_template "index.html" [("products", ArgProducts products)]))).

(** [[
@app.route('/api/products')
def get_products():
    category = request.args.get('category')
    if category:
        filtered_products = [p for p in PRODUCTS if p['category'].lower() == category.lower()]
    else:
        filtered_products = PRODUCTS
    return jsonify({
        'status': 'success',
        'count': len(filtered_products),
        'data': filtered_products
    })
]]
    [args] is [request.args]; the function also gives back the reference
    bound to [filtered_products]. *)
Definition get_products_ref (args : gmap string string)
  : st (ref * response products_json) :=
  let category_arg := args !! "category" in
  sbind
    (match category_arg with
     | Some c =>
         if PyStr.truthy c then
           sbind (deref PRODUCTS_ref) (fun products =>
           new_list (list_comp
                       (fun p => String.eqb (lower (category p)) (lower c))
                       products))
         else sret PRODUCTS_ref
     | None => sret PRODUCTS_ref
     end)
    (fun filtered_products =>
     sbind (deref filtered_products) (fun items =>
     sret (filtered_products,
           Json {| status := "success";
                   count := Z.of_nat (length items);
                   data := items |}))).

Definition get_products (args : gmap string string) : st (response products_json) :=
  sbind (get_products_ref args) (fun r => sret (snd r)).

(** [[
@app.route('/product/<int:product_id>')
def product_detail(product_id):
    product = next((p for p in PRODUCTS if p['id'] == product_id), None)
    if not product:
        return render_template('404.html'), 404
    return render_template('product.html', product=product)
]]
    A product dictionary has seven keys, so [not product] holds for [None]
    only. *)
Definition product_detail (product_id : Z) : st (response products_json) :=
  sbind (deref PRODUCTS_ref) (fun products =>
  let product := next_or_none (fun p => id p =? product_id) products in
  match product with
  | None => sret (BodyStatus (render_template "404.html" []) 404)
  | Some p => sret (Body (render_template "product.html" [("product", ArgProduct p)]))
  end).

End Handlers.

End App.

(** ** simple_app.py *)

Module SimpleApp.

(** A product dictionary, one field per key. *)
Record product : Type := {
  id : Z;
  name : string;
  price : float;
  category : string;
  in_stock : bool
}.

Definition PRODUCTS : list product := [
  {| id := 1; name := "Wireless Headphones"; price := 199.99;
     category := "Electronics"; in_stock := true |};
  {| id := 2; name := "Ergonomic Chair"; price := 399.99;
     category := "Furniture"; in_stock := true |};
  {| id := 3; name := "Coffee Maker"; price := 89.99;
     category := "Appliances"; in_stock := false |}
].

Definition initial_store : gmap ref (list product) := {[ PRODUCTS_ref := PRODUCTS ]}.

Section Handlers.

(** The [datetime] objects of the standard library and their [strftime]. *)
Variable datetime : Type.
Variable strftime : datetime -> string -> string.

(** The lines of the page of one product, lines 81 to 109 of
    [product_detail]; [now] is what [datetime.now()] returns during the
    call. *)
Definition product_page_lines (product : product) (now : datetime) : list string :=
  let status_class := if in_stock product then "in-stock" else "out-of-stock" in
  let status_text :=
    if in_stock product then "✅ In Stock" else "❌ Out of Stock" in
  [
      "<!DOCTYPE html>";
      "<html>";
      "<head>";
      "    <title>" +:+ name product +:+ " - Template Demo</title>";
      "    <style>";
      "        body { font-family: Arial, sans-serif; margin: 40px; background: #f5f5f5; }";
      "        .container { max-width: 800px; margin: 0 auto; background: white; padding: 30px; border-radius: 10px; box-shadow: 0 2px 10px rgba(0,0,0,0.1); }";
      "        .back-link { color: #3498db; text-decoration: none; }";
      "        h1 { color: #2c3e50; }";
      "        .price { font-size: 24px; font-weight: bold; color: #27ae60; }";
      "        ." +:+ status_class +:+ " { font-weight: bold; }";
      "    </style>";
      "</head>";
      "<body>";
      "    <div class=" +:+ dq +:+ "container" +:+ dq +:+ ">";
      "        <a href=" +:+ dq +:+ "/" +:+ dq +:+ " class=" +:+ dq +:+ "back-link" +:+ dq +:+ ">← Back to Products</a>";
      "        <h1>" +:+ name product +:+ "</h1>";
      "        <p><strong>Category:</strong> " +:+ category product +:+ "</p>";
      "        <p class=" +:+ dq +:+ "price" +:+ dq +:+ ">$" +:+ PyNum.format_fixed 2 false (Prim2SF (price product)) +:+ "</p>";
      "        <p class=" +:+ dq +:+ status_class +:+ dq +:+ ">" +:+ status_text +:+ "</p>";
      "        <p><strong>Product ID:</strong> " +:+ PyNum.str_int (id product) +:+ "</p>";
      "        <br>";
      "        <p><em>Generated on: " +:+ strftime now "%B %d, %Y at %I:%M %p" +:+ "</em></p>";
      "    </div>";
      "</body>";
      "</html>"
  ].

Definition product_page (product : product) (now : datetime) : string :=
  PyStr.join nl (product_page_lines product now).

Definition not_found_page : string :=
  "<h1>Product Not Found</h1><p><a href=" +:+ dq +:+ "/" +:+ dq +:+ ">← Back</a></p>".

(** [[
@app.route('/product/<int:product_id>')
def product_detail(product_id):
    product = next((p for p in PRODUCTS if p['id'] == product_id), None)
    if not product:
        return '<h1>Product Not Found</h1><p><a href="/">...Back</a></p>', 404
    ...
    return html
]] *)
Definition product_detail (product_id : Z) (now : datetime) : st (response unit) :=
  sbind (deref PRODUCTS_ref) (fun products =>
  let product := next_or_none (fun p => id p =? product_id) products in
  match product with
  | None => sret (BodyStatus not_found_page 404)
  | Some p => sret (Body (product_page p now))
  end).

End Handlers.

End SimpleApp.

(** ** run_app.py *)

Module RunApp.

(** The product dictionaries of run_app.py have the keys of those of
    app.py. *)
Definition PRODUCTS : list App.product := [
  {| App.id := 1; App.name := "Wireless Headphones"; App.price := 199.99;
     App.category := "Electronics";
     App.description := "Premium wireless headphones with noise cancellation";
     App.in_stock := true; App.rating := 4.5 |};
  {| App.id := 2; App.name := "Ergonomic Chair"; App.price := 399.99;
     App.category := "Furniture";
     App.description := "Comfortable ergonomic office chair";
     App.in_stock := true; App.rating := 4.8 |};
  {| App.id := 3; App.name := "Coffee Maker"; App.price := 89.99;
     App.category := "Appliances";
     App.description := "Programmable coffee maker with thermal carafe";
     App.in_stock := false; App.rating := 4.2 |}
].

Section Pages.

(** From the standard library: the [datetime] objects and their
    [strftime]; [str] of a float (its shortest representation that reads
    back); [sum] over floats, started from the int 0. *)
Variable datetime : Type.
Variable strftime : datetime -> string -> string.
Variable float_repr : float -> string.
Variable float_sum : list float -> float.

(** The lines of the first literal of [generate_home_page] (lines 45 to
    256): the list [products] is the content of [PRODUCTS] and [now] is
    what [datetime.now()] returns during the call. *)
Definition home_head_lines (products : list App.product) (now : datetime) : list string :=
  [
    EmptyString;
    "<!DOCTYPE html>";
    "<html lang=" +:+ dq +:+ "en" +:+ dq +:+ ">";
    "<head>";
    "    <meta charset=" +:+ dq +:+ "UTF-8" +:+ dq +:+ ">";
    "    <meta name=" +:+ dq +:+ "viewport" +:+ dq +:+ " content=" +:+ dq +:+ "width=device-width, initial-scale=1.0" +:+ dq +:+ ">";
    "    <title>🎯 Mastering Template Generation</title>";
    "    <style>";
    "        body {";
    "            font-family: 'Segoe UI', Tahoma, Geneva, Verdana, sans-serif;";
    "            margin: 0;";
    "            padding: 20px;";
    "            background: linear-gradient(135deg, #667eea 0%, #764ba2 100%);";
    "            min-height: 100vh;";
    "        }";
    "        .container {";
    "            max-width: 1200px;";
    "            margin: 0 auto;";
    "            background: white;";
    "            border-radius: 12px;";
    "            box-shadow: 0 8px 32px rgba(0,0,0,0.1);";
    "            overflow: hidden;";
    "        }";
    "        .header {";
    "            background: linear-gradient(135deg, #3498db 0%, #2980b9 100%);";
    "            color: white;";
    "            padding: 40px;";
    "            text-align: center;";
    "        }";
    "        .header h1 {";
    "            margin: 0;";
    "            font-size: 2.5em;";
    "            font-weight: 300;";
    "        }";
    "        .header p {";
    "            margin: 10px 0 0 0;";
    "            opacity: 0.9;";
    "            font-size: 1.1em;";
    "        }";
    "        .content {";
    "            padding: 40px;";
    "        }";
    "        .stats {";
    "            display: grid;";
    "            grid-template-columns: repeat(auto-fit, minmax(200px, 1fr));";
    "            gap: 20px;";
    "            margin-bottom: 40px;";
    "        }";
    "        .stat-card {";
    "            background: #f8f9fa;";
    "            padding: 20px;";
    "            border-radius: 8px;";
    "            text-align: center;";
    "            border-left: 4px solid #3498db;";
    "        }";
    "        .stat-number {";
    "            font-size: 2em;";
    "            font-weight: bold;";
    "            color: #3498db;";
    "            margin: 0;";
    "        }";
    "        .stat-label {";
    "            color: #6c757d;";
    "            margin: 5px 0 0 0;";
    "            font-size: 0.9em;";
    "        }";
    "        .products {";
    "            display: grid;";
    "            grid-template-columns: repeat(auto-fit, minmax(350px, 1fr));";
    "            gap: 30px;";
    "        }";
    "        .product-card {";
    "            background: white;";
    "            border: 1px solid #e9ecef;";
    "            border-radius: 12px;";
    "            overflow: hidden;";
    "            transition: transform 0.3s ease, box-shadow 0.3s ease;";
    "            box-shadow: 0 2px 8px rgba(0,0,0,0.1);";
    "        }";
    "        .product-card:hover {";
    "            transform: translateY(-5px);";
    "            box-shadow: 0 8px 25px rgba(0,0,0,0.15);";
    "        }";
    "        .product-header {";
    "            padding: 20px;";
    "            background: #f8f9fa;";
    "            border-bottom: 1px solid #e9ecef;";
    "        }";
    "        .product-name {";
    "            margin: 0;";
    "            color: #2c3e50;";
    "            font-size: 1.2em;";
    "            font-weight: 600;";
    "        }";
    "        .product-category {";
    "            color: #6c757d;";
    "            font-style: italic;";
    "            margin: 5px 0 0 0;";
    "        }";
    "        .product-body {";
    "            padding: 20px;";
    "        }";
    "        .product-price {";
    "            font-size: 1.5em;";
    "            font-weight: bold;";
    "            color: #27ae60;";
    "            margin: 15px 0;";
    "        }";
    "        .product-description {";
    "            color: #495057;";
    "            line-height: 1.5;";
    "            margin: 15px 0;";
    "        }";
    "        .product-rating {";
    "            display: inline-block;";
    "            background: #fff3cd;";
    "            color: #856404;";
    "            padding: 4px 8px;";
    "            border-radius: 4px;";
    "            font-size: 0.9em;";
    "            margin: 10px 0;";
    "        }";
    "        .product-status {";
    "            display: inline-block;";
    "            padding: 6px 12px;";
    "            border-radius: 20px;";
    "            font-size: 0.9em;";
    "            font-weight: 500;";
    "            margin: 10px 0;";
    "        }";
    "        .in-stock {";
    "            background: #d4edda;";
    "            color: #155724;";
    "        }";
    "        .out-of-stock {";
    "            background: #f8d7da;";
    "            color: #721c24;";
    "        }";
    "        .product-actions {";
    "            padding: 20px;";
    "            background: #f8f9fa;";
    "            border-top: 1px solid #e9ecef;";
    "        }";
    "        .btn {";
    "            display: inline-block;";
    "            padding: 8px 16px;";
    "            border: none;";
    "            border-radius: 6px;";
    "            text-decoration: none;";
    "            font-size: 0.9em;";
    "            font-weight: 500;";
    "            cursor: pointer;";
    "            transition: background-color 0.3s ease;";
    "            margin-right: 10px;";
    "        }";
    "        .btn-primary {";
    "            background: #007bff;";
    "            color: white;";
    "        }";
    "        .btn-primary:hover {";
    "            background: #0056b3;";
    "        }";
    "        .btn-secondary {";
    "            background: #6c757d;";
    "            color: white;";
    "        }";
    "        .btn-secondary:hover {";
    "            background: #545b62;";
    "        }";
    "        .footer {";
    "            background: #343a40;";
    "            color: white;";
    "            text-align: center;";
    "            padding: 20px;";
    "            margin-top: 40px;";
    "        }";
    "        .footer p {";
    "            margin: 0;";
    "            opacity: 0.8;";
    "        }";
    "    </style>";
    "</head>";
    "<body>";
    "    <div class=" +:+ dq +:+ "container" +:+ dq +:+ ">";
    "        <div class=" +:+ dq +:+ "header" +:+ dq +:+ ">";
    "            <h1>🎯 Mastering Template Generation</h1>";
    "            <p>Interactive Product Catalog Demo</p>";
    "            <p>Generated on: " +:+ strftime now "%B %d, %Y at %I:%M %p" +:+ "</p>";
    "        </div>";
    EmptyString;
    "        <div class=" +:+ dq +:+ "content" +:+ dq +:+ ">";
    "            <div class=" +:+ dq +:+ "stats" +:+ dq +:+ ">";
    "                <div class=" +:+ dq +:+ "stat-card" +:+ dq +:+ ">";
    "                    <div class=" +:+ dq +:+ "stat-number" +:+ dq +:+ ">" +:+ PyNum.str_int (Z.of_nat (length products)) +:+ "</div>";
    "                    <div class=" +:+ dq +:+ "stat-label" +:+ dq +:+ ">Total Products</div>";
    "                </div>";
    "                <div class=" +:+ dq +:+ "stat-card" +:+ dq +:+ ">";
    "                    <div class=" +:+ dq +:+ "stat-number" +:+ dq +:+ ">" +:+ PyNum.str_int (Z.of_nat (length (List.filter App.in_stock products))) +:+ "</div>";
    "                    <div class=" +:+ dq +:+ "stat-label" +:+ dq +:+ ">In Stock</div>";
    "                </div>";
    "                <div class=" +:+ dq +:+ "stat-card" +:+ dq +:+ ">";
    "                    <div class=" +:+ dq +:+ "stat-number" +:+ dq +:+ ">" +:+ PyNum.str_int (Z.of_nat (length (remove_dups (List.map App.category products)))) +:+ "</div>";
    "                    <div class=" +:+ dq +:+ "stat-label" +:+ dq +:+ ">Categories</div>";
    "                </div>";
    "                <div class=" +:+ dq +:+ "stat-card" +:+ dq +:+ ">";
    "                    <div class=" +:+ dq +:+ "stat-number" +:+ dq +:+ ">$" +:+ PyNum.format_fixed 0 false (Prim2SF (float_sum (List.map App.price products))) +:+ "</div>";
    "                    <div class=" +:+ dq +:+ "stat-label" +:+ dq +:+ ">Total Value</div>";
    "                </div>";
    "            </div>";
    EmptyString;
    "            <div class=" +:+ dq +:+ "products" +:+ dq +:+ ">";
    EmptyString
  ].

(** Whether the interpreter obtains the memory of a string of that many
    characters (see [str_mul]). *)
Variable allocates : Z -> bool.

(** The body of the loop for one product (lines 255 to 281): the star
    text, then the literal that is appended.  An exception of [int] or of
    [*] leaves the loop. *)
Definition product_card (product : App.product) : outcome string :=
  let status_class := if App.in_stock product then "in-stock" else "out-of-stock" in
  let status_text := if App.in_stock product then "In Stock" else "Out of Stock" in
  obind (PyNum.int_of_float (Prim2SF (App.rating product))) (fun n =>
  obind (str_mul allocates "⭐" n) (fun stars =>
  Return (PyStr.join nl [
      EmptyString;
      "                <div class=" +:+ dq +:+ "product-card" +:+ dq +:+ ">";
      "                    <div class=" +:+ dq +:+ "product-header" +:+ dq +:+ ">";
      "                        <h3 class=" +:+ dq +:+ "product-name" +:+ dq +:+ ">" +:+ App.name product +:+ "</h3>";
      "                        <p class=" +:+ dq +:+ "product-category" +:+ dq +:+ ">" +:+ App.category product +:+ "</p>";
      "                    </div>";
      "                    <div class=" +:+ dq +:+ "product-body" +:+ dq +:+ ">";
      "                        <div class=" +:+ dq +:+ "product-price" +:+ dq +:+ ">$" +:+ PyNum.format_fixed 2 false (Prim2SF (App.price product)) +:+ "</div>";
      "                        <p class=" +:+ dq +:+ "product-description" +:+ dq +:+ ">" +:+ App.description product +:+ "</p>";
      "                        <div class=" +:+ dq +:+ "product-rating" +:+ dq +:+ ">" +:+ stars +:+ " (" +:+ float_repr (App.rating product) +:+ "/5)</div>";
      "                        <br>";
      "                        <span class=" +:+ dq +:+ "product-status " +:+ status_class +:+ dq +:+ ">" +:+ status_text +:+ "</span>";
      "                    </div>";
      "                    <div class=" +:+ dq +:+ "product-actions" +:+ dq +:+ ">";
      "                        <a href=" +:+ dq +:+ "/api/products" +:+ dq +:+ " class=" +:+ dq +:+ "btn btn-primary" +:+ dq +:+ ">View API</a>";
      "                        <a href=" +:+ dq +:+ "/product/" +:+ PyNum.str_int (App.id product) +:+ dq +:+ " class=" +:+ dq +:+ "btn btn-secondary" +:+ dq +:+ ">View Details</a>";
      "                    </div>";
      "                </div>";
      EmptyString
  ]))).

(** The last literal (lines 283 to 294). *)
Definition home_foot_lines : list string :=
  [
    EmptyString;
    "            </div>";
    "        </div>";
    EmptyString;
    "        <div class=" +:+ dq +:+ "footer" +:+ dq +:+ ">";
    "            <p>🚀 Powered by Python Flask & Template Generation</p>";
    "            <p>Generated dynamically using Python string templates</p>";
    "        </div>";
    "    </div>";
    "</body>";
    "</html>";
    EmptyString
  ].

(** [[
def generate_home_page():
    html = f'''...'''                 # home_head_lines
    for product in PRODUCTS:
        ...
        html += f'''...'''            # product_card
    html += '''...'''                 # home_foot_lines
    return html
]]
    (the source writes its three literals between triple double quotes). *)
Definition generate_home_page (products : list App.product) (now : datetime)
  : outcome string :=
  let html := Return (PyStr.join nl (home_head_lines products now)) in
  let html :=
    fold_left
      (fun html product =>
         obind html (fun text =>
         obind (product_card product) (fun card => Return (text +:+ card))))
      products html in
  obind html (fun text => Return (text +:+ PyStr.join nl home_foot_lines)).

(** The version text of the installed Flask package. *)
Variable flask_version : string.

(** The body of the not-found answer of [product_detail] (lines 317 to
    321), which names the requested id. *)
Definition not_found_lines (product_id : Z) : list string :=
  [
    EmptyString;
    "        <h1>Product Not Found</h1>";
    "        <p>The product with ID " +:+ PyNum.str_int product_id +:+ " was not found.</p>";
    "        <a href=" +:+ dq +:+ "/" +:+ dq +:+ ">← Back to Products</a>";
    "        "
  ].

(** The lines of the page of one product (lines 327 to 470), for the text
    [stars] computed before. *)
Definition detail_lines (product : App.product) (stars : string) (now : datetime)
  : list string :=
  let status_class := if App.in_stock product then "in-stock" else "out-of-stock" in
  let status_text := if App.in_stock product then "In Stock" else "Out of Stock" in
  [
    EmptyString;
    "<!DOCTYPE html>";
    "<html lang=" +:+ dq +:+ "en" +:+ dq +:+ ">";
    "<head>";
    "    <meta charset=" +:+ dq +:+ "UTF-8" +:+ dq +:+ ">";
    "    <meta name=" +:+ dq +:+ "viewport" +:+ dq +:+ " content=" +:+ dq +:+ "width=device-width, initial-scale=1.0" +:+ dq +:+ ">";
    "    <title>" +:+ App.name product +:+ " - Template Generation Demo</title>";
    "    <style>";
    "        body {";
    "            font-family: 'Segoe UI', Tahoma, Geneva, Verdana, sans-serif;";
    "            margin: 0;";
    "            padding: 20px;";
    "            background: linear-gradient(135deg, #667eea 0%, #764ba2 100%);";
    "            min-height: 100vh;";
    "        }";
    "        .container {";
    "            max-width: 800px;";
    "            margin: 0 auto;";
    "            background: white;";
    "            border-radius: 12px;";
    "            box-shadow: 0 8px 32px rgba(0,0,0,0.1);";
    "            overflow: hidden;";
    "        }";
    "        .back-link {";
    "            display: inline-block;";
    "            color: #3498db;";
    "            text-decoration: none;";
    "            padding: 20px;";
    "            font-weight: 500;";
    "        }";
    "        .back-link:hover {";
    "            text-decoration: underline;";
    "        }";
    "        .product-header {";
    "            padding: 30px;";
    "            background: linear-gradient(135deg, #3498db 0%, #2980b9 100%);";
    "            color: white;";
    "            text-align: center;";
    "        }";
    "        .product-title {";
    "            margin: 0;";
    "            font-size: 2em;";
    "            font-weight: 300;";
    "        }";
    "        .product-category {";
    "            opacity: 0.9;";
    "            font-style: italic;";
    "        }";
    "        .product-content {";
    "            padding: 30px;";
    "        }";
    "        .product-price {";
    "            font-size: 2.5em;";
    "            font-weight: bold;";
    "            color: #27ae60;";
    "            text-align: center;";
    "            margin: 20px 0;";
    "        }";
    "        .product-description {";
    "            color: #495057;";
    "            line-height: 1.6;";
    "            margin: 20px 0;";
    "            font-size: 1.1em;";
    "        }";
    "        .product-meta {";
    "            background: #f8f9fa;";
    "            padding: 20px;";
    "            border-radius: 8px;";
    "            margin: 20px 0;";
    "        }";
    "        .product-rating {";
    "            text-align: center;";
    "            font-size: 1.2em;";
    "            margin: 15px 0;";
    "        }";
    "        .product-status {";
    "            display: inline-block;";
    "            padding: 8px 16px;";
    "            border-radius: 20px;";
    "            font-weight: 500;";
    "            font-size: 1em;";
    "        }";
    "        .in-stock {";
    "            background: #d4edda;";
    "            color: #155724;";
    "        }";
    "        .out-of-stock {";
    "            background: #f8d7da;";
    "            color: #721c24;";
    "        }";
    "        .info-section {";
    "            background: #e9ecef;";
    "            padding: 20px;";
    "            border-radius: 8px;";
    "            margin: 20px 0;";
    "        }";
    "        .info-section h3 {";
    "            margin-top: 0;";
    "            color: #495057;";
    "        }";
    "    </style>";
    "</head>";
    "<body>";
    "    <div class=" +:+ dq +:+ "container" +:+ dq +:+ ">";
    "        <a href=" +:+ dq +:+ "/" +:+ dq +:+ " class=" +:+ dq +:+ "back-link" +:+ dq +:+ ">← Back to Products</a>";
    EmptyString;
    "        <div class=" +:+ dq +:+ "product-header" +:+ dq +:+ ">";
    "            <h1 class=" +:+ dq +:+ "product-title" +:+ dq +:+ ">" +:+ App.name product +:+ "</h1>";
    "            <p class=" +:+ dq +:+ "product-category" +:+ dq +:+ ">" +:+ App.category product +:+ "</p>";
    "        </div>";
    EmptyString;
    "        <div class=" +:+ dq +:+ "product-content" +:+ dq +:+ ">";
    "            <div class=" +:+ dq +:+ "product-price" +:+ dq +:+ ">$" +:+ PyNum.format_fixed 2 false (Prim2SF (App.price product)) +:+ "</div>";
    EmptyString;
    "            <div class=" +:+ dq +:+ "product-rating" +:+ dq +:+ ">";
    "                " +:+ stars +:+ " (" +:+ float_repr (App.rating product) +:+ "/5)";
    "            </div>";
    EmptyString;
    "            <p class=" +:+ dq +:+ "product-description" +:+ dq +:+ ">" +:+ App.description product +:+ "</p>";
    EmptyString;
    "            <div style=" +:+ dq +:+ "text-align: center; margin: 20px 0;" +:+ dq +:+ ">";
    "                <span class=" +:+ dq +:+ "product-status " +:+ status_class +:+ dq +:+ ">" +:+ status_text +:+ "</span>";
    "            </div>";
    EmptyString;
    "            <div class=" +:+ dq +:+ "product-meta" +:+ dq +:+ ">";
    "                <strong>ID:</strong> " +:+ PyNum.str_int (App.id product) +:+ "<br>";
    "                <strong>Category:</strong> " +:+ App.category product +:+ "<br>";
    "                <strong>Price:</strong> $" +:+ PyNum.format_fixed 2 false (Prim2SF (App.price product)) +:+ "<br>";
    "                <strong>Rating:</strong> " +:+ float_repr (App.rating product) +:+ "/5<br>";
    "                <strong>Status:</strong> " +:+ status_text;
    "            </div>";
    EmptyString;
    "            <div class=" +:+ dq +:+ "info-section" +:+ dq +:+ ">";
    "                <h3>🚀 Template Generation Demo</h3>";
    "                <p>This product page was generated using Python Flask with embedded HTML templates!</p>";
    "                <p><strong>Generated on:</strong> " +:+ strftime now "%B %d, %Y at %I:%M %p" +:+ "</p>";
    "                <p><strong>Template Engine:</strong> Python string formatting</p>";
    "                <p><strong>Framework:</strong> Flask " +:+ flask_version +:+ "</p>";
    "            </div>";
    "        </div>";
    "    </div>";
    "</body>";
    "</html>";
    EmptyString
  ].

(** [[
@app.route('/product/<int:product_id>')
def product_detail(product_id):
    product = next((p for p in PRODUCTS if p['id'] == product_id), None)
    if not product:
        return f'''...''', 404        # not_found_lines
    status_class = ...
    status_text = ...
    stars = star * int(product['rating'])
    html = f'''...'''                 # detail_lines
    return html
]]
    An exception of [int] or of [*] leaves the view function. *)
Definition product_detail (product_id : Z) (now : datetime)
  : st (outcome (response unit)) :=
  sbind (deref PRODUCTS_ref) (fun products =>
  let product := next_or_none (fun p => App.id p =? product_id) products in
  match product with
  | None => sret (Return (BodyStatus (PyStr.join nl (not_found_lines product_id)) 404))
  | Some p =>
      sret (obind (PyNum.int_of_float (Prim2SF (App.rating p))) (fun n =>
            obind (str_mul allocates "⭐" n) (fun stars =>
            Return (Body (PyStr.join nl (detail_lines p stars now))))))
  end).

End Pages.

End RunApp.

(** ** app.py: the date filter *)

Section DateFormat.

(** The [datetime] objects of the standard library.  [fromisoformat]
    returns one, or raises on a string it does not accept; [strftime]
    formats one. *)
Variable datetime : Type.
Variable fromisoformat : string -> outcome datetime.
Variable strftime : datetime -> string -> string.

(** [[
@app.template_filter('date_format')
def date_format_filter(date_str):
    try:
        date_obj = datetime.fromisoformat(date_str.replace('Z', '+00:00'))
        return date_obj.strftime('%B %d, %Y')
    except:
        return date_str
]] *)
Definition date_format_filter (date_str : string) : outcome string :=
  try_except
    (obind (fromisoformat (PyStr.replace "Z" "+00:00" date_str)) (fun date_obj =>
     Return (strftime date_obj "%B %d, %Y")))
    (Return date_str).

End DateFormat.

(** ** Reading an amount back (specification side) *)

Module Money.

Definition is_digit (c : ascii) : bool :=
  let n := N_of_ascii c in ((48 <=? n) && (n <=? 57))%N.

(** The number that a string of decimal digits writes; [None] when a
    character is not a digit. *)
Definition digits_value (s : string) : option N :=
  option_map N.of_uint (NilEmpty.uint_of_string s).

(** The text before and after the first point. *)
Fixpoint split_point (s : string) : option (string * string) :=
  match s with
  | EmptyString => None
  | String c rest =>
      if Ascii.eqb c "." then Some (EmptyString, rest)
      else match split_point rest with
           | Some (a, b) => Some (String c a, b)
           | None => None
           end
  end.

(** Thousands grouping, checked from the right: groups of exactly three
    digits, each with a comma on its left, and a leftmost group of one to
    three digits. *)
Fixpoint grouped_rev (cs : list ascii) : bool :=
  match cs with
  | [] => false
  | a :: b :: c :: d :: rest =>
      is_digit a && is_digit b && is_digit c && Ascii.eqb d ","
      && match rest with [] => false | _ => grouped_rev rest end
  | _ => forallb is_digit cs
  end.

Definition well_grouped (s : string) : bool :=
  grouped_rev (List.rev (list_ascii_of_string s)).

Definition remove_commas (s : string) : string :=
  string_of_list_ascii
    (List.filter (fun c => negb (Ascii.eqb c ",")) (list_ascii_of_string s)).

(** An amount of the form [$d,ddd,ddd.dd], read as a number of hundredths:
    a dollar sign, a well-grouped integer part, a point and exactly two
    digits.  Any other text reads as [None]. *)
Definition read (s : string) : option Z :=
  match s with
  | String "$" body =>
      match split_point body with
      | Some (ip, fp) =>
          if well_grouped ip && (String.length fp =? 2)%nat then
            match digits_value (remove_commas ip), digits_value fp with
            | Some a, Some b => Some (100 * Z.of_N a + Z.of_N b)
            | _, _ => None
            end
          else None
      | None => None
      end
  | _ => None
  end.

(** [n] hundredths is the amount nearest to the non-negative finite float
    [x], and the even one of the two when [x] lies half way between two
    amounts.  With [x = m * 2^e], [100 * x] is [num / den] below. *)
Definition nearest_hundredth (x : spec_float) (n : Z) : Prop :=
  match x with
  | S754_zero _ => n = 0
  | S754_finite _ m e =>
      let num := 100 * Zpos m * 2 ^ Z.max e 0 in
      let den := 2 ^ Z.max (- e) 0 in
      Z.abs (2 * (num - n * den)) <= den /\
      (Z.abs (2 * (num - n * den)) = den -> Z.even n = true)
  | _ => False
  end.

(** A finite float that is zero or positive. *)
Definition finite_nonneg (x : spec_float) : bool :=
  match x with
  | S754_zero s => negb s
  | S754_finite s _ _ => negb s
  | _ => false
  end.

End Money.

(** ** chapter2/examples/jinja2-example.py: [format_date] *)

Section FormatDate.
Variable datetime : Type.
Variable fromisoformat : string -> outcome datetime.
Variable strftime : datetime -> string -> string.

(** The argument of the [date] filter: a string or a [datetime]. *)
Inductive date_value : Type :=
  | DateStr (s : string)
  | DateObj (d : datetime).

(** [[
def format_date(value, format='%B %d, %Y'):
    if isinstance(value, str):
        value = datetime.fromisoformat(value.replace('Z', '+00:00'))
    return value.strftime(format)
]] *)
Definition format_date (value : date_value) (format : string) : outcome string :=
  obind
    (match value with
     | DateStr s => fromisoformat (PyStr.replace "Z" "+00:00" s)
     | DateObj d => Return d
     end)
    (fun value => Return (strftime value format)).

(** The call with the default [format='%B %d, %Y']. *)
Definition format_date_default (value : date_value) : outcome string :=
  format_date value "%B %d, %Y".

End FormatDate.
Arguments DateStr {datetime} s.
Arguments DateObj {datetime} d.

(** ** chapter4/examples/word-document-generator.py *)

Module WordDoc.

(** A value of the dictionaries that is printed: a string or a number. *)
Inductive scalar : Type :=
  | SStr (s : string)
  | SNum (n : PyNum.number).

(** What a call can raise: a [KeyError] with its key, one of the
    exceptions of [exn], or an exception of another class, by the name of
    the class (an [OSError] of [save], for one). *)
Inductive raised : Type :=
  | KeyError (key : string)
  | Builtin (e : exn)
  | Other (name : string).

Inductive result (A : Type) : Type :=
  | Ok (a : A)
  | Fail (r : raised).
Arguments Ok {A} a.
Arguments Fail {A} r.

Definition rbind {A B} (m : result A) (k : A -> result B) : result B :=
  match m with
  | Ok a => k a
  | Fail r => Fail r
  end.

Definition of_outcome {A} (m : outcome A) : result A :=
  match m with
  | Return a => Ok a
  | Raise e => Fail (Builtin e)
  end.

(** [d[key]] *)
Definition getitem {V} (d : gmap string V) (key : string) : result V :=
  match d !! key with
  | Some v => Ok v
  | None => Fail (KeyError key)
  end.

(** [enumerate(l, start)] *)
Fixpoint enumerate {A} (start : Z) (l : list A) : list (Z * A) :=
  match l with
  | [] => []
  | x :: rest => (start, x) :: enumerate (start + 1) rest
  end.

(** The calls made on the document object of the python-docx library, in
    the order in which they are made.  A cell is named by the index of its
    row and of its column. *)
Inductive call : Type :=
  | AddHeading (text : string) (level : Z)
  | SetAlignment (alignment : string)
  | AddParagraph (text : string) (style : option string)
  | AddRun (text : string) (bold : bool)
  | AddTable (rows cols : Z)
  | SetStyle (style : string)
  | AddRow
  | SetCell (row col : nat) (text : string)
  | Save (path : string)
  | Print (text : string).

(** A method that works on a document: it adds the calls that it
    completes to those completed so far and returns, or raises after the
    calls it has completed. *)
Definition build (A : Type) : Type := list call -> list call * result A.

Definition bret {A} (a : A) : build A := fun doc => (doc, Ok a).

Definition bbind {A B} (m : build A) (k : A -> build B) : build B :=
  fun doc =>
    match m doc with
    | (doc', Ok a) => k a doc'
    | (doc', Fail r) => (doc', Fail r)
    end.

Definition lift {A} (m : result A) : build A := fun doc => (doc, m).

(** [for x in l: body(x)] *)
Fixpoint for_each {A} (l : list A) (body : A -> build unit) : build unit :=
  match l with
  | [] => bret tt
  | x :: rest => bbind (body x) (fun _ => for_each rest body)
  end.

(** A row of the financial table, a risk and the data of a metric: the
    keys that the code reads, each present or absent. *)
Record financial : Type := {
  period : option string;
  budget : option PyNum.number;
  actual : option PyNum.number
}.

Record risk : Type := {
  description : option string;
  impact : option string;
  mitigation : option string
}.

Record metric : Type := {
  current : option scalar;
  target : option scalar
}.

(** The dictionary [report_data], by the keys that [generate_report]
    reads; an open dictionary that is only iterated is the list of its
    items, in their order. *)
Record report : Type := {
  title : option string;
  summary : option string;
  project_details : option (list (string * scalar));
  metrics : option (list (string * metric));
  financials : option (list financial);
  include_financials : option bool;
  status : option string;
  risk_plan : option (list risk);
  recommendations : option (list string);
  project_name : option string
}.

(** [a - b] on numbers: exact on two ints, on floats otherwise, an int
    being converted first. *)
Definition as_float (v : PyNum.number) : outcome float :=
  match v with
  | PyNum.PyInt z => obind (PyNum.float_of_int z) (fun f => Return (SF2Prim f))
  | PyNum.PyFloat x => Return x
  end.

Definition sub (a b : PyNum.number) : outcome PyNum.number :=
  match a, b with
  | PyNum.PyInt x, PyNum.PyInt y => Return (PyNum.PyInt (x - y))
  | _, _ =>
      obind (as_float a) (fun x =>
      obind (as_float b) (fun y => Return (PyNum.PyFloat (x - y)%float)))
  end.

(** [v < 0] *)
Definition negative (v : PyNum.number) : bool :=
  match v with
  | PyNum.PyInt z => z <? 0
  | PyNum.PyFloat x => SFltb (Prim2SF x) (S754_zero false)
  end.

(** The f-string [f"${v:,.2f}"]. *)
Definition money (v : PyNum.number) : outcome string :=
  obind (PyNum.format_number 2 true v) (fun s => Return ("$" +:+ s)).

Section Generator.

(** From the standard library: [str] of a float, [str.title], the
    [datetime] objects with [strftime]. *)
Variable float_repr : float -> string.
Variable title_case : string -> string.
Variable datetime : Type.
Variable strftime : datetime -> string -> string.

(** The python-docx library and the system behind it: [docx doc c] is the
    exception that the call [c] raises when the calls [doc] have been
    completed, if it raises one.  The library raises [ValueError] on a
    text that XML cannot hold (a NUL or another control character), and
    [save] raises what the file system makes it raise. *)
Variable docx : list call -> call -> option raised.

(** One call: it is completed and recorded, or it raises and leaves the
    document as it was. *)
Definition emit (c : call) : build unit :=
  fun doc =>
    match docx doc c with
    | Some r => (doc, Fail r)
    | None => ((doc ++ [c])%list, Ok tt)
    end.

(** [str(v)], also what an f-string field prints. *)
Definition str (v : scalar) : string :=
  match v with
  | SStr s => s
  | SNum (PyNum.PyInt z) => PyNum.str_int z
  | SNum (PyNum.PyFloat x) => float_repr x
  end.

(** [[
def format_milestones(self, milestones):
    if not milestones:
        return "No specific milestones defined."
    formatted = []
    for i, milestone in enumerate(milestones, 1):
        formatted.append(f"{i}. {milestone['description']} - Due: {milestone['due_date']}")
    return '\n'.join(formatted)
]] *)
Definition format_milestones (milestones : list (gmap string scalar)) : result string :=
  match milestones with
  | [] => Ok "No specific milestones defined."
  | _ =>
      rbind
        (fold_left
           (fun formatted (im : Z * gmap string scalar) =>
              let (i, milestone) := im in
              rbind formatted (fun lines =>
              rbind (getitem milestone "description") (fun d =>
              rbind (getitem milestone "due_date") (fun due =>
              Ok (lines ++ [PyNum.str_int i +:+ ". " +:+ str d
                            +:+ " - Due: " +:+ str due])%list))))
           (enumerate 1 milestones) (Ok []))
        (fun formatted => Ok (PyStr.join nl formatted))
  end.

(** Lines 262 to 265 of [add_financial_table]:
    [[
    variance_text = f"${variance:,.2f}"
    if variance < 0:
        variance_text = f"({variance_text})"
    ]] *)
Definition variance_text (variance : PyNum.number) : outcome string :=
  obind (money variance) (fun text =>
  Return (if negative variance then "(" +:+ text +:+ ")" else text)).

(** [[
def add_financial_table(self, doc, financials):
    if not financials:
        doc.add_paragraph('No financial data available.')
        return
    table = doc.add_table(rows=1, cols=4)
    table.style = 'Table Grid'
    hdr_cells = table.rows[0].cells
    hdr_cells[0].text = 'Period'
    hdr_cells[1].text = 'Budget'
    hdr_cells[2].text = 'Actual'
    hdr_cells[3].text = 'Variance'
    for item in financials:
        row_cells = table.add_row().cells
        row_cells[0].text = item.get('period', 'N/A')
        row_cells[1].text = f"${item.get('budget', 0):,.2f}"
        row_cells[2].text = f"${item.get('actual', 0):,.2f}"
        variance = item.get('actual', 0) - item.get('budget', 0)
        variance_text = f"${variance:,.2f}"
        if variance < 0:
            variance_text = f"({variance_text})"
        row_cells[3].text = variance_text
]]
    The row added for the item of index [k] is the row [k + 1]. *)
Definition add_financial_row (k : nat) (item : financial) : build unit :=
  let row := S k in
  let budget_of := default (PyNum.PyInt 0) (budget item) in
  let actual_of := default (PyNum.PyInt 0) (actual item) in
  bbind (emit AddRow) (fun _ =>
  bbind (emit (SetCell row 0 (default "N/A" (period item)))) (fun _ =>
  bbind (lift (of_outcome (money budget_of))) (fun b =>
  bbind (emit (SetCell row 1 b)) (fun _ =>
  bbind (lift (of_outcome (money actual_of))) (fun a =>
  bbind (emit (SetCell row 2 a)) (fun _ =>
  bbind (lift (of_outcome (sub actual_of budget_of))) (fun variance =>
  bbind (lift (of_outcome (variance_text variance))) (fun text =>
  emit (SetCell row 3 text))))))))).

Fixpoint add_financial_rows (k : nat) (items : list financial) : build unit :=
  match items with
  | [] => bret tt
  | item :: rest =>
      bbind (add_financial_row k item) (fun _ => add_financial_rows (S k) rest)
  end.

Definition add_financial_table (items : list financial) : build unit :=
  match items with
  | [] => emit (AddParagraph "No financial data available." None)
  | _ =>
      bbind (emit (AddTable 1 4)) (fun _ =>
      bbind (emit (SetStyle "Table Grid")) (fun _ =>
      bbind (emit (SetCell 0 0 "Period")) (fun _ =>
      bbind (emit (SetCell 0 1 "Budget")) (fun _ =>
      bbind (emit (SetCell 0 2 "Actual")) (fun _ =>
      bbind (emit (SetCell 0 3 "Variance")) (fun _ =>
      add_financial_rows 0 items))))))
  end.

(** [[
def add_project_details_table(self, doc, details):
    table = doc.add_table(rows=1, cols=2)
    table.style = 'Table Grid'
    table.alignment = WD_TABLE_ALIGNMENT.CENTER
    hdr_cells = table.rows[0].cells
    hdr_cells[0].text = 'Metric'
    hdr_cells[1].text = 'Value'
    for metric, value in details.items():
        row_cells = table.add_row().cells
        row_cells[0].text = metric.replace('_', ' ').title()
        row_cells[1].text = str(value)
]] *)
Fixpoint add_detail_rows (k : nat) (details : list (string * scalar)) : build unit :=
  match details with
  | [] => bret tt
  | (name, value) :: rest =>
      bbind (emit AddRow) (fun _ =>
      bbind (emit (SetCell (S k) 0 (title_case (PyStr.replace "_" " " name)))) (fun _ =>
      bbind (emit (SetCell (S k) 1 (str value))) (fun _ =>
      add_detail_rows (S k) rest)))
  end.

Definition add_project_details_table (details : list (string * scalar)) : build unit :=
  bbind (emit (AddTable 1 2)) (fun _ =>
  bbind (emit (SetStyle "Table Grid")) (fun _ =>
  bbind (emit (SetAlignment "WD_TABLE_ALIGNMENT.CENTER")) (fun _ =>
  bbind (emit (SetCell 0 0 "Metric")) (fun _ =>
  bbind (emit (SetCell 0 1 "Value")) (fun _ =>
  add_detail_rows 0 details))))).

(** [[
def add_metrics_table(self, doc, metrics):
    table = doc.add_table(rows=1, cols=3)
    table.style = 'Table Grid'
    hdr_cells = table.rows[0].cells
    hdr_cells[0].text = 'Metric'
    hdr_cells[1].text = 'Current Value'
    hdr_cells[2].text = 'Target'
    for metric, data in metrics.items():
        row_cells = table.add_row().cells
        row_cells[0].text = metric.replace('_', ' ').title()
        row_cells[1].text = str(data.get('current', 'N/A'))
        row_cells[2].text = str(data.get('target', 'N/A'))
]] *)
Fixpoint add_metric_rows (k : nat) (items : list (string * metric)) : build unit :=
  match items with
  | [] => bret tt
  | (name, data) :: rest =>
      bbind (emit AddRow) (fun _ =>
      bbind (emit (SetCell (S k) 0 (title_case (PyStr.replace "_" " " name)))) (fun _ =>
      bbind (emit (SetCell (S k) 1 (str (default (SStr "N/A") (current data))))) (fun _ =>
      bbind (emit (SetCell (S k) 2 (str (default (SStr "N/A") (target data))))) (fun _ =>
      add_metric_rows (S k) rest))))
  end.

Definition add_metrics_table (items : list (string * metric)) : build unit :=
  bbind (emit (AddTable 1 3)) (fun _ =>
  bbind (emit (SetStyle "Table Grid")) (fun _ =>
  bbind (emit (SetCell 0 0 "Metric")) (fun _ =>
  bbind (emit (SetCell 0 1 "Current Value")) (fun _ =>
  bbind (emit (SetCell 0 2 "Target")) (fun _ =>
  add_metric_rows 0 items))))).

(** [[
def add_risk_section(self, doc, risk_plan):
    doc.add_paragraph('The following risks have been identified and mitigation strategies are in place:')
    for risk in risk_plan:
        p = doc.add_paragraph()
        p.add_run(f"Risk: {risk.get('description', 'N/A')}").bold = True
        doc.add_paragraph(f"Impact: {risk.get('impact', 'N/A')}")
        doc.add_paragraph(f"Mitigation: {risk.get('mitigation', 'N/A')}")
        doc.add_paragraph('')
]] *)
Definition add_risk (r : risk) : build unit :=
  bbind (emit (AddParagraph EmptyString None)) (fun _ =>
  bbind (emit (AddRun ("Risk: " +:+ default "N/A" (description r)) true)) (fun _ =>
  bbind (emit (AddParagraph ("Impact: " +:+ default "N/A" (impact r)) None)) (fun _ =>
  bbind (emit (AddParagraph ("Mitigation: " +:+ default "N/A" (mitigation r)) None)) (fun _ =>
  emit (AddParagraph EmptyString None))))).

Definition add_risk_section (plan : list risk) : build unit :=
  bbind
    (emit (AddParagraph
             "The following risks have been identified and mitigation strategies are in place:"
             None))
    (fun _ => for_each plan add_risk).

(** [[
def add_recommendations_list(self, doc, recommendations):
    for i, recommendation in enumerate(recommendations, 1):
        doc.add_paragraph(f"{i}. {recommendation}", style='List Number')
]] *)
Definition add_recommendations_list (items : list string) : build unit :=
  for_each (enumerate 1 items)
    (fun ir => emit (AddParagraph (PyNum.str_int (fst ir) +:+ ". " +:+ snd ir)
                                  (Some "List Number"))).

(** The default path of a report: lines 197 to 199 of [generate_report]. *)
Definition default_report_path (data : report) (now : datetime) : string :=
  let name := PyStr.replace " " "_" (default "project" (project_name data)) in
  "report_" +:+ name +:+ "_" +:+ strftime now "%Y%m%d" +:+ ".docx".

(** [[
def generate_report(self, report_data, output_path=None):
    doc = Document()
    title = doc.add_heading(report_data.get('title', 'Project Report'), 0)
    title.alignment = WD_ALIGN_PARAGRAPH.CENTER
    doc.add_heading('Executive Summary', level=1)
    doc.add_paragraph(report_data.get('summary', 'No summary provided.'))
    doc.add_heading('Project Details', level=1)
    self.add_project_details_table(doc, report_data.get('project_details', {}))
    if 'metrics' in report_data:
        doc.add_heading('Key Metrics', level=1)
        self.add_metrics_table(doc, report_data['metrics'])
    if 'financials' in report_data and report_data.get('include_financials', False):
        doc.add_heading('Financial Summary', level=1)
        self.add_financial_table(doc, report_data['financials'])
    if report_data.get('status') == 'At Risk':
        doc.add_heading('Risk Assessment', level=1)
        self.add_risk_section(doc, report_data.get('risk_plan', []))
    if 'recommendations' in report_data:
        doc.add_heading('Recommendations', level=1)
        self.add_recommendations_list(doc, report_data['recommendations'])
    if output_path is None:
        project_name = report_data.get('project_name', 'project').replace(' ', '_')
        output_path = f"report_{project_name}_{datetime.now().strftime('%Y%m%d')}.docx"
    doc.save(output_path)
    print(f"Report generated: {output_path}")
    return output_path
]]
    The document is new: the calls start from none. *)
Definition when (b : bool) (m : build unit) : build unit :=
  if b then m else bret tt.

Definition generate_report (data : report) (output_path : option string)
    (now : datetime) : list call * result string :=
  bbind (emit (AddHeading (default "Project Report" (title data)) 0)) (fun _ =>
  bbind (emit (SetAlignment "WD_ALIGN_PARAGRAPH.CENTER")) (fun _ =>
  bbind (emit (AddHeading "Executive Summary" 1)) (fun _ =>
  bbind (emit (AddParagraph (default "No summary provided." (summary data)) None)) (fun _ =>
  bbind (emit (AddHeading "Project Details" 1)) (fun _ =>
  bbind (add_project_details_table (default [] (project_details data))) (fun _ =>
  bbind (match metrics data with
         | Some items =>
             bbind (emit (AddHeading "Key Metrics" 1)) (fun _ => add_metrics_table items)
         | None => bret tt
         end) (fun _ =>
  bbind (match financials data with
         | Some items =>
             when (default false (include_financials data))
               (bbind (emit (AddHeading "Financial Summary" 1)) (fun _ =>
                add_financial_table items))
         | None => bret tt
         end) (fun _ =>
  bbind (when (match status data with
               | Some text => String.eqb text "At Risk"
               | None => false
               end)
           (bbind (emit (AddHeading "Risk Assessment" 1)) (fun _ =>
            add_risk_section (default [] (risk_plan data))))) (fun _ =>
  bbind (match recommendations data with
         | Some items =>
             bbind (emit (AddHeading "Recommendations" 1)) (fun _ =>
             add_recommendations_list items)
         | None => bret tt
         end) (fun _ =>
  let path :=
    match output_path with
    | Some path => path
    | None => default_report_path data now
    end in
  bbind (emit (Save path)) (fun _ =>
  bbind (emit (Print ("Report generated: " +:+ path))) (fun _ =>
  bret path)))))))))))) [].

End Generator.

End WordDoc.

(** ** Specification-side definitions for the handlers and the pages *)

(** The products whose category equals [c] once both are lowered. *)
Definition same_category (lower : string -> string) (c : string) (p : App.product) : bool :=
  String.eqb (lower (App.category p)) (lower c).

(** The listing as the specification words it: with a [category] parameter
    the data are the products of that category, compared after lowering
    both sides, in their original order; without one, all the products; the
    count is the length of the data. *)
Definition listing_as_specified (lower : string -> string)
    (products : list App.product) (param : option string)
    (payload : App.products_json) : Prop :=
  App.count payload = Z.of_nat (length (App.data payload)) /\
  App.data payload =
    match param with
    | Some c => List.filter (same_category lower c) products
    | None => products
    end.

(** The text before and after one line of a joined list of lines. *)
Definition lines_before (sep : string) (l : list string) : string :=
  fold_right (fun x acc => x +:+ sep +:+ acc) EmptyString l.

Definition lines_after (sep : string) (l : list string) : string :=
  fold_right (fun x acc => sep +:+ x +:+ acc) EmptyString l.

Section PageParts.
Variable float_repr : float -> string.
Variable float_sum : list float -> float.
Variable allocates : Z -> bool.

(** The lines of the head of the home page before and after the line of
    the clock; neither mentions the clock. *)
Definition head_before : list string :=
  firstn 187 (RunApp.home_head_lines unit (fun _ _ => EmptyString) float_sum [] tt).

Definition head_after (products : list App.product) : list string :=
  skipn 188 (RunApp.home_head_lines unit (fun _ _ => EmptyString) float_sum products tt).

(** The cards of the products, one after the other. *)
Fixpoint cards (products : list App.product) : outcome string :=
  match products with
  | [] => Return EmptyString
  | p :: rest =>
      obind (RunApp.product_card float_repr allocates p) (fun card =>
      obind (cards rest) (fun text => Return (card +:+ text)))
  end.

(** The lines of the product page of simple_app.py before and after the
    line of the clock. *)
Definition page_before (product : SimpleApp.product) : list string :=
  firstn 22 (SimpleApp.product_page_lines unit (fun _ _ => EmptyString) product tt).

Definition page_after (product : SimpleApp.product) : list string :=
  skipn 23 (SimpleApp.product_page_lines unit (fun _ _ => EmptyString) product tt).

End PageParts.

(* ================================================================== *)
(** * Lemmas and theorems *)

(** ** Facts about strings *)

Lemma app_cons (c : ascii) (a b : string) :
  String c a +:+ b = String c (a +:+ b).
Proof. reflexivity. Qed.

Lemma app_empty_l (b : string) : EmptyString +:+ b = b.
Proof. reflexivity. Qed.

Lemma app_empty_r (a : string) : a +:+ EmptyString = a.
Proof.
  induction a as [|c a IH]; [reflexivity |].
  rewrite app_cons. f_equal. exact IH.
Qed.

Lemma app_assoc_str (a b c : string) : (a +:+ b) +:+ c = a +:+ (b +:+ c).
Proof.
  induction a as [|x a IH]; [reflexivity |].
  rewrite !app_cons. f_equal. exact IH.
Qed.

Lemma length_app_str (a b : string) :
  String.length (a +:+ b) = (String.length a + String.length b)%nat.
Proof.
  induction a as [|c a IH]; [reflexivity |].
  rewrite app_cons. simpl. now rewrite IH.
Qed.

Lemma substring_0_length (n : nat) (s : string) :
  (n <= String.length s)%nat ->
  String.length (String.substring 0 n s) = n.
Proof.
  revert s. induction n as [|n IH]; intros s Hn.
  - destruct s; reflexivity.
  - destruct s as [|c s]; simpl in *; [lia |].
    rewrite IH; [reflexivity | lia].
Qed.

Lemma substring_0_split (n : nat) (s : string) :
  (n <= String.length s)%nat ->
  exists rest, s = String.substring 0 n s +:+ rest.
Proof.
  revert s. induction n as [|n IH]; intros s Hn.
  - exists s. destruct s; reflexivity.
  - destruct s as [|c s]; simpl in *; [lia |].
    destruct (IH s) as [rest Hrest]; [lia |].
    exists rest. simpl. rewrite app_cons. f_equal. exact Hrest.
Qed.

Lemma slice_to_nonneg (s : string) (n : Z) :
  0 <= n -> n <= PyStr.len s ->
  exists rest, s = PyStr.slice_to s n +:+ rest /\ PyStr.len (PyStr.slice_to s n) = n.
Proof.
  intros H0 Hn. unfold PyStr.slice_to, PyStr.len in *.
  destruct (Z.ltb_spec n 0) as [Hneg|_]; [lia |].
  rewrite Z.min_l by lia.
  destruct (substring_0_split (Z.to_nat n) s) as [rest Hrest]; [lia |].
  exists rest. split; [exact Hrest |].
  rewrite substring_0_length; lia.
Qed.


(** ** Facts about the store and about comprehensions *)

Section StoreFacts.
Context {A : Type}.
Implicit Types (s : gmap ref (list A)) (l : list A) (cond : A -> bool).

Lemma list_comp_acc cond l acc :
  fold_left (fun acc p => if cond p then (acc ++ [p])%list else acc) l acc
  = (acc ++ List.filter cond l)%list.
Proof.
  revert acc. induction l as [|x l IH]; intros acc; simpl.
  - now rewrite app_nil_r.
  - rewrite IH. destruct (cond x); [| reflexivity].
    now rewrite <- app_assoc.
Qed.

(** A comprehension with a condition is the filter of its source: the
    accepted elements, in the order of the source. *)
Lemma list_comp_filter cond l : list_comp cond l = List.filter cond l.
Proof. unfold list_comp. now rewrite list_comp_acc. Qed.

Lemma next_or_none_Some cond l p :
  next_or_none cond l = Some p ->
  exists before after,
    l = (before ++ p :: after)%list /\ cond p = true /\
    Forall (fun q => cond q = false) before.
Proof.
  induction l as [|x l IH]; simpl; [discriminate |].
  destruct (cond x) eqn:Hx.
  - intros [= ->]. exists [], l. repeat split; [assumption | constructor].
  - intros H. destruct (IH H) as (before & after & -> & Hp & Hb).
    exists (x :: before), after. repeat split; [assumption |].
    constructor; assumption.
Qed.

Lemma next_or_none_None cond l :
  next_or_none cond l = None -> Forall (fun q => cond q = false) l.
Proof.
  induction l as [|x l IH]; simpl; [constructor |].
  destruct (cond x) eqn:Hx; [discriminate |].
  intros H. constructor; [assumption | now apply IH].
Qed.

End StoreFacts.

(** ** app.py: the product routes *)

Section AppFacts.
Variable lower : string -> string.
Variable render_template : string -> list (string * App.template_arg) -> string.
Implicit Types (s : gmap ref (list App.product)) (args : gmap string string).


Lemma get_products_ref_filter s products args c :
  s !! PRODUCTS_ref = Some products ->
  args !! "category" = Some c -> c <> EmptyString ->
  let r := fresh (dom s) in
  let items := List.filter (same_category lower c) products in
  App.get_products_ref lower args s =
    (r, Json {| App.status := "success";
                App.count := Z.of_nat (length items);
                App.data := items |},
     <[r := items]> s).
Proof.
  intros Hs Hc Hne r items.
  unfold App.get_products_ref, sbind, sret, deref, new_list.
  rewrite Hc. destruct c as [|a c]; [congruence |].
  change (PyStr.truthy (String a c)) with true. cbv beta iota.
  rewrite Hs. simpl default. fold r.
  rewrite list_comp_filter. fold (same_category lower (String a c)). fold items.
  rewrite lookup_insert_eq. reflexivity.
Qed.

Lemma get_products_ref_all s products args :
  s !! PRODUCTS_ref = Some products ->
  args !! "category" = None \/ args !! "category" = Some EmptyString ->
  App.get_products_ref lower args s =
    (PRODUCTS_ref, Json {| App.status := "success";
                           App.count := Z.of_nat (length products);
                           App.data := products |},
     s).
Proof.
  intros Hs Hc.
  unfold App.get_products_ref, sbind, sret, deref.
  destruct Hc as [-> | ->]; simpl; rewrite Hs; reflexivity.
Qed.

End AppFacts.

(** ** [truncate_text] *)

(** C10. For every string [text] and every length [n] (a length is a
    non-negative integer): [truncate_text text n] is [text] itself when
    [len text <= n]; otherwise it is the first [n] characters of [text]
    followed by three dots.  So its length never exceeds [n + 3], and in
    both cases the result is a prefix of [text], followed by nothing or by
    the three dots. *)
Theorem truncate_text_spec (text : string) (n : Z) :
  0 <= n ->
  (PyStr.len text <= n -> truncate_text text n = text) /\
  (n < PyStr.len text ->
     exists pre rest, text = pre +:+ rest /\ PyStr.len pre = n /\
                      truncate_text text n = pre +:+ "...") /\
  PyStr.len (truncate_text text n) <= n + 3 /\
  (exists pre rest, text = pre +:+ rest /\
     (truncate_text text n = pre \/ truncate_text text n = pre +:+ "...")).
Proof.
  intros H0. unfold truncate_text.
  destruct (Z.leb_spec (PyStr.len text) n) as [Hle|Hgt].
  - repeat split.
    + intros Hlt. lia.
    + unfold PyStr.len in *. lia.
    + exists text, EmptyString. split; [| now left].
      symmetry. apply app_empty_r.
  - destruct (slice_to_nonneg text n) as [rest [Hsplit Hlen]]; [lia | lia |].
    repeat split.
    + intros Hle. lia.
    + intros _. exists (PyStr.slice_to text n), rest. repeat split; assumption.
    + unfold PyStr.len in *. rewrite length_app_str. simpl. lia.
    + exists (PyStr.slice_to text n), rest. split; [assumption | now right].
Qed.

Lemma truncate_text_spec_witness :
  0 <= 5 /\
  truncate_text "template engines" 5 = "templ..." /\
  PyStr.len (truncate_text "template engines" 5) <= 5 + 3.
Proof.
  split; [lia |].
  split; [reflexivity |].
  apply (truncate_text_spec "template engines" 5). lia.
Defined.


(** A negative [length] is no length: the slice then counts from the end
    of the text. *)
Example truncate_text_negative : truncate_text "hello" (-2) = "hel...".
Proof. reflexivity. Qed.

(** ** The product listing (app.py, [get_products]) *)


(** C6, as stated, fails for a request [/api/products?category=]: the
    parameter is supplied and empty, no product has an empty category, and
    the handler still answers with the three products. *)
Lemma get_products_empty_category :
  exists payload s',
    App.get_products PyStr.lower {[ "category" := EmptyString ]} App.initial_store
      = (Json payload, s') /\
    App.data payload = App.PRODUCTS /\
    ~ listing_as_specified PyStr.lower App.PRODUCTS (Some EmptyString) payload.
Proof.
  eexists _, _. split; [| split].
  - rewrite (surjective_pairing (App.get_products _ _ _)).
    unfold App.get_products, sbind, sret.
    rewrite (get_products_ref_all PyStr.lower App.initial_store App.PRODUCTS).
    + reflexivity.
    + reflexivity.
    + right. reflexivity.
  - reflexivity.
  - intros [_ H]. simpl in H. vm_compute in H. discriminate H.
Qed.

(** C6, amended. For the product-listing endpoint: when a non-empty
    [category] parameter is supplied, the data are exactly the products
    whose category equals the parameter after lowering both (in their
    original order); when the parameter is absent or empty, the data are
    the full product list; in both cases the status is [success] and the
    count is the length of the data. *)
Theorem get_products_listing (lower : string -> string)
    (s : gmap ref (list App.product)) (products : list App.product)
    (args : gmap string string) :
  s !! PRODUCTS_ref = Some products ->
  exists payload s',
    App.get_products lower args s = (Json payload, s') /\
    App.status payload = "success" /\
    App.count payload = Z.of_nat (length (App.data payload)) /\
    (forall c, args !! "category" = Some c -> c <> EmptyString ->
       App.data payload = List.filter (same_category lower c) products) /\
    (args !! "category" = None \/ args !! "category" = Some EmptyString ->
       App.data payload = products).
Proof.
  intros Hs. unfold App.get_products, sbind, sret.
  destruct (args !! "category") as [c|] eqn:Hc.
  - destruct (String.eqb_spec c EmptyString) as [-> | Hne].
    + rewrite (get_products_ref_all lower s products args Hs) by (now right).
      eexists _, _. split; [reflexivity |]. simpl.
      split; [reflexivity |]. split; [reflexivity |].
      split; [congruence | reflexivity].
    + pose proof (get_products_ref_filter lower s products args c Hs Hc Hne) as H.
      cbv zeta in H. rewrite H.
      eexists _, _. split; [reflexivity |]. simpl.
      split; [reflexivity |]. split; [reflexivity |]. split.
      * intros c' [= <-] _. reflexivity.
      * intros [H' | H']; congruence.
  - rewrite (get_products_ref_all lower s products args Hs) by (now left).
    eexists _, _. split; [reflexivity |]. simpl.
    split; [reflexivity |]. split; [reflexivity |].
    split; [congruence | reflexivity].
Qed.

Lemma get_products_listing_witness :
  exists payload s',
    App.get_products PyStr.lower {[ "category" := "ELECTRONICS" ]} App.initial_store
      = (Json payload, s') /\
    App.count payload = 1 /\
    List.map App.name (App.data payload) = ["Wireless Headphones"].
Proof.
  destruct (get_products_listing PyStr.lower App.initial_store App.PRODUCTS
              {[ "category" := "ELECTRONICS" ]} eq_refl)
    as (payload & s' & Hrun & _ & Hcount & Hsome & _).
  exists payload, s'. split; [exact Hrun |].
  assert (Hdata : App.data payload
                  = List.filter (same_category PyStr.lower "ELECTRONICS") App.PRODUCTS).
  { apply Hsome; [reflexivity | discriminate]. }
  rewrite Hcount, Hdata. split; vm_compute; reflexivity.
Defined.


(** ** The product page ([product_detail] of app.py and of simple_app.py) *)

(** C7. For the fetch-one-item route with a numeric id: if some product of
    the product list has that id, the handler returns the rendered detail
    page of the first such product; if none has it, the handler returns
    the not-found page together with the status 404; these are the only
    two outcomes.  Stated for [product_detail] of app.py and for
    [product_detail] of simple_app.py. *)
Theorem product_detail_outcomes
    (render_template : string -> list (string * App.template_arg) -> string)
    (datetime : Type) (strftime : datetime -> string -> string)
    (s : gmap ref (list App.product)) (products : list App.product)
    (s2 : gmap ref (list SimpleApp.product)) (products2 : list SimpleApp.product)
    (product_id : Z) (now : datetime) :
  s !! PRODUCTS_ref = Some products ->
  s2 !! PRODUCTS_ref = Some products2 ->
  ((exists before p after,
      products = (before ++ p :: after)%list /\
      App.id p = product_id /\
      Forall (fun q => App.id q <> product_id) before /\
      App.product_detail render_template product_id s
        = (Body (render_template "product.html" [("product", App.ArgProduct p)]), s))
   \/
   (Forall (fun q => App.id q <> product_id) products /\
    App.product_detail render_template product_id s
      = (BodyStatus (render_template "404.html" []) 404, s)))
  /\
  ((exists before p after,
      products2 = (before ++ p :: after)%list /\
      SimpleApp.id p = product_id /\
      Forall (fun q => SimpleApp.id q <> product_id) before /\
      SimpleApp.product_detail datetime strftime product_id now s2
        = (Body (SimpleApp.product_page datetime strftime p now), s2))
   \/
   (Forall (fun q => SimpleApp.id q <> product_id) products2 /\
    SimpleApp.product_detail datetime strftime product_id now s2
      = (BodyStatus SimpleApp.not_found_page 404, s2))).
Proof.
  intros Hs Hs2. split.
  - unfold App.product_detail, sbind, sret, deref. rewrite Hs. cbn. cbv zeta.
    destruct (next_or_none (fun p => App.id p =? product_id) products)
      as [p|] eqn:Hnext.
    + left. apply next_or_none_Some in Hnext as (before & after & -> & Hp & Hb).
      exists before, p, after.
      split; [reflexivity |]. split; [now apply Z.eqb_eq |].
      split; [| reflexivity].
      eapply Forall_impl; [exact Hb |]. intros q Hq. now apply Z.eqb_neq.
    + right. apply next_or_none_None in Hnext. split; [| reflexivity].
      eapply Forall_impl; [exact Hnext |]. intros q Hq. now apply Z.eqb_neq.
  - unfold SimpleApp.product_detail, sbind, sret, deref. rewrite Hs2. cbn. cbv zeta.
    destruct (next_or_none (fun p => SimpleApp.id p =? product_id) products2)
      as [p|] eqn:Hnext.
    + left. apply next_or_none_Some in Hnext as (before & after & -> & Hp & Hb).
      exists before, p, after.
      split; [reflexivity |]. split; [now apply Z.eqb_eq |].
      split; [| reflexivity].
      eapply Forall_impl; [exact Hb |]. intros q Hq. now apply Z.eqb_neq.
    + right. apply next_or_none_None in Hnext. split; [| reflexivity].
      eapply Forall_impl; [exact Hnext |]. intros q Hq. now apply Z.eqb_neq.
Qed.

Lemma product_detail_outcomes_witness :
  App.initial_store !! PRODUCTS_ref = Some App.PRODUCTS /\
  SimpleApp.initial_store !! PRODUCTS_ref = Some SimpleApp.PRODUCTS /\
  ((exists before p after,
      App.PRODUCTS = (before ++ p :: after)%list /\
      App.id p = 2 /\
      Forall (fun q => App.id q <> 2) before /\
      App.product_detail (fun name _ => name) 2 App.initial_store
        = (Body "product.html", App.initial_store))
   \/
   (Forall (fun q => App.id q <> 2) App.PRODUCTS /\
    App.product_detail (fun name _ => name) 2 App.initial_store
      = (BodyStatus "404.html" 404, App.initial_store))).
Proof.
  split; [reflexivity |]. split; [reflexivity |].
  exact (proj1 (product_detail_outcomes (fun name _ => name) unit (fun _ fmt => fmt)
                  App.initial_store App.PRODUCTS
                  SimpleApp.initial_store SimpleApp.PRODUCTS 2 tt eq_refl eq_refl)).
Defined.

(** ** The handlers and the store (app.py) *)

(** C8. No handler changes the shared state: after a call to the listing,
    filtering or detail handler the list [PRODUCTS] is what it was, and so
    is every other live list object.  [index] and [product_detail] leave
    the whole store as it was; [get_products] without a filter answers
    from the list [PRODUCTS] itself; with a filter it builds a new list
    object, at a reference that was not live, and touches nothing else. *)
Theorem handlers_preserve_products
    (lower : string -> string)
    (render_template : string -> list (string * App.template_arg) -> string)
    (s : gmap ref (list App.product)) (products : list App.product) :
  s !! PRODUCTS_ref = Some products ->
  snd (App.index render_template s) = s /\
  (forall product_id, snd (App.product_detail render_template product_id s) = s) /\
  (forall args,
     snd (App.get_products lower args s) !! PRODUCTS_ref = Some products /\
     (forall r l, s !! r = Some l ->
        snd (App.get_products lower args s) !! r = Some l)) /\
  (forall args,
     args !! "category" = None \/ args !! "category" = Some EmptyString ->
     fst (fst (App.get_products_ref lower args s)) = PRODUCTS_ref /\
     snd (App.get_products lower args s) = s) /\
  (forall args c,
     args !! "category" = Some c -> c <> EmptyString ->
     let r := fst (fst (App.get_products_ref lower args s)) in
     r <> PRODUCTS_ref /\ s !! r = None /\
     snd (App.get_products lower args s)
       = <[r := List.filter (same_category lower c) products]> s).
Proof.
  intros Hs.
  assert (Hall : forall args,
             args !! "category" = None \/ args !! "category" = Some EmptyString ->
             App.get_products_ref lower args s
             = (PRODUCTS_ref, Json {| App.status := "success";
                                      App.count := Z.of_nat (length products);
                                      App.data := products |}, s)).
  { intros args H. now apply get_products_ref_all. }
  assert (Hsome : forall args c,
             args !! "category" = Some c -> c <> EmptyString ->
             App.get_products_ref lower args s
             = (fresh (dom s),
                Json {| App.status := "success";
                        App.count := Z.of_nat (length (List.filter (same_category lower c) products));
                        App.data := List.filter (same_category lower c) products |},
                <[fresh (dom s) := List.filter (same_category lower c) products]> s)).
  { intros args c Hc Hne.
    exact (get_products_ref_filter lower s products args c Hs Hc Hne). }
  assert (Hfresh : s !! fresh (dom s) = None).
  { apply not_elem_of_dom. apply is_fresh. }
  split; [| split; [| split; [| split]]].
  - unfold App.index, sbind, sret, deref. reflexivity.
  - intros product_id. unfold App.product_detail, sbind, sret, deref.
    cbv zeta.
    destruct (next_or_none (fun p => App.id p =? product_id) (default [] (s !! PRODUCTS_ref)));
      reflexivity.
  - intros args. unfold App.get_products, sbind, sret.
    destruct (args !! "category") as [c|] eqn:Hc.
    + destruct (String.eqb_spec c EmptyString) as [-> | Hne].
      * rewrite (Hall args) by (now right). simpl. split; [assumption | auto].
      * rewrite (Hsome args c Hc Hne). simpl. split.
        -- rewrite lookup_insert_ne; [assumption | congruence].
        -- intros r l Hr. rewrite lookup_insert_ne; [assumption | congruence].
    + rewrite (Hall args) by (now left). simpl. split; [assumption | auto].
  - intros args Hargs. unfold App.get_products, sbind, sret.
    rewrite (Hall args Hargs). simpl. split; reflexivity.
  - intros args c Hc Hne r. subst r. unfold App.get_products, sbind, sret.
    rewrite (Hsome args c Hc Hne). simpl.
    split; [congruence | split; [assumption | reflexivity]].
Qed.


Lemma handlers_preserve_products_witness :
  App.initial_store !! PRODUCTS_ref = Some App.PRODUCTS /\
  snd (App.get_products PyStr.lower {[ "category" := "furniture" ]} App.initial_store)
    !! PRODUCTS_ref = Some App.PRODUCTS /\
  snd (App.product_detail (fun name _ => name) 2 App.initial_store)
    = App.initial_store.
Proof.
  pose proof (handlers_preserve_products PyStr.lower (fun name _ => name)
                App.initial_store App.PRODUCTS eq_refl) as H.
  split; [reflexivity |]. split.
  - exact (proj1 (proj1 (proj2 (proj2 H)) {[ "category" := "furniture" ]})).
  - exact (proj1 (proj2 H) 2).
Defined.


(** ** The date filter (app.py, [date_format_filter]) *)

Example replace_Z :
  PyStr.replace "Z" "+00:00" "2025-01-16T10:30:00Z" = "2025-01-16T10:30:00+00:00".
Proof. reflexivity. Qed.

(** C9. [date_format_filter] is total on strings: if parsing the input,
    after every [Z] has been replaced by [+00:00], succeeds, the result is
    the date formatted with [%B %d, %Y]; otherwise it is the input string
    unchanged; no exception reaches the caller. *)
Theorem date_format_filter_total
    (datetime : Type) (fromisoformat : string -> outcome datetime)
    (strftime : datetime -> string -> string) (date_str : string) :
  (forall date_obj,
     fromisoformat (PyStr.replace "Z" "+00:00" date_str) = Return date_obj ->
     date_format_filter datetime fromisoformat strftime date_str
       = Return (strftime date_obj "%B %d, %Y")) /\
  (forall e,
     fromisoformat (PyStr.replace "Z" "+00:00" date_str) = Raise e ->
     date_format_filter datetime fromisoformat strftime date_str
       = Return date_str) /\
  (forall e,
     date_format_filter datetime fromisoformat strftime date_str <> Raise e).
Proof.
  unfold date_format_filter, try_except, obind.
  destruct (fromisoformat (PyStr.replace "Z" "+00:00" date_str)) as [d | e0].
  - repeat split.
    + intros date_obj [= <-]. reflexivity.
    + intros e H. discriminate H.
    + intros e H. discriminate H.
  - repeat split.
    + intros date_obj H. discriminate H.
    + intros e H. discriminate H.
Qed.


(** ** Worked values of the number formats *)

(** Rounding goes by the exact binary value of the float, a tie to the
    even digit; the sign bit is printed; the special values have no
    digits. *)
Example currency_filter_values :
  currency_filter (PyNum.PyFloat 1234.5) = Return "$1,234.50" /\
  currency_filter (PyNum.PyFloat 0.125) = Return "$0.12" /\
  currency_filter (PyNum.PyFloat 0.375) = Return "$0.38" /\
  currency_filter (PyNum.PyFloat 2.675) = Return "$2.67" /\
  currency_filter (PyNum.PyFloat 1.005) = Return "$1.00" /\
  currency_filter (PyNum.PyFloat 0.005) = Return "$0.01" /\
  currency_filter (PyNum.PyFloat 999.995) = Return "$1,000.00" /\
  currency_filter (PyNum.PyFloat 1234567.891) = Return "$1,234,567.89" /\
  currency_filter (PyNum.PyFloat 123456789.125) = Return "$123,456,789.12" /\
  currency_filter (PyNum.PyFloat 1e22) = Return "$10,000,000,000,000,000,000,000.00" /\
  currency_filter (PyNum.PyFloat 5e-324) = Return "$0.00" /\
  currency_filter (PyNum.PyFloat (-0.001)) = Return "$-0.00" /\
  currency_filter (PyNum.PyFloat (-0.0)) = Return "$-0.00" /\
  currency_filter (PyNum.PyFloat nan) = Return "$nan" /\
  currency_filter (PyNum.PyInt 0) = Return "$0.00" /\
  currency_filter (PyNum.PyInt 123456) = Return "$123,456.00".
Proof. vm_compute. repeat split. Qed.

Example format_0f_values :
  PyNum.format_number 0 false (PyNum.PyFloat 0.5) = Return "0" /\
  PyNum.format_number 0 false (PyNum.PyFloat 1.5) = Return "2" /\
  PyNum.format_number 0 false (PyNum.PyFloat 2.5) = Return "2" /\
  PyNum.format_number 0 false (PyNum.PyFloat 689.97) = Return "690" /\
  PyNum.format_number 0 false (PyNum.PyFloat 999.995) = Return "1000" /\
  PyNum.format_number 0 false (PyNum.PyFloat (-0.001)) = Return "-0".
Proof. vm_compute. repeat split. Qed.

(** What [Money.read] accepts: the dollar sign, groups of three, two
    decimals; and nothing else. *)
Example money_read_values :
  Money.read "$1,234.50" = Some 123450 /\
  Money.read "$1,234,567.89" = Some 123456789 /\
  Money.read "$0.05" = Some 5 /\
  Money.read "$1234.50" = None /\
  Money.read "$12,34.50" = None /\
  Money.read "$,123.00" = None /\
  Money.read "$123.5" = None /\
  Money.read "$123.456" = None /\
  Money.read "$-0.00" = None /\
  Money.read "$inf" = None.
Proof. vm_compute. repeat split. Qed.

(** ** Rounding to hundredths *)

Lemma round_half_even_spec (num den : Z) :
  0 < den ->
  Z.abs (2 * (num - PyNum.round_half_even num den * den)) <= den /\
  (Z.abs (2 * (num - PyNum.round_half_even num den * den)) = den ->
   Z.even (PyNum.round_half_even num den) = true).
Proof.
  intros Hden. unfold PyNum.round_half_even.
  pose proof (Z.div_mod num den ltac:(lia)) as Hdm.
  pose proof (Z.mod_pos_bound num den Hden) as Hr.
  set (q := num / den) in *. set (r := num mod den) in *.
  destruct (Z.ltb_spec (2 * r) den) as [Hlt | Hge].
  - assert (Hd : num - q * den = r) by lia. rewrite Hd. split; lia.
  - destruct (Z.ltb_spec den (2 * r)) as [Hgt | Hle].
    + assert (Hd : num - (q + 1) * den = r - den) by lia. rewrite Hd. split; lia.
    + destruct (Z.even q) eqn:Hev.
      * assert (Hd : num - q * den = r) by lia. rewrite Hd. split; [lia | auto].
      * assert (Hd : num - (q + 1) * den = r - den) by lia. rewrite Hd.
        split; [lia |]. intros _.
        replace (q + 1) with (Z.succ q) by lia.
        rewrite Z.even_succ, <- Z.negb_even, Hev. reflexivity.
Qed.

Lemma round_half_even_nonneg (num den : Z) :
  0 <= num -> 0 < den -> 0 <= PyNum.round_half_even num den.
Proof.
  intros Hnum Hden. unfold PyNum.round_half_even.
  pose proof (Z.div_pos num den Hnum Hden) as Hq.
  repeat match goal with |- context [if ?b then _ else _] => destruct b end; lia.
Qed.

Lemma scaled_nonneg (d : nat) (m : positive) (e : Z) : 0 <= PyNum.scaled d m e.
Proof.
  unfold PyNum.scaled.
  assert (H10 : 0 < 10 ^ Z.of_nat d) by (apply Z.pow_pos_nonneg; lia).
  destruct (Z.leb_spec 0 e) as [He | He].
  - assert (0 < 2 ^ e) by (apply Z.pow_pos_nonneg; lia). nia.
  - apply round_half_even_nonneg; [nia |]. apply Z.pow_pos_nonneg; lia.
Qed.

Lemma scaled_nearest (s : bool) (m : positive) (e : Z) :
  Money.nearest_hundredth (S754_finite s m e) (PyNum.scaled 2 m e).
Proof.
  unfold Money.nearest_hundredth, PyNum.scaled.
  change (10 ^ Z.of_nat 2) with 100.
  destruct (Z.leb_spec 0 e) as [He | He].
  - rewrite (Z.max_l e 0) by lia. rewrite (Z.max_r (- e) 0) by lia.
    change (2 ^ 0) with 1.
    replace (100 * Z.pos m * 2 ^ e - Z.pos m * 100 * 2 ^ e * 1) with 0 by ring.
    simpl. split; lia.
  - rewrite (Z.max_r e 0) by lia. rewrite (Z.max_l (- e) 0) by lia.
    change (2 ^ 0) with 1.
    replace (100 * Z.pos m * 1) with (Z.pos m * 100) by ring.
    apply round_half_even_spec. apply Z.pow_pos_nonneg; lia.
Qed.


(** ** Digits and grouping *)

Lemma is_digit_not_comma (c : ascii) :
  Money.is_digit c = true -> Ascii.eqb c "," = false.
Proof.
  intros H. destruct (Ascii.eqb_spec c ","%char) as [-> | _]; [| reflexivity].
  discriminate H.
Qed.

Lemma is_digit_not_point (c : ascii) :
  Money.is_digit c = true -> Ascii.eqb c "." = false.
Proof.
  intros H. destruct (Ascii.eqb_spec c "."%char) as [-> | _]; [| reflexivity].
  discriminate H.
Qed.

Lemma string_of_uint_digits (d : Decimal.uint) :
  forallb Money.is_digit (list_ascii_of_string (NilEmpty.string_of_uint d)) = true.
Proof. induction d; simpl; auto. Qed.

Lemma str_nat_digits (n : N) :
  forallb Money.is_digit (list_ascii_of_string (PyNum.str_nat n)) = true.
Proof.
  unfold PyNum.str_nat, NilZero.string_of_uint.
  destruct (N.to_uint n); try reflexivity; apply string_of_uint_digits.
Qed.

Lemma to_uint_nonnil (n : N) : N.to_uint n <> Decimal.Nil.
Proof.
  destruct n as [|p]; [discriminate |]. apply DecimalPos.Unsigned.to_uint_nonnil.
Qed.

Lemma str_nat_nonempty (n : N) : PyNum.str_nat n <> EmptyString.
Proof.
  unfold PyNum.str_nat, NilZero.string_of_uint.
  pose proof (to_uint_nonnil n) as H.
  destruct (N.to_uint n); try congruence; discriminate.
Qed.

Lemma digits_value_str_nat (n : N) : Money.digits_value (PyNum.str_nat n) = Some n.
Proof.
  unfold Money.digits_value, PyNum.str_nat, NilZero.string_of_uint.
  pose proof (to_uint_nonnil n) as H.
  pose proof (DecimalN.Unsigned.of_to n) as Hof.
  destruct (N.to_uint n) eqn:E; try congruence;
    rewrite NilEmpty.usu; unfold option_map; f_equal; exact Hof.
Qed.

(** Induction over a list three elements at a time. *)
Lemma list_ind3 {A} (P : list A -> Prop) :
  P [] -> (forall a, P [a]) -> (forall a b, P [a; b]) -> (forall a b c, P [a; b; c]) ->
  (forall a b c rest, rest <> [] -> P rest -> P (a :: b :: c :: rest)) ->
  forall l, P l.
Proof.
  intros H0 H1 H2 H3 Hstep. fix IH 1.
  intros [|a [|b [|c rest]]]; [exact H0 | apply H1 | apply H2 |].
  destruct rest as [|d rest'] eqn:E; [apply H3 |].
  rewrite <- E. apply Hstep; [congruence |]. apply IH.
Qed.

Lemma group_rev_step (a b c : ascii) (rest : list ascii) :
  rest <> [] ->
  PyNum.group_rev (a :: b :: c :: rest)
  = a :: b :: c :: ","%char :: PyNum.group_rev rest.
Proof. destruct rest; [congruence | reflexivity]. Qed.

Lemma group_rev_nonempty (l : list ascii) : l <> [] -> PyNum.group_rev l <> [].
Proof.
  destruct l as [|a [|b [|c [|d rest]]]]; simpl; congruence.
Qed.

Lemma group_rev_remove_commas (l : list ascii) :
  forallb Money.is_digit l = true ->
  List.filter (fun c => negb (Ascii.eqb c ",")) (PyNum.group_rev l) = l.
Proof.
  assert (Hbase : forall k, forallb Money.is_digit k = true ->
            List.filter (fun c => negb (Ascii.eqb c ",")) k = k).
  { induction k as [|x k IHk]; simpl; [reflexivity |].
    intros [Hx Hk]%andb_prop. rewrite (is_digit_not_comma x Hx). simpl.
    now rewrite IHk. }
  induction l as [| a | a b | a b c | a b c rest Hne IH] using list_ind3;
    intros Hd; try (apply Hbase; exact Hd).
  rewrite group_rev_step by assumption.
  simpl in Hd.
  apply andb_prop in Hd as [Ha Hd]. apply andb_prop in Hd as [Hb Hd].
  apply andb_prop in Hd as [Hc Hd].
  simpl. rewrite (is_digit_not_comma a Ha), (is_digit_not_comma b Hb),
    (is_digit_not_comma c Hc). simpl.
  now rewrite IH.
Qed.

Lemma group_rev_grouped (l : list ascii) :
  l <> [] -> forallb Money.is_digit l = true ->
  Money.grouped_rev (PyNum.group_rev l) = true.
Proof.
  induction l as [| a | a b | a b c | a b c rest Hne IH] using list_ind3;
    intros Hnil Hd; try congruence; try exact Hd.
  rewrite group_rev_step by assumption.
  simpl in Hd.
  apply andb_prop in Hd as [Ha Hd]. apply andb_prop in Hd as [Hb Hd].
  apply andb_prop in Hd as [Hc Hd].
  pose proof (group_rev_nonempty rest Hne) as Hg.
  specialize (IH Hne Hd).
  simpl. rewrite Ha, Hb, Hc. simpl.
  destruct (PyNum.group_rev rest); [congruence | exact IH].
Qed.

Lemma group_rev_no_point (l : list ascii) :
  forallb Money.is_digit l = true ->
  forallb (fun c => negb (Ascii.eqb c ".")) (PyNum.group_rev l) = true.
Proof.
  assert (Hbase : forall k, forallb Money.is_digit k = true ->
            forallb (fun c => negb (Ascii.eqb c ".")) k = true).
  { induction k as [|x k IHk]; simpl; [reflexivity |].
    intros [Hx Hk]%andb_prop. rewrite (is_digit_not_point x Hx). simpl.
    now apply IHk. }
  induction l as [| a | a b | a b c | a b c rest Hne IH] using list_ind3;
    intros Hd; try (apply Hbase; exact Hd).
  rewrite group_rev_step by assumption.
  simpl in Hd.
  apply andb_prop in Hd as [Ha Hd]. apply andb_prop in Hd as [Hb Hd].
  apply andb_prop in Hd as [Hc Hd].
  simpl. rewrite (is_digit_not_point a Ha), (is_digit_not_point b Hb),
    (is_digit_not_point c Hc). simpl.
  now apply IH.
Qed.


Lemma forallb_rev_eq {A} (f : A -> bool) (l : list A) :
  forallb f (List.rev l) = forallb f l.
Proof.
  induction l as [|x l IH]; simpl; [reflexivity |].
  rewrite forallb_app, IH. simpl. rewrite andb_true_r. apply andb_comm.
Qed.

Lemma split_point_app (a b : string) :
  forallb (fun c => negb (Ascii.eqb c ".")) (list_ascii_of_string a) = true ->
  Money.split_point (a +:+ "." +:+ b) = Some (a, b).
Proof.
  induction a as [|c a IH]; intros H.
  - reflexivity.
  - simpl in H. apply andb_prop in H as [Hc Ha].
    rewrite app_cons. simpl. apply negb_true_iff in Hc. rewrite Hc.
    now rewrite (IH Ha).
Qed.

Lemma group_thousands_read (n : N) :
  Money.well_grouped (PyNum.group_thousands (PyNum.str_nat n)) = true /\
  Money.remove_commas (PyNum.group_thousands (PyNum.str_nat n)) = PyNum.str_nat n /\
  forallb (fun c => negb (Ascii.eqb c "."))
    (list_ascii_of_string (PyNum.group_thousands (PyNum.str_nat n))) = true.
Proof.
  unfold Money.well_grouped, Money.remove_commas, PyNum.group_thousands.
  rewrite list_ascii_of_string_of_list_ascii.
  set (ds := list_ascii_of_string (PyNum.str_nat n)).
  assert (Hd : forallb Money.is_digit (List.rev ds) = true).
  { rewrite forallb_rev_eq. apply str_nat_digits. }
  assert (Hne : List.rev ds <> []).
  { intros H. apply (f_equal (@List.rev ascii)) in H.
    rewrite rev_involutive in H. simpl in H.
    apply (str_nat_nonempty n).
    rewrite <- (string_of_list_ascii_of_string (PyNum.str_nat n)).
    fold ds. now rewrite H. }
  split; [| split].
  - rewrite rev_involutive. now apply group_rev_grouped.
  - rewrite filter_rev, group_rev_remove_commas by assumption.
    rewrite rev_involutive. apply string_of_list_ascii_of_string.
  - rewrite forallb_rev_eq. now apply group_rev_no_point.
Qed.

Lemma two_digits (fp : N) :
  (fp < 100)%N ->
  String.length (PyNum.zero_pad 2 (PyNum.str_nat fp)) = 2%nat /\
  Money.digits_value (PyNum.zero_pad 2 (PyNum.str_nat fp)) = Some fp.
Proof.
  intros Hfp.
  assert (H : forallb
                (fun k =>
                   let t := PyNum.zero_pad 2 (PyNum.str_nat (N.of_nat k)) in
                   Nat.eqb (String.length t) 2
                   && match Money.digits_value t with
                      | Some v => N.eqb v (N.of_nat k)
                      | None => false
                      end)
                (seq 0 100) = true) by (vm_compute; reflexivity).
  rewrite forallb_forall in H. specialize (H (N.to_nat fp)).
  rewrite N2Nat.id in H. cbv zeta in H.
  destruct (andb_prop _ _ (H ltac:(apply in_seq; lia))) as [Hlen Hval].
  split; [now apply Nat.eqb_eq |].
  destruct (Money.digits_value _) as [v|]; [| discriminate].
  apply N.eqb_eq in Hval. now subst.
Qed.

Lemma read_dollar (body : string) :
  Money.read ("$" +:+ body) =
  match Money.split_point body with
  | Some (ip, fp) =>
      if Money.well_grouped ip && (String.length fp =? 2)%nat then
        match Money.digits_value (Money.remove_commas ip), Money.digits_value fp with
        | Some a, Some b => Some (100 * Z.of_N a + Z.of_N b)
        | _, _ => None
        end
      else None
  | None => None
  end.
Proof. reflexivity. Qed.

(** The text of [,.2f] for [n] hundredths reads back as [n]. *)
Lemma read_fixed_digits (n : Z) :
  0 <= n -> Money.read ("$" +:+ PyNum.fixed_digits 2 true n) = Some n.
Proof.
  intros Hn. unfold PyNum.fixed_digits. change (10 ^ Z.of_nat 2) with 100.
  set (ip := Z.to_N (n / 100)). set (fp := Z.to_N (n mod 100)).
  pose proof (Z.mod_pos_bound n 100 ltac:(lia)) as Hmod.
  pose proof (Z.div_pos n 100 Hn ltac:(lia)) as Hdiv.
  destruct (group_thousands_read ip) as (Hg & Hrm & Hnp).
  destruct (two_digits fp ltac:(unfold fp; lia)) as (Hlen & Hval).
  rewrite read_dollar, (split_point_app _ _ Hnp).
  rewrite Hg, Hlen, Hrm, digits_value_str_nat, Hval. simpl.
  f_equal. unfold ip, fp. rewrite !Z2N.id by lia.
  pose proof (Z.div_mod n 100 ltac:(lia)). lia.
Qed.


Lemma currency_filter_float (v : PyNum.number) (x : spec_float) :
  PyNum.to_float v = Return x ->
  currency_filter v = Return ("$" +:+ PyNum.format_fixed 2 true x).
Proof.
  intros H. unfold currency_filter, PyNum.format_number. rewrite H. reflexivity.
Qed.

(** ** Integers that are floats *)

Lemma iter_xO_value (p k : positive) :
  Z.pos (Pos.iter xO p k) = Z.pos p * 2 ^ Z.pos k.
Proof.
  induction k as [|k IH] using Pos.peano_ind.
  - simpl. lia.
  - rewrite Pos.iter_succ, Pos2Z.inj_xO, IH, Pos2Z.inj_succ.
    rewrite Z.pow_succ_r by lia. ring.
Qed.

Lemma iter_xO_digits (p k : positive) :
  digits2_pos (Pos.iter xO p k) = (digits2_pos p + k)%positive.
Proof.
  induction k as [|k IH] using Pos.peano_ind.
  - simpl. lia.
  - rewrite Pos.iter_succ. simpl. rewrite IH. lia.
Qed.

Lemma digits2_pos_lower (p : positive) :
  2 ^ (Z.pos (digits2_pos p) - 1) <= Z.pos p.
Proof.
  induction p as [p IH | p IH |]; simpl digits2_pos.
  - rewrite Pos2Z.inj_succ.
    replace (Z.succ (Z.pos (digits2_pos p)) - 1)
      with (Z.succ (Z.pos (digits2_pos p) - 1)) by lia.
    rewrite Z.pow_succ_r by lia. lia.
  - rewrite Pos2Z.inj_succ.
    replace (Z.succ (Z.pos (digits2_pos p)) - 1)
      with (Z.succ (Z.pos (digits2_pos p) - 1)) by lia.
    rewrite Z.pow_succ_r by lia. lia.
  - simpl. lia.
Qed.

Lemma digits2_pos_le_53 (p : positive) :
  Z.pos p < 2 ^ 53 -> Z.pos (digits2_pos p) <= 53.
Proof.
  intros Hp. pose proof (digits2_pos_lower p) as Hl.
  destruct (Z.le_gt_cases (Z.pos (digits2_pos p)) 53) as [H | H]; [exact H |].
  assert (2 ^ 53 <= 2 ^ (Z.pos (digits2_pos p) - 1)) by (apply Z.pow_le_mono_r; lia).
  lia.
Qed.

(** A mantissa of 53 bits with an exponent in range is left as it is by the
    rounding of [binary_round_aux]. *)
Lemma binary_round_aux_53 (m : positive) (e : Z) :
  Z.pos (digits2_pos m) = 53 -> -53 < e <= 0 ->
  binary_round_aux 53 1024 false (Z.pos m) e loc_Exact = S754_finite false m e.
Proof.
  intros Hd He.
  unfold binary_round_aux, shr_fexp, fexp, emin, Zdigits2.
  rewrite Hd.
  replace (Z.max (53 + e - 53) (3 - 1024 - 53) - e) with 0 by lia.
  cbv beta iota zeta delta [shr shr_record_of_loc shr_m shr_r shr_s
                            loc_of_shr_record round_nearest_even].
  rewrite Hd.
  replace (Z.max (53 + e - 53) (3 - 1024 - 53) - e) with 0 by lia.
  cbv beta iota zeta delta [shr_m].
  destruct (Z.leb_spec e (1024 - 53)) as [_ | H]; [reflexivity | lia].
Qed.

(** The float of a positive [int] below [2^53] is that integer: a mantissa
    [z * 2^k] with the exponent [-k]. *)
Lemma float_of_int_exact (p : positive) :
  Z.pos p < 2 ^ 53 ->
  exists m k,
    PyNum.float_of_int (Z.pos p) = Return (S754_finite false m (- k)) /\
    0 <= k /\ Z.pos m = Z.pos p * 2 ^ k.
Proof.
  intros Hp. pose proof (digits2_pos_le_53 p Hp) as Hd.
  unfold PyNum.float_of_int, binary_normalize, binary_round, shl_align, fexp, emin.
  rewrite Z.add_0_r.
  replace (Z.max (Z.pos (digits2_pos p) - 53) (3 - 1024 - 53))
    with (Z.pos (digits2_pos p) - 53) by lia.
  rewrite Z.sub_0_r.
  destruct (Z.pos (digits2_pos p) - 53) as [|q|q] eqn:E; [| lia |].
  - rewrite binary_round_aux_53 by lia.
    exists p, 0. split; [reflexivity |]. split; [lia | simpl; lia].
  - assert (Hq : Z.pos q = 53 - Z.pos (digits2_pos p)) by lia.
    rewrite binary_round_aux_53.
    + exists (Pos.iter xO p q), (Z.pos q). split; [reflexivity |].
      split; [lia | apply iter_xO_value].
    + rewrite iter_xO_digits. lia.
    + lia.
Qed.

Lemma scaled_exact (p m : positive) (k : Z) :
  0 <= k -> Z.pos m = Z.pos p * 2 ^ k -> PyNum.scaled 2 m (- k) = 100 * Z.pos p.
Proof.
  intros Hk Hm. unfold PyNum.scaled. change (10 ^ Z.of_nat 2) with 100.
  destruct (Z.leb_spec 0 (- k)) as [H | H].
  - assert (k = 0) by lia. subst k. simpl in *. lia.
  - rewrite Z.opp_involutive. rewrite Hm.
    assert (H2 : 0 < 2 ^ k) by (apply Z.pow_pos_nonneg; lia).
    unfold PyNum.round_half_even.
    replace (Z.pos p * 2 ^ k * 100) with (100 * Z.pos p * 2 ^ k) by ring.
    rewrite Z.div_mul by lia. rewrite Z.mod_mul by lia.
    destruct (Z.ltb_spec (2 * 0) (2 ^ k)); [reflexivity | lia].
Qed.

(** For an [int] from 0 to [2^53 - 1] the filter prints the integer itself,
    grouped, with the decimals [.00]. *)
Lemma currency_filter_small_int (z : Z) :
  0 <= z < 2 ^ 53 ->
  exists out, currency_filter (PyNum.PyInt z) = Return out /\
              Money.read out = Some (100 * z).
Proof.
  intros Hz. destruct z as [|p|p]; [| | lia].
  - exists ("$" +:+ PyNum.fixed_digits 2 true 0). split; [reflexivity |].
    apply read_fixed_digits. lia.
  - destruct (float_of_int_exact p ltac:(lia)) as (m & k & Hf & Hk & Hm).
    rewrite (currency_filter_float (PyNum.PyInt (Z.pos p)) _ Hf).
    unfold PyNum.format_fixed, PyNum.sign_text. rewrite app_empty_l.
    rewrite (scaled_exact p m k Hk Hm).
    eexists. split; [reflexivity |]. apply read_fixed_digits. lia.
Qed.

(** ** The currency filter ([currency_filter] of app.py, [format_currency]
       of jinja2-example.py) *)

(** C4, as stated, fails at the float [inf], which is a non-negative
    numeric value ([0 <= inf] holds): the filter returns [$inf], a text
    with no grouped digits and no decimal places. *)
Lemma currency_filter_infinity :
  (0 <=? infinity)%float = true /\
  currency_filter (PyNum.PyFloat infinity) = Return "$inf" /\
  Money.read "$inf" = None.
Proof. repeat split; vm_compute; reflexivity. Qed.

(** The same claim fails on large [int] arguments, which the [f]
    presentation type first turns into floats: [2^53 + 1] is printed as
    [2^53], and [10^400] raises [OverflowError]. *)
Example currency_filter_large_int :
  currency_filter (PyNum.PyInt (2 ^ 53 + 1)) = Return "$9,007,199,254,740,992.00" /\
  currency_filter (PyNum.PyInt (10 ^ 400)) = Raise OverflowError.
Proof. split; vm_compute; reflexivity. Qed.

(** C4, amended. The currency filter maps the value 1234.5 to the string
    [$1,234.50]; and for every numeric value [v] whose float [x] (the value
    itself for a float, the nearest float for an int) is finite and not
    negative, it returns a dollar sign followed by an amount with comma
    thousands grouping and exactly two decimal places, which is [x] rounded
    to the nearest hundredth, ties going to the even hundredth.  For an
    int from 0 to [2^53 - 1] that amount is the integer itself.
    [format_currency] is the same function. *)
Theorem currency_filter_amount (v : PyNum.number) (x : spec_float) :
  PyNum.to_float v = Return x ->
  Money.finite_nonneg x = true ->
  currency_filter (PyNum.PyFloat 1234.5) = Return "$1,234.50" /\
  format_currency v = currency_filter v /\
  (exists out n,
     currency_filter v = Return out /\
     Money.read out = Some n /\
     Money.nearest_hundredth x n) /\
  (forall z, v = PyNum.PyInt z -> 0 <= z < 2 ^ 53 ->
     exists out, currency_filter v = Return out /\ Money.read out = Some (100 * z)).
Proof.
  intros Hx Hfin.
  split; [vm_compute; reflexivity |]. split; [reflexivity |].
  split; [| intros z -> Hz; now apply currency_filter_small_int].
  rewrite (currency_filter_float v x Hx).
  destruct x as [s | s | | s m e]; try discriminate Hfin;
    destruct s; try discriminate Hfin.
  - exists ("$" +:+ PyNum.fixed_digits 2 true 0), 0.
    split; [reflexivity |]. split; [| reflexivity].
    apply read_fixed_digits. lia.
  - exists ("$" +:+ PyNum.fixed_digits 2 true (PyNum.scaled 2 m e)), (PyNum.scaled 2 m e).
    split; [reflexivity |]. split.
    + apply read_fixed_digits. apply scaled_nonneg.
    + apply scaled_nearest.
Qed.

Lemma currency_filter_amount_witness :
  PyNum.to_float (PyNum.PyFloat 199.99) = Return (Prim2SF 199.99) /\
  Money.finite_nonneg (Prim2SF 199.99) = true /\
  currency_filter (PyNum.PyFloat 199.99) = Return "$199.99" /\
  exists out n,
    currency_filter (PyNum.PyFloat 199.99) = Return out /\
    Money.read out = Some n /\
    Money.nearest_hundredth (Prim2SF 199.99) n.
Proof.
  split; [reflexivity |]. split; [vm_compute; reflexivity |].
  split; [vm_compute; reflexivity |].
  exact (proj1 (proj2 (proj2 (currency_filter_amount
                                (PyNum.PyFloat 199.99) (Prim2SF 199.99)
                                eq_refl ltac:(vm_compute; reflexivity))))).
Defined.


(** ** Pages built from string literals (run_app.py, simple_app.py) *)


Lemma join_cons (sep x : string) (l : list string) :
  PyStr.join sep (x :: l) = x +:+ lines_after sep l.
Proof.
  revert x. induction l as [|y l IH]; intros x.
  - simpl. symmetry. apply app_empty_r.
  - change (PyStr.join sep (x :: y :: l)) with (x +:+ sep +:+ PyStr.join sep (y :: l)).
    rewrite IH. reflexivity.
Qed.

Lemma join_middle (sep y : string) (A B : list string) :
  PyStr.join sep (A ++ y :: B) = lines_before sep A +:+ y +:+ lines_after sep B.
Proof.
  induction A as [|x A IH].
  - simpl. apply join_cons.
  - change ((x :: A) ++ y :: B)%list with (x :: (A ++ y :: B))%list.
    rewrite join_cons.
    assert (Hafter : lines_after sep (A ++ y :: B)
                     = sep +:+ PyStr.join sep (A ++ y :: B)).
    { destruct A as [|x' A'].
      - change ([] ++ y :: B)%list with (y :: B). now rewrite join_cons.
      - change ((x' :: A') ++ y :: B)%list with (x' :: (A' ++ y :: B))%list.
        now rewrite join_cons. }
    rewrite Hafter, IH. simpl. now rewrite !app_assoc_str.
Qed.

Section PagesFacts.
Variable datetime : Type.
Variable strftime : datetime -> string -> string.
Variable float_repr : float -> string.
Variable float_sum : list float -> float.
Variable allocates : Z -> bool.

Lemma home_head_split (products : list App.product) (now : datetime) :
  RunApp.home_head_lines datetime strftime float_sum products now
  = (head_before float_sum
     ++ ("            <p>Generated on: " +:+ strftime now "%B %d, %Y at %I:%M %p" +:+ "</p>")
     :: head_after float_sum products)%list.
Proof. reflexivity. Qed.


Lemma loop_cards (products : list App.product) (html : outcome string) :
  fold_left
    (fun html product =>
       obind html (fun text =>
       obind (RunApp.product_card float_repr allocates product) (fun card => Return (text +:+ card))))
    products html
  = obind html (fun text => obind (cards float_repr allocates products) (fun t => Return (text +:+ t))).
Proof.
  revert html. induction products as [|p rest IH]; intros html.
  - destruct html as [h | e]; simpl; [| reflexivity]. now rewrite app_empty_r.
  - simpl fold_left. rewrite IH. destruct html as [h | e]; simpl; [| reflexivity].
    destruct (RunApp.product_card float_repr allocates p) as [card | e]; simpl; [| reflexivity].
    destruct (cards float_repr allocates rest) as [t | e]; simpl; [| reflexivity].
    now rewrite app_assoc_str.
Qed.

Lemma generate_home_page_text (products : list App.product) (now : datetime) :
  RunApp.generate_home_page datetime strftime float_repr float_sum allocates products now
  = obind (cards float_repr allocates products) (fun t =>
    Return ((lines_before nl (head_before float_sum) +:+ "            <p>Generated on: ")
            +:+ strftime now "%B %d, %Y at %I:%M %p"
            +:+ ("</p>" +:+ lines_after nl (head_after float_sum products))
                +:+ t +:+ PyStr.join nl RunApp.home_foot_lines)).
Proof.
  unfold RunApp.generate_home_page. cbv zeta.
  rewrite loop_cards, home_head_split, join_middle.
  generalize (lines_before nl (head_before float_sum)) (lines_after nl (head_after float_sum products))
             (PyStr.join nl RunApp.home_foot_lines)
             (strftime now "%B %d, %Y at %I:%M %p").
  intros P Q F stamp.
  destruct (cards float_repr allocates products) as [t | e]; [| reflexivity].
  unfold obind. now rewrite !app_assoc_str.
Qed.

End PagesFacts.


Section SimplePageFacts.
Variable datetime : Type.
Variable strftime : datetime -> string -> string.


Lemma product_page_split (product : SimpleApp.product) (now : datetime) :
  SimpleApp.product_page_lines datetime strftime product now
  = (page_before product
     ++ ("        <p><em>Generated on: " +:+ strftime now "%B %d, %Y at %I:%M %p"
         +:+ "</em></p>")
     :: page_after product)%list.
Proof. reflexivity. Qed.

Lemma product_page_text (product : SimpleApp.product) (now : datetime) :
  SimpleApp.product_page datetime strftime product now
  = (lines_before nl (page_before product) +:+ "        <p><em>Generated on: ")
    +:+ strftime now "%B %d, %Y at %I:%M %p"
    +:+ ("</em></p>" +:+ lines_after nl (page_after product)).
Proof.
  unfold SimpleApp.product_page. rewrite product_page_split, join_middle.
  generalize (lines_before nl (page_before product))
             (lines_after nl (page_after product))
             (strftime now "%B %d, %Y at %I:%M %p").
  intros P Q stamp. now rewrite !app_assoc_str.
Qed.

End SimplePageFacts.

(* ================================================================== *)
(** * Further properties of the code *)

(** ** [truncate_text]: repeated and out-of-range use *)

Lemma substring_0_app (a b : string) :
  String.substring 0 (String.length a) (a +:+ b) = a.
Proof.
  induction a as [|c a IH].
  - destruct b; reflexivity.
  - rewrite app_cons. simpl. now rewrite IH.
Qed.

Lemma slice_to_length (s : string) (n : Z) :
  PyStr.len (PyStr.slice_to s n)
  = if n <? 0 then Z.max (PyStr.len s + n) 0 else Z.min n (PyStr.len s).
Proof.
  unfold PyStr.slice_to, PyStr.len.
  destruct (Z.ltb_spec n 0); rewrite substring_0_length; lia.
Qed.

Lemma slice_to_length_nonneg (s : string) (n : Z) :
  0 <= n -> n <= PyStr.len s -> PyStr.len (PyStr.slice_to s n) = n.
Proof.
  intros H0 Hn. rewrite slice_to_length.
  destruct (Z.ltb_spec n 0); lia.
Qed.

Lemma slice_to_app (a b : string) :
  PyStr.slice_to (a +:+ b) (PyStr.len a) = a.
Proof.
  unfold PyStr.slice_to, PyStr.len. rewrite length_app_str.
  destruct (Z.ltb_spec (Z.of_nat (String.length a)) 0); [lia |].
  rewrite Z.min_l by lia. rewrite Nat2Z.id. apply substring_0_app.
Qed.

(** X1. Truncating twice to the same non-negative length is truncating
    once: the three dots are not counted against the length, and a second
    pass neither removes them nor adds more. *)
Theorem truncate_text_idempotent (text : string) (n : Z) :
  0 <= n ->
  truncate_text (truncate_text text n) n = truncate_text text n.
Proof.
  intros Hn. destruct (Z.leb_spec (PyStr.len text) n) as [Hle | Hgt].
  - assert (E : truncate_text text n = text).
    { unfold truncate_text. destruct (Z.leb_spec (PyStr.len text) n); [reflexivity | lia]. }
    rewrite E. exact E.
  - pose proof (slice_to_length_nonneg text n Hn ltac:(lia)) as Hlen.
    assert (E : truncate_text text n = PyStr.slice_to text n +:+ "...").
    { unfold truncate_text. destruct (Z.leb_spec (PyStr.len text) n); [lia | reflexivity]. }
    rewrite E. set (pre := PyStr.slice_to text n) in *. unfold truncate_text.
    destruct (Z.leb_spec (PyStr.len (pre +:+ "...")) n) as [H | _].
    + unfold PyStr.len in *. rewrite length_app_str in H. simpl in H. lia.
    + rewrite <- Hlen. now rewrite slice_to_app.
Qed.

Lemma truncate_text_idempotent_witness :
  0 <= 4 /\
  truncate_text "rendering" 4 = "rend..." /\
  truncate_text (truncate_text "rendering" 4) 4 = truncate_text "rendering" 4.
Proof.
  split; [lia |]. split; [reflexivity |].
  apply (truncate_text_idempotent "rendering" 4). lia.
Defined.

(** X2. When a text is longer than the non-negative length [n], the result
    has exactly [n + 3] characters whatever the length of the text: the
    dots come on top of the [n] kept characters, so a text of [n + 1] or
    [n + 2] characters comes out longer than it went in. *)
Theorem truncate_text_may_lengthen (text : string) (n : Z) :
  0 <= n -> n < PyStr.len text ->
  PyStr.len (truncate_text text n) = n + 3 /\
  (PyStr.len text < n + 3 -> PyStr.len text < PyStr.len (truncate_text text n)).
Proof.
  intros Hn Hlt. assert (Hlen : PyStr.len (truncate_text text n) = n + 3).
  { unfold truncate_text. destruct (Z.leb_spec (PyStr.len text) n); [lia |].
    pose proof (slice_to_length_nonneg text n Hn ltac:(lia)) as Hs.
    unfold PyStr.len in *. rewrite length_app_str. simpl. lia. }
  split; [exact Hlen | lia].
Qed.

Lemma truncate_text_may_lengthen_witness :
  0 <= 3 /\ 3 < PyStr.len "feed" /\
  truncate_text "feed" 3 = "fee..." /\
  PyStr.len (truncate_text "feed" 3) = 3 + 3.
Proof.
  split; [lia |]. split; [reflexivity |]. split; [reflexivity |].
  apply (truncate_text_may_lengthen "feed" 3); [lia | reflexivity].
Defined.

(** X3. With a negative length the function always truncates, whatever
    the text: the result is the text without its last [-n] characters
    (nothing of it when it has no more than that), followed by the three
    dots; so the empty text gives the three dots alone. *)
Theorem truncate_text_negative_length (text : string) (n : Z) :
  n < 0 ->
  exists kept dropped,
    text = kept +:+ dropped /\
    PyStr.len kept = Z.max (PyStr.len text + n) 0 /\
    truncate_text text n = kept +:+ "...".
Proof.
  intros Hn. unfold truncate_text.
  destruct (Z.leb_spec (PyStr.len text) n) as [H | _];
    [unfold PyStr.len in H; lia |].
  assert (Hlen : PyStr.len (PyStr.slice_to text n) = Z.max (PyStr.len text + n) 0).
  { rewrite slice_to_length. destruct (Z.ltb_spec n 0); [reflexivity | lia]. }
  destruct (substring_0_split (Z.to_nat (Z.max (PyStr.len text + n) 0)) text)
    as [rest Hrest]; [unfold PyStr.len; lia |].
  exists (PyStr.slice_to text n), rest. split; [| split; [exact Hlen | reflexivity]].
  unfold PyStr.slice_to. destruct (Z.ltb_spec n 0); [exact Hrest | lia].
Qed.

Lemma truncate_text_negative_length_witness :
  -2 < 0 /\
  truncate_text "hello" (-2) = "hel..." /\
  truncate_text EmptyString (-2) = "..." /\
  exists kept dropped,
    "hello" = kept +:+ dropped /\
    PyStr.len kept = Z.max (PyStr.len "hello" + -2) 0 /\
    truncate_text "hello" (-2) = kept +:+ "...".
Proof.
  split; [lia |]. split; [reflexivity |]. split; [reflexivity |].
  apply (truncate_text_negative_length "hello" (-2)). lia.
Defined.

(** ** The two date filters *)

(** A parser that takes every string and one that refuses a [Z]. *)
Definition parse_any (s : string) : outcome string := Return s.

Definition parse_no_Z (s : string) : outcome string :=
  if existsb (Ascii.eqb "Z") (list_ascii_of_string s) then Raise ValueError
  else Return s.

(** X4. [format_date] and [date_format_filter] agree on every string that
    the parser accepts.  On a string that it rejects [format_date] lets the
    exception through, where [date_format_filter] gives the string back;
    and a [datetime] handed to [format_date] is formatted without being
    parsed. *)
Theorem format_date_and_date_format_filter
    (datetime : Type) (fromisoformat : string -> outcome datetime)
    (strftime : datetime -> string -> string) (s : string) :
  (forall d, fromisoformat (PyStr.replace "Z" "+00:00" s) = Return d ->
     format_date_default datetime fromisoformat strftime (DateStr s)
       = Return (strftime d "%B %d, %Y") /\
     date_format_filter datetime fromisoformat strftime s
       = format_date_default datetime fromisoformat strftime (DateStr s)) /\
  (forall e, fromisoformat (PyStr.replace "Z" "+00:00" s) = Raise e ->
     format_date_default datetime fromisoformat strftime (DateStr s) = Raise e /\
     date_format_filter datetime fromisoformat strftime s = Return s) /\
  (forall d format,
     format_date datetime fromisoformat strftime (DateObj d) format
       = Return (strftime d format)).
Proof.
  unfold format_date_default, format_date, date_format_filter, try_except, obind.
  split; [| split].
  - intros d ->. split; reflexivity.
  - intros e ->. split; reflexivity.
  - reflexivity.
Qed.

Lemma format_date_and_date_format_filter_witness :
  date_format_filter string parse_no_Z (fun d _ => d) "2025-01-16T10:30:00Z"
  = Return "2025-01-16T10:30:00+00:00" /\
  date_format_filter string parse_no_Z (fun d _ => d) "2025-01-16T10:30:00Z"
  = format_date_default string parse_no_Z (fun d _ => d) (DateStr "2025-01-16T10:30:00Z").
Proof.
  split; [reflexivity |].
  exact (proj2 (proj1 (format_date_and_date_format_filter string parse_no_Z
                         (fun d _ => d) "2025-01-16T10:30:00Z")
                  "2025-01-16T10:30:00+00:00" eq_refl)).
Defined.

Lemma list_ascii_of_string_app (a b : string) :
  list_ascii_of_string (a +:+ b)
  = (list_ascii_of_string a ++ list_ascii_of_string b)%list.
Proof.
  induction a as [|c a IH]; [reflexivity |].
  rewrite app_cons. simpl. now rewrite IH.
Qed.

(** What [replace] leaves of the replaced character: nothing, when the
    replacement text does not hold it. *)
Lemma replace_removes (old : ascii) (new s : string) :
  ~ In old (list_ascii_of_string new) ->
  ~ In old (list_ascii_of_string (PyStr.replace old new s)).
Proof.
  intros Hnew. induction s as [|c s IH]; simpl; [tauto |].
  destruct (Ascii.eqb_spec c old) as [-> | Hne].
  - rewrite list_ascii_of_string_app, in_app_iff. tauto.
  - simpl. intros [H | H]; [congruence | tauto].
Qed.

Lemma replace_absent (old : ascii) (new s : string) :
  ~ In old (list_ascii_of_string s) -> PyStr.replace old new s = s.
Proof.
  induction s as [|c s IH]; simpl; [reflexivity |].
  intros H. destruct (Ascii.eqb_spec c old) as [-> | Hne]; [tauto |].
  rewrite IH; [reflexivity | tauto].
Qed.

(** X5. The parser behind [date_format_filter] never receives a capital
    [Z]: two parsers that agree on the strings without a [Z] give the same
    filter.  And a string without a [Z] goes to the parser as it is. *)
Theorem date_format_filter_never_passes_Z
    (datetime : Type) (parse1 parse2 : string -> outcome datetime)
    (strftime : datetime -> string -> string) :
  (forall s, ~ In "Z"%char (list_ascii_of_string s) -> parse1 s = parse2 s) ->
  forall date_str,
    date_format_filter datetime parse1 strftime date_str
      = date_format_filter datetime parse2 strftime date_str /\
    (~ In "Z"%char (list_ascii_of_string date_str) ->
     date_format_filter datetime parse1 strftime date_str
       = try_except (obind (parse1 date_str)
                       (fun d => Return (strftime d "%B %d, %Y")))
                    (Return date_str)).
Proof.
  intros Hagree date_str. unfold date_format_filter. split.
  - rewrite (Hagree (PyStr.replace "Z" "+00:00" date_str)); [reflexivity |].
    apply replace_removes. simpl. intros H.
    repeat destruct H as [H | H]; try discriminate H; exact H.
  - intros Hz. now rewrite (replace_absent _ _ _ Hz).
Qed.

Lemma date_format_filter_never_passes_Z_witness :
  date_format_filter string parse_any (fun d _ => d) "2025-01-16T10:30:00Z"
  = date_format_filter string parse_no_Z (fun d _ => d) "2025-01-16T10:30:00Z" /\
  date_format_filter string parse_no_Z (fun d _ => d) "2025-01-16T10:30:00Z"
  = Return "2025-01-16T10:30:00+00:00".
Proof.
  split; [| reflexivity].
  apply (date_format_filter_never_passes_Z string parse_any parse_no_Z (fun d _ => d)).
  intros s Hs. unfold parse_any, parse_no_Z.
  destruct (existsb (Ascii.eqb "Z") (list_ascii_of_string s)) eqn:E; [| reflexivity].
  exfalso. apply Hs. apply existsb_exists in E as (c & Hc & Heq).
  apply Ascii.eqb_eq in Heq. now subst.
Defined.

(** ** The currency filter: negative values and errors *)

(** X6. For a negative finite value the currency filter writes the minus
    sign after the dollar sign and then the amount of the absolute value,
    grouped and with two decimals; a negative value that rounds to zero
    keeps its sign, as in [$-0.00]. *)
Theorem currency_filter_negative (v : PyNum.number) (m : positive) (e : Z) :
  PyNum.to_float v = Return (S754_finite true m e) ->
  exists body n,
    currency_filter v = Return ("$-" +:+ body) /\
    Money.read ("$" +:+ body) = Some n /\
    Money.nearest_hundredth (S754_finite false m e) n.
Proof.
  intros Hv. rewrite (currency_filter_float v _ Hv).
  exists (PyNum.fixed_digits 2 true (PyNum.scaled 2 m e)), (PyNum.scaled 2 m e).
  split; [reflexivity |]. split.
  - apply read_fixed_digits. apply scaled_nonneg.
  - apply scaled_nearest.
Qed.

Lemma currency_filter_negative_witness :
  PyNum.to_float (PyNum.PyFloat (-1234.5))
    = Return (S754_finite true 5429388417957888 (-42)) /\
  currency_filter (PyNum.PyFloat (-1234.5)) = Return "$-1,234.50" /\
  currency_filter (PyNum.PyFloat (-0.001)) = Return "$-0.00" /\
  exists body n,
    currency_filter (PyNum.PyFloat (-1234.5)) = Return ("$-" +:+ body) /\
    Money.read ("$" +:+ body) = Some n /\
    Money.nearest_hundredth (S754_finite false 5429388417957888 (-42)) n.
Proof.
  split; [vm_compute; reflexivity |]. split; [vm_compute; reflexivity |].
  split; [vm_compute; reflexivity |].
  apply (currency_filter_negative (PyNum.PyFloat (-1234.5)) 5429388417957888 (-42)).
  vm_compute. reflexivity.
Defined.

Lemma binary_round_aux_53_signed (s : bool) (m : positive) (e : Z) :
  Z.pos (digits2_pos m) = 53 -> -53 < e <= 0 ->
  binary_round_aux 53 1024 s (Z.pos m) e loc_Exact = S754_finite s m e.
Proof.
  intros Hd He.
  unfold binary_round_aux, shr_fexp, fexp, emin, Zdigits2.
  rewrite Hd.
  replace (Z.max (53 + e - 53) (3 - 1024 - 53) - e) with 0 by lia.
  cbv beta iota zeta delta [shr shr_record_of_loc shr_m shr_r shr_s
                            loc_of_shr_record round_nearest_even].
  rewrite Hd.
  replace (Z.max (53 + e - 53) (3 - 1024 - 53) - e) with 0 by lia.
  cbv beta iota zeta delta [shr_m].
  destruct (Z.leb_spec e (1024 - 53)) as [_ | H]; [reflexivity | lia].
Qed.

Lemma binary_round_small (s : bool) (p : positive) :
  Z.pos p < 2 ^ 53 ->
  exists m e, binary_round 53 1024 s p 0 = S754_finite s m e.
Proof.
  intros Hp. pose proof (digits2_pos_le_53 p Hp) as Hd.
  unfold binary_round, shl_align, fexp, emin.
  rewrite Z.add_0_r.
  replace (Z.max (Z.pos (digits2_pos p) - 53) (3 - 1024 - 53))
    with (Z.pos (digits2_pos p) - 53) by lia.
  rewrite Z.sub_0_r.
  destruct (Z.pos (digits2_pos p) - 53) as [|q|q] eqn:E; [| lia |].
  - rewrite binary_round_aux_53_signed by lia. eauto.
  - rewrite binary_round_aux_53_signed; [eauto | rewrite iter_xO_digits; lia | lia].
Qed.

(** An [int] below [2^53] in absolute value has a float. *)
Lemma float_of_int_small (z : Z) :
  Z.abs z < 2 ^ 53 -> exists f, PyNum.float_of_int z = Return f.
Proof.
  intros Hz. unfold PyNum.float_of_int, binary_normalize.
  destruct z as [|p|p].
  - eauto.
  - destruct (binary_round_small false p ltac:(lia)) as (m & e & ->). eauto.
  - destruct (binary_round_small true p ltac:(lia)) as (m & e & ->). eauto.
Qed.

(** X7. The currency filter raises nothing on a float, whatever the float
    (infinities and NaN included).  On an int the one exception it can
    raise is [OverflowError], and only when the int has an absolute value
    of [2^53] or more. *)
Theorem currency_filter_raises (v : PyNum.number) (e : exn) :
  currency_filter v = Raise e ->
  e = OverflowError /\ exists z, v = PyNum.PyInt z /\ 2 ^ 53 <= Z.abs z.
Proof.
  unfold currency_filter, PyNum.format_number, PyNum.to_float, obind.
  destruct v as [z | x]; [| discriminate].
  intros H. split.
  - unfold PyNum.float_of_int in H.
    destruct (binary_normalize 53 1024 z 0 false); simpl in H; congruence.
  - exists z. split; [reflexivity |].
    destruct (Z.le_gt_cases (2 ^ 53) (Z.abs z)) as [Hle | Hlt]; [exact Hle |].
    destruct (float_of_int_small z ltac:(lia)) as [f Hf].
    rewrite Hf in H. discriminate H.
Qed.

Lemma currency_filter_raises_witness :
  currency_filter (PyNum.PyInt (10 ^ 400)) = Raise OverflowError /\
  exists z, PyNum.PyInt (10 ^ 400) = PyNum.PyInt z /\ 2 ^ 53 <= Z.abs z.
Proof.
  split; [vm_compute; reflexivity |].
  apply (currency_filter_raises (PyNum.PyInt (10 ^ 400)) OverflowError).
  vm_compute. reflexivity.
Defined.

(** ** The product listing: what the data can be *)

(** The dictionary that [get_products] answers with, as a function of the
    content of [PRODUCTS] and of the [category] parameter. *)
Definition listing_payload (lower : string -> string)
    (products : list App.product) (param : option string) : App.products_json :=
  let items :=
    match param with
    | Some c => if PyStr.truthy c then List.filter (same_category lower c) products
                else products
    | None => products
    end in
  {| App.status := "success"; App.count := Z.of_nat (length items); App.data := items |}.

Lemma truthy_nonempty (c : string) : PyStr.truthy c = true <-> c <> EmptyString.
Proof. destruct c; simpl; split; congruence. Qed.

Lemma get_products_run (lower : string -> string)
    (s : gmap ref (list App.product)) (products : list App.product)
    (args : gmap string string) :
  s !! PRODUCTS_ref = Some products ->
  fst (App.get_products lower args s)
    = Json (listing_payload lower products (args !! "category")) /\
  snd (App.get_products lower args s) !! PRODUCTS_ref = Some products.
Proof.
  intros Hs. unfold App.get_products, sbind, sret, listing_payload.
  destruct (args !! "category") as [c|] eqn:Hc.
  - destruct (PyStr.truthy c) eqn:Ht.
    + apply truthy_nonempty in Ht.
      pose proof (get_products_ref_filter lower s products args c Hs Hc Ht) as H.
      cbv zeta in H. rewrite H. simpl. split; [reflexivity |].
      rewrite lookup_insert_ne; [assumption |].
      intros Heq. pose proof (is_fresh (dom s)) as Hf. rewrite Heq in Hf.
      apply Hf. apply elem_of_dom. now exists products.
    + assert (c = EmptyString) as -> by (destruct c; [reflexivity | discriminate]).
      rewrite (get_products_ref_all lower s products args Hs) by (now right).
      simpl. split; [reflexivity | assumption].
  - rewrite (get_products_ref_all lower s products args Hs) by (now left).
    simpl. split; [reflexivity | assumption].
Qed.

Lemma filter_sublist {A} (f : A -> bool) (l : list A) : sublist (List.filter f l) l.
Proof.
  induction l as [|x l IH]; simpl; [constructor |].
  destruct (f x); now constructor.
Qed.

Lemma filter_length_le {A} (f : A -> bool) (l : list A) :
  (length (List.filter f l) <= length l)%nat.
Proof. induction l as [|x l IH]; simpl; [lia |]. destruct (f x); simpl; lia. Qed.

(** X8. The category filter does not see the case of its parameter: two
    non-empty parameters that are equal once lowered get the same answer. *)
Theorem get_products_case_insensitive (lower : string -> string)
    (s : gmap ref (list App.product)) (products : list App.product)
    (c1 c2 : string) :
  s !! PRODUCTS_ref = Some products ->
  c1 <> EmptyString -> c2 <> EmptyString -> lower c1 = lower c2 ->
  fst (App.get_products lower {[ "category" := c1 ]} s)
  = fst (App.get_products lower {[ "category" := c2 ]} s).
Proof.
  intros Hs H1 H2 Hl.
  rewrite (proj1 (get_products_run lower s products _ Hs)).
  rewrite (proj1 (get_products_run lower s products _ Hs)).
  rewrite !lookup_singleton_eq. unfold listing_payload.
  apply truthy_nonempty in H1, H2. rewrite H1, H2.
  assert (E : List.filter (same_category lower c1) products
              = List.filter (same_category lower c2) products).
  { apply filter_ext. intros p. unfold same_category. now rewrite Hl. }
  now rewrite E.
Qed.

Lemma get_products_case_insensitive_witness :
  fst (App.get_products PyStr.lower {[ "category" := "FURNITURE" ]} App.initial_store)
  = fst (App.get_products PyStr.lower {[ "category" := "Furniture" ]} App.initial_store).
Proof.
  apply (get_products_case_insensitive PyStr.lower App.initial_store App.PRODUCTS
           "FURNITURE" "Furniture" eq_refl); [discriminate | discriminate | reflexivity].
Defined.

(** X9. Whatever the request, the answer of [get_products] is a JSON
    success whose data are a sub-list of [PRODUCTS] (members of the list, in
    its order, none twice more than there), and whose count is the number
    of its data, between 0 and the number of products. *)
Theorem get_products_within_products (lower : string -> string)
    (s : gmap ref (list App.product)) (products : list App.product)
    (args : gmap string string) :
  s !! PRODUCTS_ref = Some products ->
  exists payload,
    fst (App.get_products lower args s) = Json payload /\
    App.status payload = "success" /\
    sublist (App.data payload) products /\
    App.count payload = Z.of_nat (length (App.data payload)) /\
    0 <= App.count payload <= Z.of_nat (length products).
Proof.
  intros Hs. eexists. split; [apply (get_products_run lower s products args Hs) |].
  unfold listing_payload. simpl. split; [reflexivity |].
  destruct (args !! "category") as [c|]; [destruct (PyStr.truthy c) |].
  - split; [apply filter_sublist |]. split; [reflexivity |].
    pose proof (filter_length_le (same_category lower c) products). lia.
  - split; [reflexivity |]. split; [reflexivity | lia].
  - split; [reflexivity |]. split; [reflexivity | lia].
Qed.

Lemma get_products_within_products_witness :
  App.initial_store !! PRODUCTS_ref = Some App.PRODUCTS /\
  exists payload,
    fst (App.get_products PyStr.lower {[ "category" := "appliances" ]} App.initial_store)
      = Json payload /\
    App.status payload = "success" /\
    sublist (App.data payload) App.PRODUCTS /\
    App.count payload = Z.of_nat (length (App.data payload)) /\
    0 <= App.count payload <= 3.
Proof.
  split; [reflexivity |].
  exact (get_products_within_products PyStr.lower App.initial_store App.PRODUCTS
           {[ "category" := "appliances" ]} eq_refl).
Defined.

(** X10. A category that no product has is no error: the answer is still a
    success, with the count 0 and empty data. *)
Theorem get_products_unknown_category (lower : string -> string)
    (s : gmap ref (list App.product)) (products : list App.product)
    (args : gmap string string) (c : string) :
  s !! PRODUCTS_ref = Some products ->
  args !! "category" = Some c -> c <> EmptyString ->
  Forall (fun p => lower (App.category p) <> lower c) products ->
  fst (App.get_products lower args s)
  = Json {| App.status := "success"; App.count := 0; App.data := [] |}.
Proof.
  intros Hs Hc Hne Hnone.
  rewrite (proj1 (get_products_run lower s products args Hs)), Hc.
  unfold listing_payload. apply truthy_nonempty in Hne. rewrite Hne.
  assert (E : List.filter (same_category lower c) products = []).
  { clear Hs. induction Hnone as [|p l Hp _ IH]; simpl; [reflexivity |].
    unfold same_category at 1. destruct (String.eqb_spec (lower (App.category p)) (lower c));
      [contradiction | exact IH]. }
  now rewrite E.
Qed.

Lemma get_products_unknown_category_witness :
  fst (App.get_products PyStr.lower {[ "category" := "toys" ]} App.initial_store)
  = Json {| App.status := "success"; App.count := 0; App.data := [] |}.
Proof.
  apply (get_products_unknown_category PyStr.lower App.initial_store App.PRODUCTS
           {[ "category" := "toys" ]} "toys" eq_refl
           ltac:(apply lookup_singleton_eq)); [discriminate |].
  repeat constructor; discriminate.
Defined.

(** Requests served one after the other: the references bound to
    [filtered_products] by the calls of [get_products], in their order,
    and the store after the last call. *)
Fixpoint serve (lower : string -> string) (requests : list (gmap string string))
    (s : gmap ref (list App.product)) : list ref * gmap ref (list App.product) :=
  match requests with
  | [] => ([], s)
  | args :: rest =>
      let '(r, _, s1) := App.get_products_ref lower args s in
      let '(refs, s2) := serve lower rest s1 in
      (r :: refs, s2)
  end.

Lemma get_products_ref_step (lower : string -> string)
    (s : gmap ref (list App.product)) (products : list App.product)
    (args : gmap string string) :
  s !! PRODUCTS_ref = Some products ->
  exists r resp s1,
    App.get_products_ref lower args s = (r, resp, s1) /\
    s1 !! PRODUCTS_ref = Some products /\
    (forall r' l, s !! r' = Some l -> s1 !! r' = Some l) /\
    is_Some (s1 !! r) /\
    (forall c, args !! "category" = Some c -> c <> EmptyString -> s !! r = None).
Proof.
  intros Hs.
  assert (Hfresh : s !! fresh (dom s) = None).
  { apply not_elem_of_dom. apply is_fresh. }
  destruct (args !! "category") as [c|] eqn:Hc;
    [destruct (String.string_dec c EmptyString) as [-> | Hne] |].
  - rewrite (get_products_ref_all lower s products args Hs) by (now right).
    do 3 eexists. split; [reflexivity |]. split; [exact Hs |].
    split; [auto |]. split; [eauto |]. intros c [= <-]. congruence.
  - pose proof (get_products_ref_filter lower s products args c Hs Hc Hne) as H.
    cbv zeta in H. rewrite H. do 3 eexists. split; [reflexivity |].
    assert (Hother : forall r' l, s !! r' = Some l ->
              <[fresh (dom s) := List.filter (same_category lower c) products]> s !! r'
              = Some l).
    { intros r' l Hr'. rewrite lookup_insert_ne; [exact Hr' |]. congruence. }
    split; [now apply Hother |]. split; [exact Hother |].
    split; [rewrite lookup_insert_eq; eauto |]. intros _ _ _. exact Hfresh.
  - rewrite (get_products_ref_all lower s products args Hs) by (now left).
    do 3 eexists. split; [reflexivity |]. split; [exact Hs |].
    split; [auto |]. split; [eauto |]. intros c H. discriminate H.
Qed.

(** X11. Requests do not influence one another.  After any sequence of
    calls of [get_products], a further call answers what it would have
    answered at first, and every list that was live before is unchanged.
    Every call with a non-empty category builds a list object of its own:
    its list is not [PRODUCTS], is no list that was live before the
    sequence, and is not the list of any earlier call of the sequence. *)
Theorem get_products_calls_independent (lower : string -> string)
    (s : gmap ref (list App.product)) (products : list App.product)
    (requests : list (gmap string string)) :
  s !! PRODUCTS_ref = Some products ->
  (forall args,
     fst (App.get_products lower args (snd (serve lower requests s)))
     = fst (App.get_products lower args s)) /\
  (forall r l, s !! r = Some l -> snd (serve lower requests s) !! r = Some l) /\
  (forall j args c r,
     requests !! j = Some args ->
     args !! "category" = Some c -> c <> EmptyString ->
     fst (serve lower requests s) !! j = Some r ->
     r <> PRODUCTS_ref /\
     s !! r = None /\
     forall i r', (i < j)%nat -> fst (serve lower requests s) !! i = Some r' -> r <> r').
Proof.
  revert s. induction requests as [|args0 rest IH]; intros s Hs.
  - simpl. split; [reflexivity |]. split; [auto |].
    intros j args c r Hj. discriminate Hj.
  - destruct (get_products_ref_step lower s products args0 Hs)
      as (r0 & resp & s1 & E & Hs1 & Hkeep & Hlive & Hnew).
    destruct (IH s1 Hs1) as (IHsame & IHkeep & IHrefs).
    simpl serve. rewrite E.
    destruct (serve lower rest s1) as [refs s2] eqn:Erest. simpl fst in *. simpl snd in *.
    split; [| split].
    + intros args. rewrite IHsame.
      rewrite (proj1 (get_products_run lower s1 products args Hs1)).
      now rewrite (proj1 (get_products_run lower s products args Hs)).
    + intros r l Hr. apply IHkeep. now apply Hkeep.
    + intros [|j] args c r Hj Hc Hne Hr.
      * injection Hj as <-. injection Hr as <-.
        pose proof (Hnew c Hc Hne) as Hnone.
        split; [intros ->; congruence |]. split; [exact Hnone |].
        intros i r' Hi. lia.
      * destruct (IHrefs j args c r Hj Hc Hne Hr) as (Hp & Hnone & Hdist).
        split; [exact Hp |]. split.
        -- destruct (s !! r) as [l|] eqn:Hsr; [| reflexivity].
           rewrite (Hkeep r l Hsr) in Hnone. discriminate Hnone.
        -- intros [|i] r' Hi Hr'.
           ++ injection Hr' as <-. intros ->. rewrite Hnone in Hlive.
              destruct Hlive as [x Hx]. discriminate Hx.
           ++ apply (Hdist i r'); [lia | exact Hr'].
Qed.

Lemma get_products_calls_independent_witness :
  fst (App.get_products PyStr.lower {[ "category" := "furniture" ]}
         (snd (serve PyStr.lower
                 [ {[ "category" := "electronics" ]}; ∅; {[ "category" := "furniture" ]} ]
                 App.initial_store)))
  = fst (App.get_products PyStr.lower {[ "category" := "furniture" ]} App.initial_store) /\
  fst (serve PyStr.lower
         [ {[ "category" := "electronics" ]}; ∅; {[ "category" := "furniture" ]} ]
         App.initial_store)
  = [2%positive; PRODUCTS_ref; 3%positive].
Proof.
  split; [| vm_compute; reflexivity].
  exact (proj1 (get_products_calls_independent PyStr.lower App.initial_store App.PRODUCTS
                  [ {[ "category" := "electronics" ]}; ∅; {[ "category" := "furniture" ]} ]
                  eq_refl) {[ "category" := "furniture" ]}).
Defined.

(** ** The product page: every listed product has one *)








(** ** The home page of run_app.py: its cards and its exceptions *)











Fixpoint concat_text (parts : list string) : string :=
  match parts with
  | [] => EmptyString
  | t :: rest => t +:+ concat_text rest
  end.

Lemma cards_concat (float_repr : float -> string) (allocates : Z -> bool)
    (products : list App.product) (texts : list string) :
  Forall2 (fun p t => RunApp.product_card float_repr allocates p = Return t)
    products texts ->
  cards float_repr allocates products = Return (concat_text texts).
Proof.
  induction 1 as [|p t products texts Hp _ IH]; simpl; [reflexivity |].
  now rewrite Hp, IH.
Qed.

(** X14. The home page is the first literal, then the card of each product
    in the order of the list, then the last literal: one card per product,
    none for the empty list, and nothing between the cards. *)
Theorem generate_home_page_cards
    (datetime : Type) (strftime : datetime -> string -> string)
    (float_repr : float -> string) (float_sum : list float -> float)
    (allocates : Z -> bool)
    (products : list App.product) (texts : list string) (now : datetime) :
  Forall2 (fun p t => RunApp.product_card float_repr allocates p = Return t)
    products texts ->
  RunApp.generate_home_page datetime strftime float_repr float_sum allocates products now
  = Return (PyStr.join nl (RunApp.home_head_lines datetime strftime float_sum products now)
            +:+ concat_text texts
            +:+ PyStr.join nl RunApp.home_foot_lines).
Proof.
  intros Hcards. unfold RunApp.generate_home_page. cbv zeta.
  rewrite loop_cards, (cards_concat float_repr allocates products texts Hcards).
  generalize (PyStr.join nl (RunApp.home_head_lines datetime strftime float_sum products now))
             (PyStr.join nl RunApp.home_foot_lines).
  intros H F. unfold obind. now rewrite app_assoc_str.
Qed.

(** The text of a card, empty when the star text raises. *)
Definition card_text (float_repr : float -> string) (allocates : Z -> bool)
    (p : App.product) : string :=
  match RunApp.product_card float_repr allocates p with
  | Return t => t
  | Raise _ => EmptyString
  end.

Lemma generate_home_page_cards_witness :
  RunApp.generate_home_page unit (fun _ fmt => fmt) (fun _ => "4.5") (fun _ => 689.97%float)
    (fun _ => true) RunApp.PRODUCTS tt
  = Return (PyStr.join nl
              (RunApp.home_head_lines unit (fun _ fmt => fmt) (fun _ => 689.97%float)
                 RunApp.PRODUCTS tt)
            +:+ concat_text (List.map (card_text (fun _ => "4.5") (fun _ => true))
                               RunApp.PRODUCTS)
            +:+ PyStr.join nl RunApp.home_foot_lines).
Proof.
  apply (generate_home_page_cards unit (fun _ fmt => fmt) (fun _ => "4.5")
           (fun _ => 689.97%float) (fun _ => true) RunApp.PRODUCTS
           (List.map (card_text (fun _ => "4.5") (fun _ => true)) RunApp.PRODUCTS) tt).
  repeat constructor.
Defined.

(** ** The pages and the clock *)

(** X23. The clock enters the pages of run_app.py and simple_app.py
    through one field only.  The home page, when [generate_home_page]
    returns, is a prefix, the text of [datetime.now()] in the format of
    the [Generated on] line, and a suffix, where prefix and suffix are the
    same for every reading of the clock; whether the function raises, and
    what, does not depend on the clock either.  The product page of
    simple_app.py has the same form. *)
Theorem pages_clock_field
    (datetime : Type) (strftime : datetime -> string -> string)
    (float_repr : float -> string) (float_sum : list float -> float)
    (allocates : Z -> bool) :
  (forall products,
     (exists e, forall now,
        RunApp.generate_home_page datetime strftime float_repr float_sum allocates
          products now = Raise e) \/
     (exists pre post, forall now,
        RunApp.generate_home_page datetime strftime float_repr float_sum allocates
          products now
        = Return (pre +:+ strftime now "%B %d, %Y at %I:%M %p" +:+ post))) /\
  (forall product,
     exists pre post, forall now,
       SimpleApp.product_page datetime strftime product now
       = pre +:+ strftime now "%B %d, %Y at %I:%M %p" +:+ post).
Proof.
  split.
  - intros products.
    destruct (cards float_repr allocates products) as [t | e] eqn:Hcards.
    + right. eexists _, _. intros now.
      rewrite generate_home_page_text, Hcards. reflexivity.
    + left. exists e. intros now.
      rewrite generate_home_page_text, Hcards. reflexivity.
  - intros product. eexists _, _. intros now. apply product_page_text.
Qed.

(** ** word-document-generator.py: the milestones *)

Section MilestoneFacts.
Variable float_repr : float -> string.

#[local] Abbreviation step :=
  (fun formatted (im : Z * gmap string WordDoc.scalar) =>
     let (i, milestone) := im in
     WordDoc.rbind formatted (fun lines =>
     WordDoc.rbind (WordDoc.getitem milestone "description") (fun d =>
     WordDoc.rbind (WordDoc.getitem milestone "due_date") (fun due =>
     WordDoc.Ok (lines ++ [PyNum.str_int i +:+ ". " +:+ WordDoc.str float_repr d
                           +:+ " - Due: " +:+ WordDoc.str float_repr due])%list)))).

(** The line of one milestone, and the lines of a list numbered from [i]. *)
Definition milestone_line (i : Z) (m : gmap string WordDoc.scalar) : WordDoc.result string :=
  WordDoc.rbind (WordDoc.getitem m "description") (fun d =>
  WordDoc.rbind (WordDoc.getitem m "due_date") (fun due =>
  WordDoc.Ok (PyNum.str_int i +:+ ". " +:+ WordDoc.str float_repr d
              +:+ " - Due: " +:+ WordDoc.str float_repr due))).

Fixpoint milestone_lines (i : Z) (ms : list (gmap string WordDoc.scalar))
  : WordDoc.result (list string) :=
  match ms with
  | [] => WordDoc.Ok []
  | m :: rest =>
      WordDoc.rbind (milestone_line i m) (fun line =>
      WordDoc.rbind (milestone_lines (i + 1) rest) (fun lines =>
      WordDoc.Ok (line :: lines)))
  end.

Lemma milestones_loop_fail (l : list (Z * gmap string WordDoc.scalar)) (r : WordDoc.raised) :
  fold_left step l (WordDoc.Fail r) = WordDoc.Fail r.
Proof. induction l as [|[i m] l IH]; simpl; [reflexivity | exact IH]. Qed.

Lemma milestones_loop (i : Z) (ms : list (gmap string WordDoc.scalar)) (acc : list string) :
  fold_left step (WordDoc.enumerate i ms) (WordDoc.Ok acc)
  = WordDoc.rbind (milestone_lines i ms) (fun lines => WordDoc.Ok (acc ++ lines)%list).
Proof.
  revert i acc. induction ms as [|m rest IH]; intros i acc; simpl.
  - now rewrite app_nil_r.
  - unfold milestone_line.
    destruct (WordDoc.getitem m "description") as [d | r]; simpl;
      [| apply milestones_loop_fail].
    destruct (WordDoc.getitem m "due_date") as [due | r]; simpl;
      [| apply milestones_loop_fail].
    rewrite IH. destruct (milestone_lines (i + 1) rest) as [lines | r]; simpl;
      [| reflexivity].
    now rewrite <- app_assoc.
Qed.

Lemma format_milestones_lines (ms : list (gmap string WordDoc.scalar)) :
  ms <> [] ->
  WordDoc.format_milestones float_repr ms
  = WordDoc.rbind (milestone_lines 1 ms) (fun lines => WordDoc.Ok (PyStr.join nl lines)).
Proof.
  intros Hne. unfold WordDoc.format_milestones.
  destruct ms as [|m rest]; [congruence |].
  rewrite milestones_loop.
  destruct (milestone_lines 1 (m :: rest)); reflexivity.
Qed.

Lemma milestone_lines_complete (i : Z) (ms : list (gmap string WordDoc.scalar)) :
  Forall (fun m => is_Some (m !! "description") /\ is_Some (m !! "due_date")) ms ->
  exists lines,
    milestone_lines i ms = WordDoc.Ok lines /\
    length lines = length ms /\
    forall k m d due,
      ms !! k = Some m -> m !! "description" = Some d -> m !! "due_date" = Some due ->
      lines !! k = Some (PyNum.str_int (i + Z.of_nat k) +:+ ". "
                         +:+ WordDoc.str float_repr d
                         +:+ " - Due: " +:+ WordDoc.str float_repr due).
Proof.
  intros Hall. revert i. induction Hall as [|m rest [[d Hd] [due Hdue]] _ IH]; intros i.
  - exists []. repeat split. intros k m d due Hk. discriminate Hk.
  - destruct (IH (i + 1)) as (lines & Hlines & Hlen & Hnth).
    simpl. unfold milestone_line, WordDoc.getitem. rewrite Hd, Hdue. simpl.
    rewrite Hlines. simpl. eexists. split; [reflexivity |].
    split; [simpl; now rewrite Hlen |].
    intros [|k] m' d' due' Hk Hd' Hdue'; simpl in *.
    + injection Hk as <-. rewrite Hd in Hd'. rewrite Hdue in Hdue'.
      injection Hd' as <-. injection Hdue' as <-. now rewrite Z.add_0_r.
    + rewrite (Hnth k m' d' due' Hk Hd' Hdue'). do 2 f_equal. f_equal. lia.
Qed.

Lemma milestone_lines_fail (i : Z) (before after : list (gmap string WordDoc.scalar))
    (m : gmap string WordDoc.scalar) (r : WordDoc.raised) :
  Forall (fun m => is_Some (m !! "description") /\ is_Some (m !! "due_date")) before ->
  milestone_line (i + Z.of_nat (length before)) m = WordDoc.Fail r ->
  milestone_lines i (before ++ m :: after) = WordDoc.Fail r.
Proof.
  intros Hall. revert i. induction Hall as [|b rest [[d Hd] [due Hdue]] _ IH]; intros i Hm.
  - simpl in *. rewrite Z.add_0_r in Hm. now rewrite Hm.
  - simpl. unfold milestone_line at 1, WordDoc.getitem. rewrite Hd, Hdue. simpl.
    rewrite IH; [reflexivity |].
    replace (i + 1 + Z.of_nat (length rest)) with (i + Z.of_nat (length (b :: rest)))
      by (simpl length; lia).
    exact Hm.
Qed.

End MilestoneFacts.

(** X15. For a list of milestones that is not empty and whose entries all
    have a description and a due date, [format_milestones] returns one line
    per milestone, joined by line feeds, in the order of the list: the line
    of the milestone of index [k] starts with the number [k + 1], and reads
    ["k+1. description - Due: due_date"]. *)
Theorem format_milestones_numbered (float_repr : float -> string)
    (ms : list (gmap string WordDoc.scalar)) :
  ms <> [] ->
  Forall (fun m => is_Some (m !! "description") /\ is_Some (m !! "due_date")) ms ->
  exists lines,
    WordDoc.format_milestones float_repr ms = WordDoc.Ok (PyStr.join nl lines) /\
    length lines = length ms /\
    forall k m d due,
      ms !! k = Some m -> m !! "description" = Some d -> m !! "due_date" = Some due ->
      lines !! k = Some (PyNum.str_int (Z.of_nat k + 1) +:+ ". "
                         +:+ WordDoc.str float_repr d
                         +:+ " - Due: " +:+ WordDoc.str float_repr due).
Proof.
  intros Hne Hall.
  destruct (milestone_lines_complete float_repr 1 ms Hall) as (lines & Hl & Hlen & Hnth).
  exists lines. rewrite (format_milestones_lines float_repr ms Hne), Hl.
  split; [reflexivity |]. split; [exact Hlen |].
  intros k m d due Hk Hd Hdue. rewrite (Hnth k m d due Hk Hd Hdue).
  do 2 f_equal. f_equal. lia.
Qed.

(** Two milestones as the sample data has them. *)
Definition sample_milestones : list (gmap string WordDoc.scalar) :=
  [ {[ "description" := WordDoc.SStr "Design approval and wireframes";
       "due_date" := WordDoc.SStr "2024-02-15" ]};
    {[ "description" := WordDoc.SStr "Frontend development";
       "due_date" := WordDoc.SStr "2024-04-01" ]} ].

Lemma format_milestones_numbered_witness :
  WordDoc.format_milestones (fun _ => EmptyString) sample_milestones
  = WordDoc.Ok ("1. Design approval and wireframes - Due: 2024-02-15" +:+ nl
                +:+ "2. Frontend development - Due: 2024-04-01") /\
  exists lines,
    WordDoc.format_milestones (fun _ => EmptyString) sample_milestones
      = WordDoc.Ok (PyStr.join nl lines) /\
    length lines = 2%nat.
Proof.
  split; [vm_compute; reflexivity |].
  destruct (format_milestones_numbered (fun _ => EmptyString) sample_milestones)
    as (lines & H & Hlen & _).
  - discriminate.
  - repeat constructor; vm_compute; eauto.
  - exists lines. split; [exact H | exact Hlen].
Defined.

(** X16. The empty list gives the text [No specific milestones defined.].
    A milestone without a description, or with one and without a due date,
    makes [format_milestones] raise [KeyError] with that key, whatever
    comes after it in the list: no partial text is returned. *)
Theorem format_milestones_missing_key (float_repr : float -> string)
    (before after : list (gmap string WordDoc.scalar)) (m : gmap string WordDoc.scalar) :
  Forall (fun m => is_Some (m !! "description") /\ is_Some (m !! "due_date")) before ->
  WordDoc.format_milestones float_repr [] = WordDoc.Ok "No specific milestones defined." /\
  (m !! "description" = None ->
   WordDoc.format_milestones float_repr (before ++ m :: after)
     = WordDoc.Fail (WordDoc.KeyError "description")) /\
  (is_Some (m !! "description") -> m !! "due_date" = None ->
   WordDoc.format_milestones float_repr (before ++ m :: after)
     = WordDoc.Fail (WordDoc.KeyError "due_date")).
Proof.
  intros Hall. split; [reflexivity |].
  assert (Hne : (before ++ m :: after)%list <> []) by (destruct before; discriminate).
  rewrite (format_milestones_lines float_repr _ Hne).
  split.
  - intros Hd.
    rewrite (milestone_lines_fail float_repr 1 before after m
               (WordDoc.KeyError "description") Hall); [reflexivity |].
    unfold milestone_line, WordDoc.getitem. now rewrite Hd.
  - intros [d Hd] Hdue.
    rewrite (milestone_lines_fail float_repr 1 before after m
               (WordDoc.KeyError "due_date") Hall); [reflexivity |].
    unfold milestone_line, WordDoc.getitem. now rewrite Hd, Hdue.
Qed.

Lemma format_milestones_missing_key_witness :
  WordDoc.format_milestones (fun _ => EmptyString)
    (sample_milestones ++ {[ "description" := WordDoc.SStr "Launch" ]} :: sample_milestones)
  = WordDoc.Fail (WordDoc.KeyError "due_date").
Proof.
  apply (format_milestones_missing_key (fun _ => EmptyString) sample_milestones
           sample_milestones {[ "description" := WordDoc.SStr "Launch" ]}).
  - repeat constructor; vm_compute; eauto.
  - vm_compute. eauto.
  - vm_compute. reflexivity.
Defined.

(** ** word-document-generator.py: the variance of a financial row *)

(** Rounding keeps the sign that it is given. *)
Lemma binary_round_aux_sign (s s' : bool) (mx ex : Z) (l : location) (m : positive) (e : Z) :
  binary_round_aux 53 1024 s mx ex l = S754_finite s' m e -> s' = s.
Proof.
  unfold binary_round_aux.
  destruct (shr_fexp 53 1024 mx ex l) as [mrs' e'].
  destruct (shr_fexp 53 1024 _ e' loc_Exact) as [mrs'' e''].
  destruct (shr_m mrs''); try discriminate.
  destruct (e'' <=? 1024 - 53); [| discriminate].
  intros [= <- _ _]. reflexivity.
Qed.

Lemma binary_round_sign (s s' : bool) (p : positive) (m : positive) (e : Z) :
  binary_round 53 1024 s p 0 = S754_finite s' m e -> s' = s.
Proof.
  unfold binary_round. destruct (shl_align _ _ _) as [mz ez].
  apply binary_round_aux_sign.
Qed.

(** A number whose float has its sign bit set is below zero for [<], and
    one whose float is finite without sign bit is not. *)
Lemma negative_of_sign (v : PyNum.number) (s : bool) (m : positive) (e : Z) :
  PyNum.to_float v = Return (S754_finite s m e) -> WordDoc.negative v = s.
Proof.
  destruct v as [z | x]; simpl.
  - unfold PyNum.float_of_int, binary_normalize. destruct z as [|p|p].
    + discriminate.
    + destruct (binary_round 53 1024 false p 0) eqn:E; try discriminate.
      intros [= -> -> ->]. apply binary_round_sign in E. now subst.
    + destruct (binary_round 53 1024 true p 0) eqn:E; try discriminate.
      intros [= -> -> ->]. apply binary_round_sign in E. now subst.
  - intros [= ->]. destruct s; reflexivity.
Qed.

(** X17. The variance of a financial row, when it is a finite number that
    is not zero: a negative one is written between parentheses, with the
    minus sign kept after the dollar sign, as in [($-2,000.00)]; a positive
    one is written as the currency filter writes it.  In both cases the
    digits are the absolute value rounded to the nearest hundredth. *)
Theorem variance_text_sign (v : PyNum.number) (s : bool) (m : positive) (e : Z) :
  PyNum.to_float v = Return (S754_finite s m e) ->
  exists body n,
    WordDoc.variance_text v
      = Return (if s then "($-" +:+ body +:+ ")" else "$" +:+ body) /\
    Money.read ("$" +:+ body) = Some n /\
    Money.nearest_hundredth (S754_finite false m e) n.
Proof.
  intros Hv.
  exists (PyNum.fixed_digits 2 true (PyNum.scaled 2 m e)), (PyNum.scaled 2 m e).
  split; [| split].
  - unfold WordDoc.variance_text, WordDoc.money, PyNum.format_number.
    rewrite (negative_of_sign v s m e Hv), Hv. destruct s; reflexivity.
  - apply read_fixed_digits. apply scaled_nonneg.
  - apply scaled_nearest.
Qed.

Lemma variance_text_sign_witness :
  WordDoc.variance_text (PyNum.PyInt (-2000)) = Return "($-2,000.00)" /\
  WordDoc.variance_text (PyNum.PyFloat (-0.001)) = Return "($-0.00)" /\
  WordDoc.variance_text (PyNum.PyFloat (-0.0)) = Return "$-0.00" /\
  exists body n,
    WordDoc.variance_text (PyNum.PyInt (-2000)) = Return ("($-" +:+ body +:+ ")") /\
    Money.read ("$" +:+ body) = Some n /\
    Money.nearest_hundredth (S754_finite false 8796093022208000 (-42)) n.
Proof.
  split; [vm_compute; reflexivity |]. split; [vm_compute; reflexivity |].
  split; [vm_compute; reflexivity |].
  apply (variance_text_sign (PyNum.PyInt (-2000)) true 8796093022208000 (-42)).
  vm_compute. reflexivity.
Defined.

(** ** word-document-generator.py: the calls of the report methods *)

(** The calls that the helper methods of [generate_report] make: neither a
    heading, nor a save, nor a print. *)
Definition body_call (c : WordDoc.call) : Prop :=
  match c with
  | WordDoc.AddHeading _ _ | WordDoc.Save _ | WordDoc.Print _ => False
  | _ => True
  end.

(** What the number conversions of a financial row can raise. *)
Lemma to_float_raises (v : PyNum.number) (e : exn) :
  PyNum.to_float v = Raise e -> e = OverflowError.
Proof.
  destruct v as [z | x]; simpl; [| discriminate].
  unfold PyNum.float_of_int.
  destruct (binary_normalize 53 1024 z 0 false); congruence.
Qed.

Lemma money_raises (v : PyNum.number) (e : exn) :
  WordDoc.money v = Raise e -> e = OverflowError.
Proof.
  unfold WordDoc.money, PyNum.format_number.
  destruct (PyNum.to_float v) eqn:E; simpl; [discriminate |].
  intros [= <-]. exact (to_float_raises v _ E).
Qed.

Lemma as_float_raises (v : PyNum.number) (e : exn) :
  WordDoc.as_float v = Raise e -> e = OverflowError.
Proof.
  destruct v as [z | x]; simpl; [| discriminate].
  destruct (PyNum.float_of_int z) eqn:E; simpl; [discriminate |].
  intros [= <-]. exact (to_float_raises (PyNum.PyInt z) _ E).
Qed.

Lemma sub_raises (a b : PyNum.number) (e : exn) :
  WordDoc.sub a b = Raise e -> e = OverflowError.
Proof.
  assert (H : obind (WordDoc.as_float a) (fun x =>
              obind (WordDoc.as_float b) (fun y =>
              Return (PyNum.PyFloat (x - y)%float))) = Raise e -> e = OverflowError).
  { destruct (WordDoc.as_float a) eqn:Ea; simpl.
    - destruct (WordDoc.as_float b) eqn:Eb; simpl; [discriminate |].
      intros [= <-]. exact (as_float_raises b _ Eb).
    - intros [= <-]. exact (as_float_raises a _ Ea). }
  destruct a, b; simpl; try exact H. discriminate.
Qed.

Lemma variance_text_raises (v : PyNum.number) (e : exn) :
  WordDoc.variance_text v = Raise e -> e = OverflowError.
Proof.
  unfold WordDoc.variance_text.
  destruct (WordDoc.money v) eqn:E; simpl; [discriminate |].
  intros [= <-]. exact (money_raises v _ E).
Qed.

Definition is_add_row (c : WordDoc.call) : bool :=
  match c with WordDoc.AddRow => true | _ => false end.

Definition is_add_table (c : WordDoc.call) : bool :=
  match c with WordDoc.AddTable _ _ => true | _ => false end.

(** The number of calls of a kind among the calls [doc]. *)
Definition count (f : WordDoc.call -> bool) (doc : list WordDoc.call) : nat :=
  length (List.filter f doc).

Lemma count_app (f : WordDoc.call -> bool) (a b : list WordDoc.call) :
  count f (a ++ b) = (count f a + count f b)%nat.
Proof. unfold count. now rewrite List.filter_app, length_app. Qed.

Definition is_outline (c : WordDoc.call) : bool :=
  match c with
  | WordDoc.AddHeading _ _ | WordDoc.Save _ | WordDoc.Print _ => true
  | _ => false
  end.

(** The headings, the save and the print among the calls [doc], in their
    order. *)
Definition outline (doc : list WordDoc.call) : list WordDoc.call :=
  List.filter is_outline doc.

Lemma outline_app (a b : list WordDoc.call) :
  outline (a ++ b) = (outline a ++ outline b)%list.
Proof. apply List.filter_app. Qed.

Lemma outline_body (added : list WordDoc.call) :
  Forall body_call added -> outline added = [].
Proof.
  induction 1 as [|c l Hc _ IH]; [reflexivity |].
  unfold outline. simpl. destruct c; simpl in *; try contradiction; exact IH.
Qed.

Section LibraryFacts.
Variable docx : list WordDoc.call -> WordDoc.call -> option WordDoc.raised.

(** The library raises [e] on a call made when the calls [doc] have been
    completed. *)
Definition refused_at (doc : list WordDoc.call) (e : WordDoc.raised) : Prop :=
  exists c, docx doc c = Some e.

(** A method that adds calls that satisfy [P] to those completed before,
    and that raises nothing but what the library raises on the call it
    was about to make and, when [own] holds, [OverflowError]. *)
Definition runs {A} (P : WordDoc.call -> Prop) (own : Prop) (m : WordDoc.build A) : Prop :=
  forall doc, exists added r,
    m doc = ((doc ++ added)%list, r) /\ Forall P added /\
    forall e, r = WordDoc.Fail e ->
      refused_at (doc ++ added) e \/ (own /\ e = WordDoc.Builtin OverflowError).

Lemma runs_bret {A} (P : WordDoc.call -> Prop) (own : Prop) (a : A) :
  runs P own (WordDoc.bret a).
Proof.
  intros doc. exists [], (WordDoc.Ok a). unfold WordDoc.bret. rewrite app_nil_r.
  split; [reflexivity |]. split; [constructor | discriminate].
Qed.

Lemma runs_emit (P : WordDoc.call -> Prop) (own : Prop) (c : WordDoc.call) :
  P c -> runs P own (WordDoc.emit docx c).
Proof.
  intros Hc doc. unfold WordDoc.emit. destruct (docx doc c) as [e |] eqn:E.
  - exists [], (WordDoc.Fail e). rewrite app_nil_r. split; [reflexivity |].
    split; [constructor |]. intros e' [= <-]. left. now exists c.
  - exists [c], (WordDoc.Ok tt). split; [reflexivity |].
    split; [now repeat constructor | discriminate].
Qed.

Lemma runs_lift {A} (P : WordDoc.call -> Prop) (o : outcome A) :
  (forall e, o = Raise e -> e = OverflowError) ->
  runs P True (WordDoc.lift (WordDoc.of_outcome o)).
Proof.
  intros Ho doc. exists [], (WordDoc.of_outcome o). unfold WordDoc.lift.
  rewrite app_nil_r. split; [reflexivity |]. split; [constructor |].
  intros e. destruct o as [a | e']; simpl; [discriminate |].
  intros [= <-]. right. now rewrite (Ho e' eq_refl).
Qed.

Lemma runs_bbind {A B} (P : WordDoc.call -> Prop) (own : Prop) (m : WordDoc.build A)
    (k : A -> WordDoc.build B) :
  runs P own m -> (forall a, runs P own (k a)) -> runs P own (WordDoc.bbind m k).
Proof.
  intros Hm Hk doc. destruct (Hm doc) as (added & r & E & HP & Hr).
  unfold WordDoc.bbind. rewrite E. destruct r as [a | e].
  - destruct (Hk a (doc ++ added)%list) as (added' & r' & E' & HP' & Hr').
    exists (added ++ added')%list, r'. rewrite E', <- app_assoc.
    split; [reflexivity |]. split; [apply Forall_app; now split |].
    intros e He. rewrite app_assoc. now apply Hr'.
  - exists added, (WordDoc.Fail e). split; [reflexivity |]. split; [exact HP |].
    intros e' [= <-]. now apply Hr.
Qed.

Lemma runs_for_each {A} (P : WordDoc.call -> Prop) (own : Prop) (l : list A)
    (body : A -> WordDoc.build unit) :
  (forall x, runs P own (body x)) -> runs P own (WordDoc.for_each l body).
Proof.
  intros Hb. induction l as [|x l IH]; simpl.
  - apply runs_bret.
  - apply runs_bbind; [apply Hb | intros _; exact IH].
Qed.

(** A method that adds [rows] rows, [tables] tables and [len] calls in all
    when it returns, and no more than that when it raises. *)
Definition counted {A} (rows tables len : nat) (m : WordDoc.build A) : Prop :=
  forall doc, exists added r,
    m doc = ((doc ++ added)%list, r) /\
    (count is_add_row added <= rows)%nat /\
    (count is_add_table added <= tables)%nat /\
    (length added <= len)%nat /\
    (forall a, r = WordDoc.Ok a ->
       count is_add_row added = rows /\ count is_add_table added = tables /\
       length added = len).

Lemma counted_bret {A} (a : A) : counted 0 0 0 (WordDoc.bret a).
Proof.
  intros doc. exists [], (WordDoc.Ok a). unfold WordDoc.bret. rewrite app_nil_r.
  split; [reflexivity |]. unfold count. simpl. repeat split; lia.
Qed.

Lemma counted_lift {A} (x : WordDoc.result A) : counted 0 0 0 (WordDoc.lift x).
Proof.
  intros doc. exists [], x. unfold WordDoc.lift. rewrite app_nil_r.
  split; [reflexivity |]. unfold count. simpl. repeat split; lia.
Qed.

Lemma counted_emit (c : WordDoc.call) :
  counted (if is_add_row c then 1 else 0) (if is_add_table c then 1 else 0) 1
    (WordDoc.emit docx c).
Proof.
  intros doc. unfold WordDoc.emit. destruct (docx doc c) as [e |].
  - exists [], (WordDoc.Fail e). rewrite app_nil_r. split; [reflexivity |].
    unfold count. simpl. repeat split; try lia; discriminate.
  - exists [c], (WordDoc.Ok tt). split; [reflexivity |].
    unfold count. simpl. destruct (is_add_row c), (is_add_table c); simpl;
      repeat split; lia.
Qed.

Lemma counted_call (c : WordDoc.call) (r t : nat) :
  (if is_add_row c then 1 else 0)%nat = r ->
  (if is_add_table c then 1 else 0)%nat = t ->
  counted r t 1 (WordDoc.emit docx c).
Proof. intros <- <-. apply counted_emit. Qed.

Lemma counted_bbind {A B} (r1 t1 l1 r2 t2 l2 : nat) (m : WordDoc.build A)
    (k : A -> WordDoc.build B) :
  counted r1 t1 l1 m -> (forall a, counted r2 t2 l2 (k a)) ->
  counted (r1 + r2) (t1 + t2) (l1 + l2) (WordDoc.bbind m k).
Proof.
  intros Hm Hk doc. destruct (Hm doc) as (added & r & E & Hr & Ht & Hl & Hok).
  unfold WordDoc.bbind. rewrite E. destruct r as [a | e].
  - destruct (Hk a (doc ++ added)%list) as (added' & r' & E' & Hr' & Ht' & Hl' & Hok').
    destruct (Hok a eq_refl) as (Er & Et & El).
    exists (added ++ added')%list, r'. rewrite E', <- app_assoc.
    split; [reflexivity |]. rewrite !count_app, length_app.
    split; [lia |]. split; [lia |]. split; [lia |].
    intros b Hb. destruct (Hok' b Hb) as (Er' & Et' & El'). lia.
  - exists added, (WordDoc.Fail e). split; [reflexivity |].
    split; [lia |]. split; [lia |]. split; [lia |]. discriminate.
Qed.

Lemma counted_cast {A} (r t l r' t' l' : nat) (m : WordDoc.build A) :
  counted r t l m -> r = r' -> t = t' -> l = l' -> counted r' t' l' m.
Proof. intros H -> -> ->. exact H. Qed.

Section ReportFacts.
Variable float_repr : float -> string.
Variable title_case : string -> string.

Ltac runs_steps :=
  repeat first
    [ apply runs_bret
    | apply runs_emit; exact I
    | apply runs_lift; intros ?;
      first [ apply money_raises | apply sub_raises | apply variance_text_raises ]
    | apply runs_bbind; [| intros ?] ].

Lemma add_project_details_table_runs (details : list (string * WordDoc.scalar)) :
  runs body_call False (WordDoc.add_project_details_table float_repr title_case docx details).
Proof.
  unfold WordDoc.add_project_details_table. runs_steps.
  generalize 0%nat. induction details as [|[name value] rest IH]; intros k; simpl.
  - apply runs_bret.
  - runs_steps. apply IH.
Qed.

Lemma add_metrics_table_runs (items : list (string * WordDoc.metric)) :
  runs body_call False (WordDoc.add_metrics_table float_repr title_case docx items).
Proof.
  unfold WordDoc.add_metrics_table. runs_steps.
  generalize 0%nat. induction items as [|[name data] rest IH]; intros k; simpl.
  - apply runs_bret.
  - runs_steps. apply IH.
Qed.

Lemma add_risk_section_runs (plan : list WordDoc.risk) :
  runs body_call False (WordDoc.add_risk_section docx plan).
Proof.
  unfold WordDoc.add_risk_section. runs_steps.
  apply runs_for_each. intros r. unfold WordDoc.add_risk. runs_steps.
Qed.

Lemma add_recommendations_list_runs (items : list string) :
  runs body_call False (WordDoc.add_recommendations_list docx items).
Proof.
  unfold WordDoc.add_recommendations_list. apply runs_for_each.
  intros x. apply runs_emit. exact I.
Qed.

Lemma add_financial_row_runs (k : nat) (item : WordDoc.financial) :
  runs body_call True (WordDoc.add_financial_row docx k item).
Proof. unfold WordDoc.add_financial_row. cbv zeta. runs_steps. Qed.

Lemma add_financial_rows_runs (k : nat) (items : list WordDoc.financial) :
  runs body_call True (WordDoc.add_financial_rows docx k items).
Proof.
  revert k. induction items as [|item rest IH]; intros k; simpl.
  - apply runs_bret.
  - apply runs_bbind; [apply add_financial_row_runs | intros _; apply IH].
Qed.

Lemma add_financial_table_runs (items : list WordDoc.financial) :
  runs body_call True (WordDoc.add_financial_table docx items).
Proof.
  unfold WordDoc.add_financial_table. destruct items as [|item rest].
  - apply runs_emit. exact I.
  - do 6 (apply runs_bbind; [apply runs_emit; exact I | intros ?]).
    apply add_financial_rows_runs.
Qed.

Ltac counted_steps :=
  repeat first
    [ apply counted_bret
    | eapply counted_call; simpl; reflexivity
    | apply counted_lift
    | eapply counted_bbind; [| intros ?] ].

Lemma add_financial_row_counted (k : nat) (item : WordDoc.financial) :
  counted 1 0 5 (WordDoc.add_financial_row docx k item).
Proof.
  unfold WordDoc.add_financial_row. cbv zeta.
  eapply counted_cast; [counted_steps | reflexivity ..].
Qed.

Lemma add_financial_rows_counted (k : nat) (items : list WordDoc.financial) :
  counted (length items) 0 (5 * length items) (WordDoc.add_financial_rows docx k items).
Proof.
  revert k. induction items as [|item rest IH]; intros k; simpl WordDoc.add_financial_rows.
  - apply counted_bret.
  - eapply counted_cast;
      [eapply counted_bbind; [apply add_financial_row_counted | intros _; apply IH] | ..];
      simpl length; lia.
Qed.

Lemma add_financial_table_counted (item : WordDoc.financial) (rest : list WordDoc.financial) :
  counted (length (item :: rest)) 1 (6 + 5 * length (item :: rest))
    (WordDoc.add_financial_table docx (item :: rest)).
Proof.
  unfold WordDoc.add_financial_table.
  eapply counted_cast;
    [do 6 (eapply counted_bbind; [eapply counted_call; simpl; reflexivity | intros ?]);
     apply add_financial_rows_counted | ..]; simpl; lia.
Qed.

End ReportFacts.

End LibraryFacts.

(** A library that refuses, as python-docx does, a call whose text holds a
    control character other than tab, line feed and carriage return, and
    that accepts every other call. *)
Definition xml_safe (s : string) : bool :=
  forallb (fun c => let n := N_of_ascii c in
                    ((32 <=? n) || (n =? 9) || (n =? 10) || (n =? 13))%N)
          (list_ascii_of_string s).

Definition call_texts (c : WordDoc.call) : list string :=
  match c with
  | WordDoc.AddHeading t _ | WordDoc.AddParagraph t _ | WordDoc.AddRun t _
  | WordDoc.SetCell _ _ t => [t]
  | _ => []
  end.

Definition strict_docx (doc : list WordDoc.call) (c : WordDoc.call)
  : option WordDoc.raised :=
  if forallb xml_safe (call_texts c) then None
  else Some (WordDoc.Builtin ValueError).

(** A library that refuses nothing. *)
Definition quiet_docx (doc : list WordDoc.call) (c : WordDoc.call)
  : option WordDoc.raised := None.

(** ** word-document-generator.py: the financial table *)

(** X18. [add_financial_table] keeps the calls completed before it, and
    creates at most one table and at most one row per item.  For no item
    it creates no table, and when it returns it has added the one
    paragraph [No financial data available.].  For one item or more, when
    it returns it has first created a table of one row and four columns,
    no other table, and one row per item.  When it raises, the exception
    is the one that the library raised on the call it was about to make,
    or [OverflowError] (an int too large for a float): a key that an item
    lacks is no error. *)
Theorem add_financial_table_shape
    (docx : list WordDoc.call -> WordDoc.call -> option WordDoc.raised)
    (items : list WordDoc.financial) (doc : list WordDoc.call) :
  exists added r,
    WordDoc.add_financial_table docx items doc = ((doc ++ added)%list, r) /\
    ((count is_add_table added <= 1)%nat /\
     (count is_add_row added <= length items)%nat) /\
    (items = [] ->
     count is_add_table added = 0%nat /\
     (r = WordDoc.Ok tt ->
      added = [WordDoc.AddParagraph "No financial data available." None])) /\
    (items <> [] -> r = WordDoc.Ok tt ->
     head added = Some (WordDoc.AddTable 1 4) /\
     count is_add_table added = 1%nat /\
     count is_add_row added = length items /\
     length added = (6 + 5 * length items)%nat) /\
    (forall e, r = WordDoc.Fail e ->
       refused_at docx (doc ++ added) e \/ e = WordDoc.Builtin OverflowError).
Proof.
  destruct (add_financial_table_runs docx items doc) as (added & r & E & _ & Hraise).
  exists added, r. split; [exact E |].
  assert (Hlast : forall e, r = WordDoc.Fail e ->
            refused_at docx (doc ++ added) e \/ e = WordDoc.Builtin OverflowError).
  { intros e He. destruct (Hraise e He) as [H | [_ H]]; [now left | now right]. }
  destruct items as [|item rest].
  - simpl in E. unfold WordDoc.emit in E.
    destruct (docx doc (WordDoc.AddParagraph "No financial data available." None));
      injection E as E <-.
    + rewrite <- (app_nil_r doc) in E at 1. apply app_inv_head in E. subst added.
      split; [unfold count; simpl; lia |]. split; [| split; [congruence | exact Hlast]].
      intros _. split; [reflexivity | discriminate].
    + apply app_inv_head in E. subst added.
      split; [unfold count; simpl; lia |]. split; [| split; [congruence | exact Hlast]].
      intros _. split; [reflexivity | reflexivity].
  - destruct (add_financial_table_counted docx item rest doc)
      as (added' & r' & E' & Hrow & Htab & Hlen & Hok).
    rewrite E in E'. injection E' as E' <-. apply app_inv_head in E'. subst added'.
    split; [split; [exact Htab | exact Hrow] |]. split; [discriminate |].
    split; [| exact Hlast].
    intros _ ->. destruct (Hok tt eq_refl) as (Hr & Ht & Hl).
    split; [| split; [exact Ht | split; [exact Hr | exact Hl]]].
    unfold WordDoc.add_financial_table in E.
    unfold WordDoc.bbind at 1 in E. unfold WordDoc.emit at 1 in E.
    destruct (docx doc (WordDoc.AddTable 1 4)); [discriminate E |].
    match type of E with
    | ?m ?d = _ =>
        assert (Hk : runs docx body_call True m)
          by (do 5 (apply runs_bbind; [apply runs_emit; exact I | intros ?]);
              apply add_financial_rows_runs);
        destruct (Hk d) as (tail & r2 & E2 & _ & _)
    end.
    rewrite E2 in E. injection E as E _. rewrite <- app_assoc in E.
    apply app_inv_head in E. now subst added.
Qed.

(** ** word-document-generator.py: the recommendations *)



(** Three recommendations, the second with a NUL in its text. *)
Example add_recommendations_list_refused :
  WordDoc.add_recommendations_list strict_docx
    ["ok"; "bad" +:+ String "000"%char "text"; "later"] []
  = ([WordDoc.AddParagraph "1. ok" (Some "List Number")],
     WordDoc.Fail (WordDoc.Builtin ValueError)).
Proof. vm_compute. reflexivity. Qed.

(** ** word-document-generator.py: the outline of a report *)

(** The outline of the optional parts of a report. *)
Definition metrics_outline (data : WordDoc.report) : list WordDoc.call :=
  match WordDoc.metrics data with
  | Some _ => [WordDoc.AddHeading "Key Metrics" 1]
  | None => []
  end.

Definition financials_included (data : WordDoc.report) : bool :=
  match WordDoc.financials data with
  | Some _ => default false (WordDoc.include_financials data)
  | None => false
  end.

Definition financials_outline (data : WordDoc.report) : list WordDoc.call :=
  if financials_included data then [WordDoc.AddHeading "Financial Summary" 1] else [].

Definition at_risk (data : WordDoc.report) : bool :=
  match WordDoc.status data with
  | Some text => String.eqb text "At Risk"
  | None => false
  end.

Definition risk_outline (data : WordDoc.report) : list WordDoc.call :=
  if at_risk data then [WordDoc.AddHeading "Risk Assessment" 1] else [].

Definition recommendations_outline (data : WordDoc.report) : list WordDoc.call :=
  match WordDoc.recommendations data with
  | Some _ => [WordDoc.AddHeading "Recommendations" 1]
  | None => []
  end.

(** The outline of a report up to the project details. *)
Definition opening_outline (data : WordDoc.report) : list WordDoc.call :=
  [ WordDoc.AddHeading (default "Project Report" (WordDoc.title data)) 0;
    WordDoc.AddHeading "Executive Summary" 1;
    WordDoc.AddHeading "Project Details" 1 ].

Section ReportOutline.
Variable float_repr : float -> string.
Variable title_case : string -> string.
Variable datetime : Type.
Variable strftime : datetime -> string -> string.
Variable docx : list WordDoc.call -> WordDoc.call -> option WordDoc.raised.

(** A part of a report whose outline is [hs]: when it raises, the
    exception is the one that the library raised on the call it was about
    to make or, when [own] holds, [OverflowError] after the whole outline
    of the part. *)
Definition part (hs : list WordDoc.call) (own : Prop) (m : WordDoc.build unit) : Prop :=
  forall doc, exists added r,
    m doc = ((doc ++ added)%list, r) /\
    (r = WordDoc.Ok tt -> outline added = hs) /\
    (forall e, r = WordDoc.Fail e ->
       refused_at docx (doc ++ added) e \/
       (own /\ e = WordDoc.Builtin OverflowError /\ outline added = hs)).

Lemma part_runs (own : Prop) (m : WordDoc.build unit) :
  runs docx body_call own m -> part [] own m.
Proof.
  intros H doc. destruct (H doc) as (added & r & E & HP & Hr).
  exists added, r. split; [exact E |]. split; [intros _; now apply outline_body |].
  intros e He. destruct (Hr e He) as [Hl | [Ho ->]]; [now left |].
  right. split; [exact Ho |]. split; [reflexivity | now apply outline_body].
Qed.

Lemma part_bret (own : Prop) : part [] own (WordDoc.bret tt).
Proof. apply part_runs, runs_bret. Qed.

Lemma part_headed (text : string) (level : Z) (own : Prop) (m : WordDoc.build unit) :
  runs docx body_call own m ->
  part [WordDoc.AddHeading text level] own
    (WordDoc.bbind (WordDoc.emit docx (WordDoc.AddHeading text level)) (fun _ => m)).
Proof.
  intros H doc. unfold WordDoc.bbind, WordDoc.emit.
  destruct (docx doc (WordDoc.AddHeading text level)) as [e |] eqn:Ed.
  - exists [], (WordDoc.Fail e). rewrite app_nil_r. split; [reflexivity |].
    split; [discriminate |]. intros e' [= <-]. left. eexists. exact Ed.
  - destruct (H (doc ++ [WordDoc.AddHeading text level])%list) as (added & r & E & HP & Hr).
    exists (WordDoc.AddHeading text level :: added), r.
    rewrite E, <- app_assoc. split; [reflexivity |].
    assert (Ho : outline (WordDoc.AddHeading text level :: added)
                 = [WordDoc.AddHeading text level]).
    { unfold outline. simpl. f_equal. now apply outline_body. }
    split; [intros _; exact Ho |].
    intros e He. rewrite <- app_assoc in Hr. simpl app in Hr.
    destruct (Hr e He) as [Hl | [Hown ->]]; [now left |].
    right. split; [exact Hown |]. split; [reflexivity | exact Ho].
Qed.

(** The two ways in which a step of [generate_report] goes on or ends. *)
Lemma bbind_emit_cases {B} (c : WordDoc.call) (k : unit -> WordDoc.build B)
    (doc : list WordDoc.call) :
  WordDoc.bbind (WordDoc.emit docx c) k doc = k tt (doc ++ [c])%list \/
  exists e, refused_at docx doc e /\
            WordDoc.bbind (WordDoc.emit docx c) k doc = (doc, WordDoc.Fail e).
Proof.
  unfold WordDoc.bbind, WordDoc.emit. destruct (docx doc c) as [e |] eqn:E.
  - right. exists e. split; [now exists c | reflexivity].
  - now left.
Qed.

Lemma bbind_part {B} (hs : list WordDoc.call) (own : Prop) (m : WordDoc.build unit)
    (k : unit -> WordDoc.build B) (doc : list WordDoc.call) :
  part hs own m ->
  exists added,
    (outline added = hs /\ WordDoc.bbind m k doc = k tt (doc ++ added)%list) \/
    (exists e,
       WordDoc.bbind m k doc = ((doc ++ added)%list, WordDoc.Fail e) /\
       (refused_at docx (doc ++ added) e \/
        (own /\ e = WordDoc.Builtin OverflowError /\ outline added = hs))).
Proof.
  intros H. destruct (H doc) as (added & r & E & Hok & Hfail). exists added.
  unfold WordDoc.bbind. rewrite E. destruct r as [[] | e].
  - left. split; [now apply Hok | reflexivity].
  - right. exists e. split; [reflexivity | now apply Hfail].
Qed.

(** The path under which a report is saved. *)
Definition report_path (data : WordDoc.report) (output_path : option string)
    (now : datetime) : string :=
  match output_path with
  | Some path => path
  | None => WordDoc.default_report_path datetime strftime data now
  end.

(** A step that the library refuses ends the call; the other steps go
    on with the calls they have added. *)
Ltac refused H E :=
  rewrite E; do 2 eexists; split; [reflexivity |];
  split; [discriminate |]; intros ? [= <-]; left; exact H.

Ltac step_emit :=
  match goal with
  | |- context [WordDoc.bbind (WordDoc.emit ?d ?c) ?k ?doc] =>
      destruct (bbind_emit_cases c k doc) as [-> | (? & ?Hlib & ?E)];
        [cbv beta | refused Hlib E]
  end.

Ltac step_part H :=
  match goal with
  | |- context [WordDoc.bbind ?m ?k ?doc] =>
      let added := fresh "added" in
      let Ho := fresh "Ho" in
      destruct (bbind_part _ _ m k doc H)
        as (added & [[Ho ->] | (? & ?E & [?Hlib | (?Hown & _ & _)])]);
        [cbv beta | refused Hlib E | try contradiction]
  end.

(** The ways in which [generate_report] ends: it returns the path after
    the whole outline; or it raises what the library raised on the call it
    was about to make; or it raises [OverflowError] in the financial
    table. *)
Lemma generate_report_ends (data : WordDoc.report) (output_path : option string)
    (now : datetime) :
  let path := report_path data output_path now in
  exists calls r,
    WordDoc.generate_report float_repr title_case datetime strftime docx
      data output_path now = (calls, r) /\
    (forall p, r = WordDoc.Ok p ->
       p = path /\
       outline calls
       = (opening_outline data ++ metrics_outline data ++ financials_outline data
          ++ risk_outline data ++ recommendations_outline data
          ++ [WordDoc.Save path; WordDoc.Print ("Report generated: " +:+ path)])%list) /\
    (forall e, r = WordDoc.Fail e ->
       refused_at docx calls e \/
       (e = WordDoc.Builtin OverflowError /\
        financials_included data = true /\
        outline calls
        = (opening_outline data ++ metrics_outline data
           ++ [WordDoc.AddHeading "Financial Summary" 1])%list)).
Proof.
  intros path. unfold WordDoc.generate_report.
  fold (report_path data output_path now). fold path. cbv zeta.
  assert (Hmets : part (metrics_outline data) False
            (match WordDoc.metrics data with
             | Some items =>
                 WordDoc.bbind (WordDoc.emit docx (WordDoc.AddHeading "Key Metrics" 1))
                   (fun _ => WordDoc.add_metrics_table float_repr title_case docx items)
             | None => WordDoc.bret tt
             end)).
  { unfold metrics_outline. destruct (WordDoc.metrics data) as [items |].
    - apply part_headed, add_metrics_table_runs.
    - apply part_bret. }
  assert (Hfins : part (financials_outline data) (financials_included data = true)
            (match WordDoc.financials data with
             | Some items =>
                 WordDoc.when (default false (WordDoc.include_financials data))
                   (WordDoc.bbind
                      (WordDoc.emit docx (WordDoc.AddHeading "Financial Summary" 1))
                      (fun _ => WordDoc.add_financial_table docx items))
             | None => WordDoc.bret tt
             end)).
  { unfold financials_outline, financials_included.
    destruct (WordDoc.financials data) as [items |]; [| apply part_bret].
    destruct (default false (WordDoc.include_financials data)); simpl.
    - apply part_headed. intros doc.
      destruct (add_financial_table_runs docx items doc) as (added & r & E & HP & Hr).
      exists added, r. split; [exact E |]. split; [exact HP |].
      intros e He. destruct (Hr e He) as [Hl | [_ ->]]; [now left | now right].
    - apply part_bret. }
  assert (Hrisk : part (risk_outline data) False
            (WordDoc.when
               (match WordDoc.status data with
                | Some text => String.eqb text "At Risk"
                | None => false
                end)
               (WordDoc.bbind (WordDoc.emit docx (WordDoc.AddHeading "Risk Assessment" 1))
                  (fun _ => WordDoc.add_risk_section docx
                              (default [] (WordDoc.risk_plan data)))))).
  { unfold risk_outline, at_risk.
    destruct (match WordDoc.status data with
              | Some text => String.eqb text "At Risk"
              | None => false
              end); simpl.
    - apply part_headed, add_risk_section_runs.
    - apply part_bret. }
  assert (Hrecs : part (recommendations_outline data) False
            (match WordDoc.recommendations data with
             | Some items =>
                 WordDoc.bbind
                   (WordDoc.emit docx (WordDoc.AddHeading "Recommendations" 1))
                   (fun _ => WordDoc.add_recommendations_list docx items)
             | None => WordDoc.bret tt
             end)).
  { unfold recommendations_outline. destruct (WordDoc.recommendations data) as [items |].
    - apply part_headed, add_recommendations_list_runs.
    - apply part_bret. }
  pose proof (part_runs False _
                (add_project_details_table_runs docx float_repr title_case
                   (default [] (WordDoc.project_details data)))) as Hdetails.
  revert Hmets Hfins Hrisk Hrecs Hdetails.
  generalize (metrics_outline data) (risk_outline data) (recommendations_outline data).
  intros omets orisk orecs Hmets Hfins Hrisk Hrecs Hdetails.
  do 5 step_emit.
  step_part Hdetails.
  step_part Hmets.
  match goal with
  | |- context [WordDoc.bbind ?m ?k ?doc] =>
      destruct (bbind_part _ _ m k doc Hfins)
        as (fins & [[Hofins ->] | (e & E & [Hlib | (Hown & -> & Hofins)])]);
        [cbv beta | refused Hlib E |]
  end.
  - step_part Hrisk. step_part Hrecs. do 2 step_emit.
    unfold WordDoc.bret. do 2 eexists. split; [reflexivity |].
    split; [| discriminate]. intros p [= <-]. split; [reflexivity |].
    rewrite !outline_app, Ho, Ho0, Hofins, Ho1, Ho2.
    unfold opening_outline. simpl. rewrite <- ?app_assoc. reflexivity.
  - rewrite E. do 2 eexists. split; [reflexivity |]. split; [discriminate |].
    intros e [= <-]. right. split; [reflexivity |]. split; [exact Hown |].
    rewrite !outline_app, Ho, Ho0, Hofins.
    unfold financials_outline. rewrite Hown.
    unfold opening_outline. simpl. rewrite <- ?app_assoc. reflexivity.
Qed.

End ReportOutline.

(** X20. When [generate_report] returns, it returns the path under which
    it saved the document: the [output_path] that was given, or else the
    default name.  The headings it added are, in this order: the title at
    level 0, [Executive Summary], [Project Details], then [Key Metrics] if
    the data has metrics, [Financial Summary] if it has financials and
    [include_financials] is true, [Risk Assessment] if the status is
    exactly [At Risk], [Recommendations] if it has recommendations.  The
    save and the print of the path come last, once each. *)
Theorem generate_report_outline (float_repr : float -> string)
    (title_case : string -> string) (datetime : Type)
    (strftime : datetime -> string -> string)
    (docx : list WordDoc.call -> WordDoc.call -> option WordDoc.raised)
    (data : WordDoc.report) (output_path : option string) (now : datetime)
    (calls : list WordDoc.call) (path : string) :
  WordDoc.generate_report float_repr title_case datetime strftime docx
    data output_path now = (calls, WordDoc.Ok path) ->
  path = report_path datetime strftime data output_path now /\
  outline calls
  = (opening_outline data ++ metrics_outline data ++ financials_outline data
     ++ risk_outline data ++ recommendations_outline data
     ++ [WordDoc.Save path; WordDoc.Print ("Report generated: " +:+ path)])%list.
Proof.
  intros H.
  destruct (generate_report_ends float_repr title_case datetime strftime docx
              data output_path now) as (calls' & r & E & Hok & _).
  rewrite E in H. injection H as -> ->.
  destruct (Hok path eq_refl) as [Hp Ho]. split; [exact Hp |].
  rewrite Ho, <- Hp. reflexivity.
Qed.

(** A report on schedule, with metrics and recommendations, and financials
    that are not to be included. *)
Definition sample_report : WordDoc.report :=
  {| WordDoc.title := Some "Q1 Project Status Report";
     WordDoc.summary := None;
     WordDoc.project_details := Some [("project_manager", WordDoc.SStr "Sarah Johnson")];
     WordDoc.metrics :=
       Some [("budget_utilization",
              {| WordDoc.current := Some (WordDoc.SStr "65%"); WordDoc.target := None |})];
     WordDoc.financials :=
       Some [{| WordDoc.period := Some "Q1 2024";
                WordDoc.budget := Some (PyNum.PyInt 25000);
                WordDoc.actual := Some (PyNum.PyInt 23000) |}];
     WordDoc.include_financials := None;
     WordDoc.status := Some "On Track";
     WordDoc.risk_plan := None;
     WordDoc.recommendations := Some ["Continue monitoring"];
     WordDoc.project_name := Some "Website Redesign" |}.

Lemma generate_report_outline_witness :
  exists calls,
    WordDoc.generate_report (fun _ => EmptyString) (fun s => s) unit
      (fun _ _ => "20240315") quiet_docx sample_report None tt
    = (calls, WordDoc.Ok "report_Website_Redesign_20240315.docx") /\
    outline calls
    = [ WordDoc.AddHeading "Q1 Project Status Report" 0;
        WordDoc.AddHeading "Executive Summary" 1;
        WordDoc.AddHeading "Project Details" 1;
        WordDoc.AddHeading "Key Metrics" 1;
        WordDoc.AddHeading "Recommendations" 1;
        WordDoc.Save "report_Website_Redesign_20240315.docx";
        WordDoc.Print "Report generated: report_Website_Redesign_20240315.docx" ].
Proof.
  eexists. split; [vm_compute; reflexivity |].
  match goal with
  | |- outline ?calls = _ =>
      exact (proj2 (generate_report_outline (fun _ => EmptyString) (fun s => s) unit
                      (fun _ _ => "20240315") quiet_docx sample_report None tt calls
                      "report_Website_Redesign_20240315.docx"
                      ltac:(vm_compute; reflexivity)))
  end.
Defined.




(** A report whose title holds a NUL: the library refuses the first
    call, and nothing is added. *)
Example generate_report_refused :
  WordDoc.generate_report (fun _ => EmptyString) (fun s => s) unit
    (fun _ _ => "20240315") strict_docx
    {| WordDoc.title := Some (String "000"%char "Report");
       WordDoc.summary := None; WordDoc.project_details := None;
       WordDoc.metrics := None; WordDoc.financials := None;
       WordDoc.include_financials := None; WordDoc.status := None;
       WordDoc.risk_plan := None; WordDoc.recommendations := None;
       WordDoc.project_name := None |} None tt
  = ([], WordDoc.Fail (WordDoc.Builtin ValueError)).
Proof. vm_compute. reflexivity. Qed.

(** X22. The default name of a report holds no space, whatever the project
    name, as long as the date text holds none: the spaces of the project
    name are replaced before the name is built. *)
Theorem default_report_path_no_space (datetime : Type)
    (strftime : datetime -> string -> string) (data : WordDoc.report) (now : datetime) :
  ~ In " "%char (list_ascii_of_string (strftime now "%Y%m%d")) ->
  ~ In " "%char
      (list_ascii_of_string (WordDoc.default_report_path datetime strftime data now)).
Proof.
  intros Hdate. unfold WordDoc.default_report_path. cbv zeta.
  rewrite !list_ascii_of_string_app, !in_app_iff.
  pose proof (replace_removes " " "_" (default "project" (WordDoc.project_name data))) as Hname.
  assert (Hn : ~ In " "%char (list_ascii_of_string "_")).
  { simpl. intros [H | []]. discriminate H. }
  specialize (Hname Hn).
  intros [H | [H | [H | [H | H]]]].
  - simpl in H. repeat destruct H as [H | H]; try discriminate H; exact H.
  - exact (Hname H).
  - exact (Hn H).
  - exact (Hdate H).
  - simpl in H. repeat destruct H as [H | H]; try discriminate H; exact H.
Qed.

Lemma default_report_path_no_space_witness :
  WordDoc.default_report_path unit (fun _ _ => "20240315") sample_report tt
  = "report_Website_Redesign_20240315.docx" /\
  ~ In " "%char
      (list_ascii_of_string
         (WordDoc.default_report_path unit (fun _ _ => "20240315") sample_report tt)).
Proof.
  split; [vm_compute; reflexivity |].
  apply (default_report_path_no_space unit (fun _ _ => "20240315") sample_report tt).
  simpl. intros H. repeat destruct H as [H | H]; try discriminate H; exact H.
Defined.
